(** * IPA subdomains module: range parser, reconciler, discovery state machine

    A shallow embedding of [src/providers/ipa/ipa_subdomains.c] and the
    properties its specification states about it.

    Conventions of the embedding:
    - [errno_t]/[int] return codes are integers ([Z]) with the usual names;
    - a [const char *] field is a [cstr]: [NULL], a live string, or a
      pointer whose target was released with [talloc_free] ([Freed]);
    - NULL-terminated arrays and counted arrays are lists (the count is the
      length); loop counters over them are natural numbers;
    - every [talloc] call draws one answer from an allocation oracle;
    - [goto done] with a non-zero [ret] is the [Fail] outcome of a small
      monad; reading through a [NULL] or [Freed] pointer is [Undef]. *)

From Stdlib Require Import ZArith List String Ascii Bool Lia Permutation.
Import ListNotations.

Set Implicit Arguments.

(** ** Return codes *)

Definition errno := Z.

Definition EOK    : errno := 0%Z.
Definition ENOENT : errno := 2%Z.
Definition EIO    : errno := 5%Z.
Definition EAGAIN : errno := 11%Z.
Definition ENOMEM : errno := 12%Z.
Definition EINVAL : errno := 22%Z.
Definition ERANGE : errno := 34%Z.

(** Data-provider status handed to the completion callback. *)
Definition DP_ERR_OK      : Z := 0%Z.
Definition DP_ERR_OFFLINE : Z := 1%Z.
Definition DP_ERR_TIMEOUT : Z := 2%Z.
Definition DP_ERR_FATAL   : Z := 3%Z.

(** [ret != e] and [ret == e] on return codes. *)
Definition rc_is (ret e : errno) : bool := Z.eqb ret e.
Definition rc_isnt (ret e : errno) : bool := negb (Z.eqb ret e).

(** ** Attribute names and filters *)

Definition SUBDOMAINS_FILTER    : string := "objectclass=ipaNTTrustedDomain".
Definition MASTER_DOMAIN_FILTER : string := "objectclass=ipaNTDomainAttrs".
Definition RANGE_FILTER         : string := "objectclass=ipaIDRange".

Definition IPA_CN                 : string := "cn".
Definition IPA_FLATNAME           : string := "ipaNTFlatName".
Definition IPA_SID                : string := "ipaNTSecurityIdentifier".
Definition IPA_TRUSTED_DOMAIN_SID : string := "ipaNTTrustedDomainSID".
Definition IPA_BASE_ID            : string := "ipaBaseID".
Definition IPA_ID_RANGE_SIZE      : string := "ipaIDRangeSize".
Definition IPA_BASE_RID           : string := "ipaBaseRID".
Definition IPA_SECONDARY_BASE_RID : string := "ipaSecondaryBaseRID".
Definition OBJECTCLASS            : string := "objectClass".

(** do not refresh more often than every 5 seconds for now *)
Definition IPA_SUBDOMAIN_REFRESH_LIMIT : Z := 5%Z.

(** ** C strings *)

Inductive cstr : Type :=
| NULL
| Ptr (s : string)
| Freed.

Definition is_null (p : cstr) : bool :=
  match p with NULL => true | _ => false end.

(** ** Raw directory results

    [struct sysdb_attrs] and its two getters belong to the sysdb library.
    The getters are taken as an interface: each returns its [errno_t] and
    the value it stores through the out-parameter, which the callers read
    only when the return code is [EOK]. *)

Class SysdbAttrs (attrs : Type) : Type := {
  sysdb_attrs_get_string   : attrs -> string -> errno * string;
  sysdb_attrs_get_uint32_t : attrs -> string -> errno * Z
}.

(** ** Allocation oracle and the monad of the module's functions *)

Definition heap := list bool.

(** One allocation request: the head of the oracle says whether it
    succeeds; an exhausted oracle always succeeds. *)
Definition talloc (hp : heap) : bool * heap :=
  match hp with
  | [] => (true, [])
  | b :: hp' => (b, hp')
  end.

Inductive result (A : Type) : Type :=
| Ok (a : A)
| Fail (e : errno)
| Undef.

Arguments Fail {A} e.
Arguments Undef {A}.

Definition M (A : Type) : Type := heap -> result A * heap.

Definition ret {A} (a : A) : M A := fun hp => (Ok a, hp).

Definition fail {A} (e : errno) : M A := fun hp => (Fail e, hp).

Definition undef {A} : M A := fun hp => (Undef, hp).

Definition bind {A B} (c : M A) (k : A -> M B) : M B :=
  fun hp =>
    match c hp with
    | (Ok a, hp') => k a hp'
    | (Fail e, hp') => (Fail e, hp')
    | (Undef, hp') => (Undef, hp')
    end.

Declare Scope m_scope.
Delimit Scope m_scope with m.
Notation "x <- c ;; k" := (bind c (fun x => k))
  (at level 61, c at next level, right associativity) : m_scope.
Open Scope m_scope.

(** [talloc_zero], [talloc_array], [talloc_realloc]: success or [NULL]. *)
Definition talloc_obj : M bool :=
  fun hp => let (ok, hp') := talloc hp in (Ok ok, hp').

(** [talloc_strdup(ctx, s)] for a live [s]. *)
Definition talloc_strdup (s : string) : M cstr :=
  fun hp => let (ok, hp') := talloc hp in
            (Ok (if ok then Ptr s else NULL), hp').

(** [strcmp(p, q) != 0]; both arguments are read. *)
Definition strcmp_ne (p q : cstr) : M bool :=
  match p, q with
  | Ptr a, Ptr b => ret (negb (String.eqb a b))
  | _, _ => undef
  end.

(** ** Records of the sysdb and sdap layers used by the module *)

(** [struct sysdb_subdom]. *)
Record sysdb_subdom : Type := mk_subdom {
  subdom_realm : cstr;
  subdom_name : cstr;
  subdom_flat_name : cstr;
  subdom_id : cstr
}.

Definition set_name (p : cstr) (d : sysdb_subdom) : sysdb_subdom :=
  mk_subdom (subdom_realm d) p (subdom_flat_name d) (subdom_id d).
Definition set_realm (p : cstr) (d : sysdb_subdom) : sysdb_subdom :=
  mk_subdom p (subdom_name d) (subdom_flat_name d) (subdom_id d).
Definition set_flat_name (p : cstr) (d : sysdb_subdom) : sysdb_subdom :=
  mk_subdom (subdom_realm d) (subdom_name d) p (subdom_id d).
Definition set_id (p : cstr) (d : sysdb_subdom) : sysdb_subdom :=
  mk_subdom (subdom_realm d) (subdom_name d) (subdom_flat_name d) p.

(** [memset(&subdom, 0, sizeof(struct sysdb_subdom))] / [talloc_zero]. *)
Definition zero_subdom : sysdb_subdom := mk_subdom NULL NULL NULL NULL.

(** [struct sdap_search_base]: the fields the module reads. *)
Record sdap_search_base : Type := mk_search_base {
  basedn : string;
  scope : Z;
  filter : cstr
}.

(** [struct ipa_subdomains_ctx]; [num_subdoms] is the length of
    [subdoms], and [subdoms == NULL] is the empty list. *)
Record ipa_subdomains_ctx : Type := mk_sd_ctx {
  search_bases : list sdap_search_base;
  master_search_bases : list sdap_search_base;
  ranges_search_bases : list sdap_search_base;
  last_refreshed : Z;
  subdoms : list sysdb_subdom
}.

(** [struct ipa_options]: the three search-base lists that
    [ipa_subdom_init] reads.  The third is [ranges_search_bases] in the
    source. *)
Record ipa_options : Type := mk_ipa_options {
  subdomains_search_bases : list sdap_search_base;
  master_domain_search_bases : list sdap_search_base;
  options_ranges_search_bases : list sdap_search_base
}.

(** [struct ipa_id_ctx]: its field [ipa_options]; [sdap_id_ctx] belongs to
    the connection layer. *)
Record ipa_id_ctx : Type := mk_ipa_id_ctx {
  id_ctx_ipa_options : ipa_options
}.

(** ** Range parser *)

Record range_info : Type := mk_range_info {
  range_name : cstr;
  range_trusted_dom_sid : cstr;
  range_base_id : Z;
  range_id_range_size : Z;
  range_base_rid : Z;
  range_secondary_base_rid : Z
}.

Section Attrs.

Context {attrs : Type} `{SysdbAttrs attrs}.

(** [sysdb_attrs_get_uint32_t(reply[c], name, &field)] on a zeroed field,
    followed by [if (ret != EOK && ret != ENOENT) goto done]. *)
Definition get_optional_uint32 (a : attrs) (attr : string) : M Z :=
  let '(r, v) := sysdb_attrs_get_uint32_t a attr in
  if rc_isnt r EOK && rc_isnt r ENOENT then fail r
  else ret (if rc_is r EOK then v else 0%Z).

(** One iteration of the loop of [ipa_ranges_parse_results]. *)
Definition ipa_ranges_parse_entry (a : attrs) : M range_info :=
  ok <- talloc_obj ;;
  if negb ok then fail ENOMEM else
  let '(r, value) := sysdb_attrs_get_string a IPA_CN in
  if rc_isnt r EOK then fail r else
  name <- talloc_strdup value ;;
  if is_null name then fail ENOMEM else
  let '(r, value) := sysdb_attrs_get_string a IPA_TRUSTED_DOMAIN_SID in
  sid <- (if rc_is r EOK then
            p <- talloc_strdup value ;;
            if is_null p then fail ENOMEM else ret p
          else if rc_isnt r ENOENT then fail r
          else ret NULL) ;;
  base_id <- get_optional_uint32 a IPA_BASE_ID ;;
  id_range_size <- get_optional_uint32 a IPA_ID_RANGE_SIZE ;;
  base_rid <- get_optional_uint32 a IPA_BASE_RID ;;
  secondary_base_rid <- get_optional_uint32 a IPA_SECONDARY_BASE_RID ;;
  ret (mk_range_info name sid base_id id_range_size base_rid
                     secondary_base_rid).

Fixpoint ipa_ranges_parse_loop (reply : list attrs) : M (list range_info) :=
  match reply with
  | [] => ret []
  | a :: reply' =>
      r <- ipa_ranges_parse_entry a ;;
      rs <- ipa_ranges_parse_loop reply' ;;
      ret (r :: rs)
  end.

(** [Ok l]: returns [EOK] with [*_range_list = l].  [Fail e]: returns [e]
    after [talloc_free(range_list)], [*_range_list] untouched. *)
Definition ipa_ranges_parse_results (reply : list attrs)
  : M (list range_info) :=
  ok <- talloc_obj ;;
  if negb ok then fail ENOMEM else
  ipa_ranges_parse_loop reply.

(** ** Subdomain reconciler *)

(** [toupper] in the C locale. *)
Definition toupper (c : ascii) : ascii :=
  let n := nat_of_ascii c in
  if Nat.leb 97 n && Nat.leb n 122 then ascii_of_nat (n - 32) else c.

Fixpoint string_toupper (s : string) : string :=
  match s with
  | EmptyString => EmptyString
  | String c s' => String (toupper c) (string_toupper s')
  end.

(** [name_to_realm]: a copy of [name] in upper case, [NULL] when the copy
    cannot be allocated. *)
Definition name_to_realm (name : cstr) : M cstr :=
  match name with
  | Ptr s =>
      p <- talloc_strdup s ;;
      ret (match p with Ptr s' => Ptr (string_toupper s') | _ => NULL end)
  | NULL => ret NULL
  | Freed => undef
  end.

(** [ipa_subdom_parse].  [Ok d] is a return of [EOK] with [*subdom = d];
    [Fail e] is a return of [e]. *)
Definition ipa_subdom_parse (a : attrs) (subdom : sysdb_subdom)
  : M sysdb_subdom :=
  let '(r, value) := sysdb_attrs_get_string a IPA_CN in
  if rc_isnt r EOK then fail r else
  subdom <- (if is_null (subdom_name subdom) then
               p <- talloc_strdup value ;;
               if is_null p then fail ENOMEM else ret (set_name p subdom)
             else
               ne <- strcmp_ne (subdom_name subdom) (Ptr value) ;;
               if ne then fail EINVAL else ret subdom) ;;
  subdom <- (if is_null (subdom_realm subdom) then
               p <- name_to_realm (subdom_name subdom) ;;
               if is_null p then fail ENOMEM else ret (set_realm p subdom)
             else ret subdom) ;;
  let '(r, value) := sysdb_attrs_get_string a IPA_FLATNAME in
  if rc_isnt r 0%Z then fail r else
  (* in theory this may change, it should never happen, so we will log a
     warning if it does, but we will allow it for now *)
  subdom <- (if negb (is_null (subdom_flat_name subdom)) then
               ne <- strcmp_ne (subdom_flat_name subdom) (Ptr value) ;;
               if ne then
                 (* talloc_free(subdom->flat_name); subdom->flat_name = NULL *)
                 ret (set_flat_name NULL subdom)
               else ret subdom
             else ret subdom) ;;
  subdom <- (if is_null (subdom_flat_name subdom) then
               p <- talloc_strdup value ;;
               if is_null p then fail ENOMEM
               else ret (set_flat_name p subdom)
             else ret subdom) ;;
  let '(r, value) := sysdb_attrs_get_string a IPA_TRUSTED_DOMAIN_SID in
  if rc_isnt r 0%Z then fail r else
  subdom <- (if negb (is_null (subdom_id subdom)) then
               ne <- strcmp_ne (subdom_id subdom) (Ptr value) ;;
               if ne then
                 (* talloc_free(subdom->id); subdom->flat_name = NULL *)
                 ret (set_flat_name NULL (set_id Freed subdom))
               else ret subdom
             else ret subdom) ;;
  subdom <- (if is_null (subdom_id subdom) then
               p <- talloc_strdup value ;;
               if is_null p then fail ENOMEM else ret (set_id p subdom)
             else ret subdom) ;;
  ret subdom.

(** The inner loop of the first pass: the first index [c], counted from
    [c0], that is not yet handled and whose name equals [name]; [None]
    stands for [c >= count]. *)
Fixpoint refresh_find (name : cstr) (reply : list attrs)
  (handled : list bool) (c0 : nat) : M (option (nat * attrs)) :=
  match reply, handled with
  | a :: reply', hd :: handled' =>
      if hd then refresh_find name reply' handled' (S c0)
      else
        let '(r, value) := sysdb_attrs_get_string a IPA_CN in
        if rc_isnt r EOK then fail r else
        ne <- strcmp_ne (Ptr value) name ;;
        if ne then refresh_find name reply' handled' (S c0)
        else ret (Some (c0, a))
  | _, _ => ret None
  end.

(** [handled[c] = true]. *)
Fixpoint mark_handled (c : nat) (handled : list bool) : list bool :=
  match handled, c with
  | [], _ => []
  | _ :: t, O => true :: t
  | b :: t, S c' => b :: mark_handled c' t
  end.

(** The first pass, over the cached entries.  The array is
    [kept ++ rest] with [i = length kept]: an entry that is not found is
    dropped and the entries after it move down one slot; an entry that is
    found is updated in place, its reply marked and [h] incremented. *)
Fixpoint refresh_existing (reply : list attrs) (rest kept : list sysdb_subdom)
  (handled : list bool) (h : nat)
  : M (list sysdb_subdom * list bool * nat) :=
  match rest with
  | [] => ret (kept, handled, h)
  | d :: rest' =>
      found <- refresh_find (subdom_name d) reply handled 0 ;;
      match found with
      | None => refresh_existing reply rest' kept handled h
      | Some (c, a) =>
          d' <- ipa_subdom_parse a d ;;
          refresh_existing reply rest' (kept ++ [d'])
                           (mark_handled c handled) (S h)
      end
  end.

(** The second pass: every reply not handled is parsed into a zeroed slot
    at the end of the array. *)
Fixpoint refresh_new (reply : list attrs) (handled : list bool)
  (subdoms : list sysdb_subdom) : M (list sysdb_subdom) :=
  match reply, handled with
  | a :: reply', hd :: handled' =>
      if hd then refresh_new reply' handled' subdoms
      else
        d <- ipa_subdom_parse a zero_subdom ;;
        refresh_new reply' handled' (subdoms ++ [d])
  | _, _ => ret subdoms
  end.

(** The [done:] block of [ipa_subdomains_refresh]. *)
Definition refresh_done (ctx : ipa_subdomains_ctx) (r : errno)
  (subdoms' : list sysdb_subdom) (now : Z) : ipa_subdomains_ctx :=
  if rc_isnt r EOK then
    mk_sd_ctx (search_bases ctx) (master_search_bases ctx)
              (ranges_search_bases ctx) 0%Z []
  else
    mk_sd_ctx (search_bases ctx) (master_search_bases ctx)
              (ranges_search_bases ctx) now subdoms'.

(** [ipa_subdomains_refresh(ctx, count, reply, &changes)]: the return
    code, the context afterwards and the value of [*changes] afterwards,
    [changes] being its value before; [now] is what [time(NULL)] returns. *)
Definition ipa_subdomains_refresh (ctx : ipa_subdomains_ctx)
  (reply : list attrs) (changes : bool) (now : Z)
  : M (errno * ipa_subdomains_ctx * bool) :=
  fun hp =>
    let count := List.length reply in
    match refresh_existing reply (subdoms ctx) [] (repeat false count) 0 hp
    with
    | (Undef, hp1) => (Undef, hp1)
    | (Fail e, hp1) => (Ok (e, refresh_done ctx e [] now, changes), hp1)
    | (Ok (kept, handled, h), hp1) =>
        if Nat.eqb count h then
          (* all domains were already accounted for and have been updated *)
          (Ok (EOK, refresh_done ctx EOK kept now, changes), hp1)
        else
          (* if we get here it means we have changes to the subdomains list *)
          match (ok <- talloc_obj ;;
                 if negb ok then fail ENOMEM
                 else refresh_new reply handled kept) hp1
          with
          | (Undef, hp2) => (Undef, hp2)
          | (Fail e, hp2) => (Ok (e, refresh_done ctx e [] now, true), hp2)
          | (Ok subdoms', hp2) =>
              (Ok (EOK, refresh_done ctx EOK subdoms' now, true), hp2)
          end
    end.

(** ** Discovery state machine *)

Inductive ipa_subdomains_req_type : Type :=
| IPA_SUBDOMAINS_MASTER
| IPA_SUBDOMAINS_SLAVE
| IPA_SUBDOMAINS_RANGES
| IPA_SUBDOMAINS_MAX.

(** The completion callbacks a request can be given. *)
Inductive tevent_cb : Type :=
| CB_get_conn_done
| CB_handler_done
| CB_handler_master_done
| CB_handler_ranges_done.

Record ipa_subdomains_req_params : Type := mk_params {
  params_filter : string;
  params_cb : tevent_cb;
  params_attrs : list string
}.

(** [subdomain_requests[type]], defined for [type < IPA_SUBDOMAINS_MAX]. *)
Definition subdomain_requests (type : ipa_subdomains_req_type)
  : option ipa_subdomains_req_params :=
  match type with
  | IPA_SUBDOMAINS_MASTER =>
      Some (mk_params MASTER_DOMAIN_FILTER CB_handler_master_done
                      [IPA_CN; IPA_FLATNAME; IPA_SID])
  | IPA_SUBDOMAINS_SLAVE =>
      Some (mk_params SUBDOMAINS_FILTER CB_handler_done
                      [IPA_CN; IPA_FLATNAME; IPA_TRUSTED_DOMAIN_SID])
  | IPA_SUBDOMAINS_RANGES =>
      Some (mk_params RANGE_FILTER CB_handler_ranges_done
                      [OBJECTCLASS; IPA_CN; IPA_BASE_ID; IPA_BASE_RID;
                       IPA_SECONDARY_BASE_RID; IPA_ID_RANGE_SIZE;
                       IPA_TRUSTED_DOMAIN_SID])
  | IPA_SUBDOMAINS_MAX => None
  end.

(** Which cache handle a sysdb call is given. *)
Inductive sysdb_ref : Type :=
| be_req_sysdb
| be_ctx_sysdb.

(** [struct ipa_subdomains_req_ctx]; [reply_count] is the length of
    [req_reply].  The pointers [be_req], [sd_ctx] and [sdap_op] refer to
    the matching fields of the machine state. *)
Record ipa_subdomains_req_ctx : Type := mk_req_ctx {
  current_filter : option string;
  req_search_bases : list sdap_search_base;
  search_base_iter : nat;
  req_reply : list attrs
}.

(** What the module asks of its collaborators, in call order. *)
Inductive event : Type :=
| EvConnect
| EvSearch (type : ipa_subdomains_req_type) (base : sdap_search_base)
           (flt : string)
| EvRefresh (reply : list attrs)
| EvUpdateSubdomains (db : sysdb_ref) (l : list sysdb_subdom)
| EvUpdateRanges (db : sysdb_ref) (l : list range_info)
| EvMasterGetInfo (db : sysdb_ref)
| EvMasterAddInfo (db : sysdb_ref) (d : sysdb_subdom)
| EvReply (dp_err : Z) (r : errno).

(** The collaborators: clock, connection layer, directory search and
    cache store.  Each call may depend on, and change, the state [W] of the
    world outside the module; reading the clock does not change it. *)
Class World (W : Type) : Type := {
  time : W -> Z;
  sdap_id_op_create : W -> bool * W;
  sdap_id_op_connect_send : W -> (bool * errno) * W;
  sdap_id_op_connect_recv : W -> (errno * Z) * W;
  sdap_get_id_specific_filter :
    W -> string -> cstr -> option string * W;
  sdap_get_generic_send :
    W -> sdap_search_base -> string -> list string -> bool * W;
  sdap_get_generic_recv : W -> (errno * list attrs) * W;
  sysdb_update_subdomains : W -> sysdb_ref -> list sysdb_subdom -> errno * W;
  sysdb_update_ranges : W -> sysdb_ref -> list range_info -> errno * W;
  sysdb_master_domain_get_info :
    W -> sysdb_ref -> (errno * sysdb_subdom) * W;
  sysdb_master_domain_add_info : W -> sysdb_ref -> sysdb_subdom -> errno * W
}.

Context {W : Type} `{World W}.

(** The backend request with everything reachable from it. *)
Record state : Type := mk_state {
  st_world : W;
  st_heap : heap;
  (* be_req->be_ctx->bet_info[BET_SUBDOMAINS].pvt_bet_data *)
  st_sd_ctx : option ipa_subdomains_ctx;
  (* be_req->sysdb != NULL *)
  st_req_sysdb : bool;
  (* the run context; None before it is allocated and after talloc_free *)
  st_req_ctx : option ipa_subdomains_req_ctx;
  (* the request in flight and its callback *)
  st_pending : option tevent_cb;
  st_trace : list event
}.

Definition set_world (w : W) (st : state) : state :=
  mk_state w (st_heap st) (st_sd_ctx st) (st_req_sysdb st) (st_req_ctx st)
           (st_pending st) (st_trace st).
Definition set_heap (hp : heap) (st : state) : state :=
  mk_state (st_world st) hp (st_sd_ctx st) (st_req_sysdb st) (st_req_ctx st)
           (st_pending st) (st_trace st).
Definition set_sd_ctx (c : option ipa_subdomains_ctx) (st : state) : state :=
  mk_state (st_world st) (st_heap st) c (st_req_sysdb st) (st_req_ctx st)
           (st_pending st) (st_trace st).
Definition set_req_ctx (c : option ipa_subdomains_req_ctx) (st : state)
  : state :=
  mk_state (st_world st) (st_heap st) (st_sd_ctx st) (st_req_sysdb st) c
           (st_pending st) (st_trace st).
Definition set_pending (p : option tevent_cb) (st : state) : state :=
  mk_state (st_world st) (st_heap st) (st_sd_ctx st) (st_req_sysdb st)
           (st_req_ctx st) p (st_trace st).
Definition log (e : event) (st : state) : state :=
  mk_state (st_world st) (st_heap st) (st_sd_ctx st) (st_req_sysdb st)
           (st_req_ctx st) (st_pending st) (st_trace st ++ [e]).

(** Control flow inside one callback: go on with a value, [goto done]
    with [ret], [return] with a request in flight, or undefined
    behaviour. *)
Inductive flow (A : Type) : Type :=
| Next (a : A)
| Goto (r : errno)
| Return
| Crash.

Arguments Goto {A} r.
Arguments Return {A}.
Arguments Crash {A}.

Definition H_ (A : Type) : Type := state -> flow A * state.

Definition next {A} (a : A) : H_ A := fun st => (Next a, st).
Definition goto_done {A} (r : errno) : H_ A := fun st => (Goto r, st).
Definition return_ {A} : H_ A := fun st => (Return, st).
Definition crash {A} : H_ A := fun st => (Crash, st).

Definition hbind {A B} (c : H_ A) (k : A -> H_ B) : H_ B :=
  fun st =>
    match c st with
    | (Next a, st') => k a st'
    | (Goto r, st') => (Goto r, st')
    | (Return, st') => (Return, st')
    | (Crash, st') => (Crash, st')
    end.

Declare Scope h_scope.
Delimit Scope h_scope with h.
Notation "x <- c ;; k" := (hbind c (fun x => k))
  (at level 61, c at next level, right associativity) : h_scope.
Notation "c ;;; k" := (hbind c (fun _ => k))
  (at level 61, right associativity) : h_scope.
Close Scope m_scope.
Open Scope h_scope.

Definition modify (f : state -> state) : H_ unit :=
  fun st => (Next tt, f st).

(** A call to a collaborator. *)
Definition ask {A} (op : W -> A * W) : H_ A :=
  fun st => let (a, w) := op (st_world st) in (Next a, set_world w st).

(** A call to one of the module's own allocating functions; its return
    code is left to the caller. *)
Definition call {A} (c : M A) : H_ (result A) :=
  fun st =>
    match c (st_heap st) with
    | (Undef, hp) => (Crash, set_heap hp st)
    | (r, hp) => (Next r, set_heap hp st)
    end.

(** The run context behind the callback data pointer. *)
Definition the_req_ctx : H_ ipa_subdomains_req_ctx :=
  fun st => match st_req_ctx st with
            | Some c => (Next c, st)
            | None => (Crash, st)
            end.

Definition the_sd_ctx : H_ ipa_subdomains_ctx :=
  fun st => match st_sd_ctx st with
            | Some c => (Next c, st)
            | None => (Crash, st)
            end.

Definition modify_req (f : ipa_subdomains_req_ctx -> ipa_subdomains_req_ctx)
  : H_ unit :=
  c <- the_req_ctx ;; modify (set_req_ctx (Some (f c))).

Definition set_current_filter (f : option string)
  (c : ipa_subdomains_req_ctx) : ipa_subdomains_req_ctx :=
  mk_req_ctx f (req_search_bases c) (search_base_iter c) (req_reply c).
Definition set_search_bases (b : list sdap_search_base)
  (c : ipa_subdomains_req_ctx) : ipa_subdomains_req_ctx :=
  mk_req_ctx (current_filter c) b (search_base_iter c) (req_reply c).
Definition set_search_base_iter (i : nat)
  (c : ipa_subdomains_req_ctx) : ipa_subdomains_req_ctx :=
  mk_req_ctx (current_filter c) (req_search_bases c) i (req_reply c).
Definition set_reply (r : list attrs)
  (c : ipa_subdomains_req_ctx) : ipa_subdomains_req_ctx :=
  mk_req_ctx (current_filter c) (req_search_bases c) (search_base_iter c) r.

(** [be_req->sysdb] when set, [be_req->be_ctx->sysdb] otherwise. *)
Definition pick_sysdb (st : state) : sysdb_ref :=
  if st_req_sysdb st then be_req_sysdb else be_ctx_sysdb.

(** [ipa_subdomains_reply]: the completion callback [be_req->fn]. *)
Definition ipa_subdomains_reply (dp_err : Z) (r : errno) (st : state)
  : state :=
  log (EvReply dp_err r) st.

(** [talloc_free(ctx)] on the run context. *)
Definition free_req_ctx (st : state) : state := set_req_ctx None st.

(** A callback: its body, then the [done:] block when the body reaches
    it.  [None] is undefined behaviour. *)
Definition callback (body : H_ errno) (done : errno -> state -> state)
  (st : state) : option state :=
  match body st with
  | (Next r, st') => Some (done r st')
  | (Goto r, st') => Some (done r st')
  | (Return, st') => Some st'
  | (Crash, _) => None
  end.

(** [ctx->search_bases[ctx->search_base_iter]]: an element, or the [NULL]
    that ends the array; nothing is readable past it. *)
Definition current_base (c : ipa_subdomains_req_ctx)
  : H_ (option sdap_search_base) :=
  if Nat.ltb (List.length (req_search_bases c)) (search_base_iter c)
  then crash
  else next (nth_error (req_search_bases c) (search_base_iter c)).

Definition ipa_subdomains_handler_get (type : ipa_subdomains_req_type)
  : H_ errno :=
  match subdomain_requests type with
  | None => next EINVAL
  | Some params =>
      ctx <- the_req_ctx ;;
      base <- current_base ctx ;;
      match base with
      | None => next EOK
      | Some base =>
          flt <- ask (fun w => sdap_get_id_specific_filter
                                 w (params_filter params) (filter base)) ;;
          modify_req (set_current_filter flt) ;;;
          match flt with
          | None => next ENOMEM
          | Some flt =>
              modify (log (EvSearch type base flt)) ;;;
              req <- ask (fun w => sdap_get_generic_send
                                     w base flt (params_attrs params)) ;;
              if negb req then next ENOMEM else
              modify (set_pending (Some (params_cb params))) ;;;
              next EAGAIN
          end
      end
  end.

(** The [done:] block shared by the entry point and by the ranges and
    master callbacks. *)
Definition done_reply (r : errno) (st : state) : state :=
  let st := free_req_ctx st in
  let dp_error := if rc_is r EOK then DP_ERR_OK else DP_ERR_FATAL in
  ipa_subdomains_reply dp_error r st.

(** The entry point [ipa_subdomains_handler(be_req)]. *)
Definition ipa_subdomains_handler (st0 : state) : option state :=
  callback
    (fun st =>
       match st_sd_ctx st with
       | None => goto_done EINVAL st
       | Some ctx =>
           (if Z.gtb (last_refreshed ctx)
                     (time (st_world st) - IPA_SUBDOMAIN_REFRESH_LIMIT)
            then goto_done EOK
            else
              r <- call talloc_obj ;;
              match r with
              | Ok true =>
                  modify (set_req_ctx
                            (Some (mk_req_ctx None (search_bases ctx) 0 []))) ;;;
                  op <- ask sdap_id_op_create ;;
                  if negb op then goto_done ENOMEM else
                  modify (log EvConnect) ;;;
                  sent <- ask sdap_id_op_connect_send ;;
                  if negb (fst sent) then goto_done (snd sent) else
                  modify (set_pending (Some CB_get_conn_done)) ;;;
                  return_
              | _ => goto_done ENOMEM
              end) st
       end)
    done_reply
    (* req_ctx = NULL, no request of this run in flight yet *)
    (set_pending None (set_req_ctx None st0)).

Definition ipa_subdomains_get_conn_done (st : state) : option state :=
  let '((r, dp_error), w) := sdap_id_op_connect_recv (st_world st) in
  callback
    (if rc_isnt r 0%Z then goto_done r
     else
       r <- ipa_subdomains_handler_get IPA_SUBDOMAINS_SLAVE ;;
       if rc_isnt r EOK && rc_isnt r EAGAIN then goto_done r
       else return_)
    (fun r st => ipa_subdomains_reply dp_error r (free_req_ctx st))
    (set_world w st).

Definition ipa_subdomains_handler_done : state -> option state :=
  callback
    (recv <- ask sdap_get_generic_recv ;;
     let '(r, reply) := recv in
     if rc_isnt r EOK then goto_done r else
     (if Nat.eqb (List.length reply) 0 then next tt
      else
        ok <- call talloc_obj ;;
        match ok with
        | Ok true => modify_req (fun c => set_reply (req_reply c ++ reply) c)
        | _ => modify_req (set_reply []) ;;; goto_done ENOMEM
        end) ;;;
     modify_req (fun c => set_search_base_iter (S (search_base_iter c)) c) ;;;
     r <- ipa_subdomains_handler_get IPA_SUBDOMAINS_SLAVE ;;
     if rc_is r EAGAIN then return_
     else if rc_isnt r EOK then goto_done r else
     ctx <- the_req_ctx ;;
     sd <- the_sd_ctx ;;
     modify (log (EvRefresh (req_reply ctx))) ;;;
     res <- (fun st => call (ipa_subdomains_refresh
                               sd (req_reply ctx) false
                               (time (st_world st))) st) ;;
     match res with
     | Ok (r, sd', refresh_has_changes) =>
         modify (set_sd_ctx (Some sd')) ;;;
         if rc_isnt r EOK then goto_done r else
         (if refresh_has_changes then
            db <- (fun st => next (pick_sysdb st) st) ;;
            modify (log (EvUpdateSubdomains db (subdoms sd'))) ;;;
            r <- ask (fun w => sysdb_update_subdomains w db (subdoms sd')) ;;
            if rc_isnt r EOK then goto_done r else next tt
          else next tt) ;;;
         modify_req (fun c => set_search_bases (ranges_search_bases sd')
                                (set_search_base_iter 0 c)) ;;;
         r <- ipa_subdomains_handler_get IPA_SUBDOMAINS_RANGES ;;
         if rc_is r EAGAIN then return_
         else if rc_isnt r EOK then goto_done r else
         (* No search base for ranges available. *)
         goto_done EINVAL
     | _ => crash
     end)
    (fun r st => ipa_subdomains_reply DP_ERR_FATAL r (free_req_ctx st)).

Definition ipa_subdomains_handler_ranges_done : state -> option state :=
  callback
    (recv <- ask sdap_get_generic_recv ;;
     let '(r, reply) := recv in
     if rc_isnt r EOK then goto_done r else
     parsed <- call (ipa_ranges_parse_results reply) ;;
     match parsed with
     | Ok range_list =>
         db <- (fun st => next (pick_sysdb st) st) ;;
         modify (log (EvUpdateRanges db range_list)) ;;;
         r <- ask (fun w => sysdb_update_ranges w db range_list) ;;
         if rc_isnt r EOK then goto_done r else
         modify (log (EvMasterGetInfo db)) ;;;
         got <- ask (fun w => sysdb_master_domain_get_info w db) ;;
         let '(r, domain_info) := got in
         if rc_isnt r EOK then goto_done r else
         if is_null (subdom_flat_name domain_info)
            || is_null (subdom_id domain_info)
            || is_null (subdom_name domain_info)
         then
           sd <- the_sd_ctx ;;
           modify_req (fun c => set_search_bases (master_search_bases sd)
                                  (set_search_base_iter 0 c)) ;;;
           r <- ipa_subdomains_handler_get IPA_SUBDOMAINS_MASTER ;;
           if rc_is r EAGAIN then return_
           else if rc_isnt r EOK then goto_done r
           else next r
         else next EOK
     | Fail e => goto_done e
     | Undef => crash
     end)
    done_reply.

Definition ipa_subdomains_handler_master_done : state -> option state :=
  callback
    (recv <- ask sdap_get_generic_recv ;;
     let '(r, reply) := recv in
     if rc_isnt r EOK then goto_done r else
     match reply with
     | first :: _ =>
         ok <- call talloc_obj ;;
         match ok with
         | Ok true =>
             let '(r, tmp_str) := sysdb_attrs_get_string first IPA_FLATNAME in
             if rc_isnt r EOK then goto_done r else
             flat <- call (talloc_strdup tmp_str) ;;
             match flat with
             | Ok (Ptr f) =>
                 let '(r, tmp_str) := sysdb_attrs_get_string first IPA_SID in
                 if rc_isnt r EOK then goto_done r else
                 id <- call (talloc_strdup tmp_str) ;;
                 match id with
                 | Ok (Ptr i) =>
                     let domain_info :=
                       set_id (Ptr i) (set_flat_name (Ptr f) zero_subdom) in
                     modify (log (EvMasterAddInfo be_ctx_sysdb domain_info)) ;;;
                     r <- ask (fun w => sysdb_master_domain_add_info
                                          w be_ctx_sysdb domain_info) ;;
                     goto_done r
                 | _ => goto_done ENOMEM
                 end
             | _ => goto_done ENOMEM
             end
         | _ => goto_done ENOMEM
         end
     | [] =>
         modify_req (fun c => set_search_base_iter (S (search_base_iter c)) c) ;;;
         r <- ipa_subdomains_handler_get IPA_SUBDOMAINS_MASTER ;;
         if rc_is r EAGAIN then return_
         else if rc_isnt r EOK then goto_done r else
         (* Master domain record not found! *)
         goto_done EIO
     end)
    done_reply.

(** The event loop: the request in flight completes and its callback
    runs. *)
Definition dispatch (cb : tevent_cb) : state -> option state :=
  match cb with
  | CB_get_conn_done => ipa_subdomains_get_conn_done
  | CB_handler_done => ipa_subdomains_handler_done
  | CB_handler_master_done => ipa_subdomains_handler_master_done
  | CB_handler_ranges_done => ipa_subdomains_handler_ranges_done
  end.

Definition step (st : state) : option state :=
  match st_pending st with
  | None => Some st
  | Some cb => dispatch cb (set_pending None st)
  end.

Fixpoint run (fuel : nat) (st : state) : option state :=
  match fuel with
  | O => Some st
  | S fuel' =>
      match st_pending st with
      | None => Some st
      | Some _ =>
          match step st with
          | Some st' => run fuel' st'
          | None => None
          end
      end
  end.

(** What the module asked of its collaborators between two states. *)
Definition events_since (st st' : state) : list event :=
  skipn (List.length (st_trace st)) (st_trace st').

(** One discovery run: the entry point, then callbacks until no request
    is in flight (or the fuel is spent). *)
Definition run_discovery (fuel : nat) (st : state) : option state :=
  match ipa_subdomains_handler st with
  | Some st' => run fuel st'
  | None => None
  end.

(** ** Registration *)

(** [struct bet_ops]: the entry points a backend target registers. *)
Record bet_ops : Type := mk_bet_ops {
  handler : option (state -> option state);
  finalize : option (state -> option state)
}.

Definition ipa_subdomains_ops : bet_ops :=
  mk_bet_ops (Some ipa_subdomains_handler) None.

(** [ipa_subdom_init(be_ctx, id_ctx, &ops, &pvt_data)].  [Ok (ops, ctx)] is
    a return of [EOK] with [*ops = ops] and [*pvt_data = ctx]; [Fail e] is
    a return of [e] with both left untouched. *)
Definition ipa_subdom_init (id_ctx : ipa_id_ctx)
  : M (bet_ops * ipa_subdomains_ctx) :=
  bind talloc_obj (fun ok =>
    if negb ok then fail ENOMEM else
    let opts := id_ctx_ipa_options id_ctx in
    ret (ipa_subdomains_ops,
         mk_sd_ctx (subdomains_search_bases opts)
                   (master_domain_search_bases opts)
                   (options_ranges_search_bases opts) 0%Z [])).

End Attrs.

(** ** Predicates used to state the properties *)

Section Predicates.

Context {attrs : Type} `{SysdbAttrs attrs}.

(** The first [n] allocation requests all succeed. *)
Definition alloc_ok (n : nat) (hp : heap) : bool :=
  forallb (fun b => b) (firstn n hp).

(** An optional attribute was found or is absent. *)
Definition optional_ok (r : errno) : bool := rc_is r EOK || rc_is r ENOENT.

(** The four numeric attributes of a raw range result are each found or
    absent. *)
Definition numerics_ok (a : attrs) : bool :=
  optional_ok (fst (sysdb_attrs_get_uint32_t a IPA_BASE_ID))
  && optional_ok (fst (sysdb_attrs_get_uint32_t a IPA_ID_RANGE_SIZE))
  && optional_ok (fst (sysdb_attrs_get_uint32_t a IPA_BASE_RID))
  && optional_ok (fst (sysdb_attrs_get_uint32_t a IPA_SECONDARY_BASE_RID)).

(** A raw range result the parser accepts: the name is found and no
    optional lookup fails with anything but [ENOENT]. *)
Definition range_entry_ok (a : attrs) : bool :=
  rc_is (fst (sysdb_attrs_get_string a IPA_CN)) EOK
  && optional_ok (fst (sysdb_attrs_get_string a IPA_TRUSTED_DOMAIN_SID))
  && optional_ok (fst (sysdb_attrs_get_uint32_t a IPA_BASE_ID))
  && optional_ok (fst (sysdb_attrs_get_uint32_t a IPA_ID_RANGE_SIZE))
  && optional_ok (fst (sysdb_attrs_get_uint32_t a IPA_BASE_RID))
  && optional_ok (fst (sysdb_attrs_get_uint32_t a IPA_SECONDARY_BASE_RID)).

(** Allocations made for one accepted raw range result: the record, the
    name, and the trusted-domain identifier when there is one. *)
Definition range_entry_allocs (a : attrs) : nat :=
  if rc_is (fst (sysdb_attrs_get_string a IPA_TRUSTED_DOMAIN_SID)) EOK
  then 3 else 2.

(** Allocations of a whole parse: the array, then the entries. *)
Definition range_allocs (reply : list attrs) : nat :=
  S (list_sum (map range_entry_allocs reply)).

(** Field [v] holds the value of the numeric attribute when it is found
    and zero when it is absent. *)
Definition uint32_field_of (a : attrs) (attr : string) (v : Z) : Prop :=
  (fst (sysdb_attrs_get_uint32_t a attr) = EOK ->
   v = snd (sysdb_attrs_get_uint32_t a attr))
  /\ (fst (sysdb_attrs_get_uint32_t a attr) = ENOENT -> v = 0%Z).

(** Record [r] is the parse of raw result [a]. *)
Definition range_record_of (a : attrs) (r : range_info) : Prop :=
  range_name r = Ptr (snd (sysdb_attrs_get_string a IPA_CN))
  /\ (fst (sysdb_attrs_get_string a IPA_TRUSTED_DOMAIN_SID) = EOK ->
      range_trusted_dom_sid r
      = Ptr (snd (sysdb_attrs_get_string a IPA_TRUSTED_DOMAIN_SID)))
  /\ (fst (sysdb_attrs_get_string a IPA_TRUSTED_DOMAIN_SID) = ENOENT ->
      range_trusted_dom_sid r = NULL)
  /\ uint32_field_of a IPA_BASE_ID (range_base_id r)
  /\ uint32_field_of a IPA_ID_RANGE_SIZE (range_id_range_size r)
  /\ uint32_field_of a IPA_BASE_RID (range_base_rid r)
  /\ uint32_field_of a IPA_SECONDARY_BASE_RID (range_secondary_base_rid r).

(** A pointer that can be read or tested: not released. *)
Definition not_freed (p : cstr) : bool :=
  match p with Freed => false | _ => true end.

(** A record [ipa_subdom_parse] can work on: none of the strings it
    compares has been released. *)
Definition readable (d : sysdb_subdom) : bool :=
  not_freed (subdom_name d) && not_freed (subdom_flat_name d)
  && not_freed (subdom_id d).

(** A cached record: readable, and it has a name. *)
Definition wf_subdom (d : sysdb_subdom) : bool :=
  readable d && negb (is_null (subdom_name d)).

(** The name of a fetched result, when its lookup succeeds. *)
Definition entry_name (a : attrs) : list string :=
  if rc_is (fst (sysdb_attrs_get_string a IPA_CN)) EOK
  then [snd (sysdb_attrs_get_string a IPA_CN)] else [].

(** The names of a fetched batch, in order. *)
Definition reply_names (reply : list attrs) : list string :=
  flat_map entry_name reply.

(** The names of the results whose [handled] mark is [b]. *)
Fixpoint names_where (b : bool) (reply : list attrs) (handled : list bool)
  : list string :=
  match reply, handled with
  | a :: reply', hd :: handled' =>
      (if Bool.eqb hd b then entry_name a else [])
        ++ names_where b reply' handled'
  | _, _ => []
  end.

(** What a computation guarantees whatever the allocator answers: it is
    defined, a failure carries a non-zero code, a result satisfies [P]. *)
Definition post {A} (c : M A) (P : A -> Prop) : Prop :=
  forall hp,
    match fst (c hp) with
    | Ok a => P a
    | Fail e => e <> EOK
    | Undef => False
    end.

(** A lower-case letter of the C locale. *)
Definition lower_case (c : ascii) : bool :=
  let n := nat_of_ascii c in Nat.leb 97 n && Nat.leb n 122.

(** The return codes of the six lookups the parser makes on a raw range
    result. *)
Definition range_lookup_codes (a : attrs) : list errno :=
  [fst (sysdb_attrs_get_string a IPA_CN);
   fst (sysdb_attrs_get_string a IPA_TRUSTED_DOMAIN_SID);
   fst (sysdb_attrs_get_uint32_t a IPA_BASE_ID);
   fst (sysdb_attrs_get_uint32_t a IPA_ID_RANGE_SIZE);
   fst (sysdb_attrs_get_uint32_t a IPA_BASE_RID);
   fst (sysdb_attrs_get_uint32_t a IPA_SECONDARY_BASE_RID)].

(** How many fetched results are marked handled. *)
Definition marks (handled : list bool) : nat :=
  List.length (List.filter (fun b => b) handled).

(** The names of cached records, in order. *)
Definition subdom_names (l : list sysdb_subdom) : list string :=
  flat_map (fun d => match subdom_name d with Ptr n => [n] | _ => [] end) l.

(** [n] is one of [names]. *)
Definition has_name (names : list string) (n : string) : bool :=
  existsb (String.eqb n) names.

(** [d] is what parsing [a] into a zeroed record gives. *)
Definition parsed_from (a : attrs) (d : sysdb_subdom) : Prop :=
  exists n f i,
    sysdb_attrs_get_string a IPA_CN = (EOK, n)
    /\ sysdb_attrs_get_string a IPA_FLATNAME = (EOK, f)
    /\ sysdb_attrs_get_string a IPA_TRUSTED_DOMAIN_SID = (EOK, i)
    /\ d = mk_subdom (Ptr (string_toupper n)) (Ptr n) (Ptr f) (Ptr i).

End Predicates.

Section MachinePredicates.

Context {attrs : Type} `{SysdbAttrs attrs} {W : Type}
        `{World (attrs := attrs) W}.

(** The completion callback fired. *)
Definition is_reply (e : event (attrs := attrs)) : bool :=
  match e with
  | EvReply _ _ => true
  | _ => false
  end.

(** How many times the completion callback fired. *)
Definition replies (evs : list (event (attrs := attrs))) : nat :=
  List.length (List.filter is_reply evs).

(** What holds while a request of a run is in flight: the run context and
    the backend context are there; the cursor points at the search base of
    the request; until the reconciliation has run the cache holds
    well-formed records; and the slave stage has a search base. *)
Definition stage_ok (st : state (attrs := attrs) (W := W)) : Prop :=
  match st_pending st with
  | None => True
  | Some cb =>
      exists c sd,
        st_req_ctx st = Some c
        /\ st_sd_ctx st = Some sd
        /\ match cb with
           | CB_get_conn_done =>
               search_base_iter c = 0
               /\ req_search_bases c <> []
               /\ forallb wf_subdom (subdoms sd) = true
           | CB_handler_done =>
               search_base_iter c < List.length (req_search_bases c)
               /\ forallb wf_subdom (subdoms sd) = true
           | CB_handler_master_done =>
               search_base_iter c < List.length (req_search_bases c)
           | CB_handler_ranges_done => True
           end
  end.

(** A bound on the callbacks a run still needs. *)
Definition callbacks_left (st : state (attrs := attrs) (W := W)) : nat :=
  match st_pending st, st_req_ctx st, st_sd_ctx st with
  | Some cb, Some c, Some sd =>
      match cb with
      | CB_get_conn_done =>
          3 + List.length (req_search_bases c)
          + List.length (master_search_bases sd)
      | CB_handler_done =>
          2 + (List.length (req_search_bases c) - search_base_iter c)
          + List.length (master_search_bases sd)
      | CB_handler_ranges_done => 1 + List.length (master_search_bases sd)
      | CB_handler_master_done =>
          List.length (req_search_bases c) - search_base_iter c
      end
  | _, _, _ => 0
  end.

(** The reconciliation ran. *)
Definition reconciled (evs : list (event (attrs := attrs))) : Prop :=
  exists reply, In (EvRefresh reply) evs.

(** The ranges were handed to the store. *)
Definition ranges_stored (evs : list (event (attrs := attrs))) : Prop :=
  exists db l, In (EvUpdateRanges db l) evs.

(** The status a callback may reply with return code [r]. *)
Definition reply_status (cb : tevent_cb) (dp : Z) (r : errno) : Prop :=
  match cb with
  | CB_get_conn_done => r <> EOK
  | CB_handler_done => dp = DP_ERR_FATAL /\ r <> EOK
  | CB_handler_ranges_done | CB_handler_master_done =>
      dp = (if rc_is r EOK then DP_ERR_OK else DP_ERR_FATAL)
  end.

(** The callback a callback may leave in flight, and what it did before
    it did. *)
Definition next_stage (cb cb' : tevent_cb)
  (evs : list (event (attrs := attrs))) : Prop :=
  match cb with
  | CB_get_conn_done => cb' = CB_handler_done
  | CB_handler_done =>
      cb' = CB_handler_done
      \/ (cb' = CB_handler_ranges_done /\ reconciled evs)
  | CB_handler_ranges_done =>
      cb' = CB_handler_master_done /\ ranges_stored evs
  | CB_handler_master_done => cb' = CB_handler_master_done
  end.



End MachinePredicates.

(** ** Scripted cache entries and fetched results, for concrete runs *)

Definition cached (realm name flat id : string) : sysdb_subdom :=
  mk_subdom (Ptr realm) (Ptr name) (Ptr flat) (Ptr id).

(** ** Scripted raw results, for concrete runs *)

(** A raw result as a table from attribute name to what a lookup of it
    returns: return code, string value, numeric value.  A name that is not
    in the table is absent ([ENOENT]). *)
Definition raw_attrs : Type := list (string * (errno * string * Z)).

Fixpoint raw_lookup (k : string) (a : raw_attrs)
  : option (errno * string * Z) :=
  match a with
  | [] => None
  | (k', v) :: a' => if String.eqb k k' then Some v else raw_lookup k a'
  end.

#[export] Instance raw_SysdbAttrs : SysdbAttrs raw_attrs := {
  sysdb_attrs_get_string a k :=
    match raw_lookup k a with
    | Some (r, s, _) => (r, s)
    | None => (ENOENT, EmptyString)
    end;
  sysdb_attrs_get_uint32_t a k :=
    match raw_lookup k a with
    | Some (r, _, n) => (r, n)
    | None => (ENOENT, 0%Z)
    end
}.

Definition str (k v : string) : string * (errno * string * Z) :=
  (k, (EOK, v, 0%Z)).
Definition num (k : string) (n : Z) : string * (errno * string * Z) :=
  (k, (EOK, EmptyString, n)).
Definition broken (k : string) (e : errno) : string * (errno * string * Z) :=
  (k, (e, EmptyString, 0%Z)).

Definition fetched (name flat id : string) : raw_attrs :=
  [str IPA_CN name; str IPA_FLATNAME flat; str IPA_TRUSTED_DOMAIN_SID id].

(** ** A scripted world, for concrete runs *)

(** The answers the collaborators give: a fixed clock, fixed return codes,
    and the results of the successive directory searches, in order. *)
Record script : Type := mk_script {
  sc_clock : Z;
  sc_op_create : bool;
  sc_connect_send : bool * errno;
  sc_connect_recv : errno * Z;
  sc_searches : list (errno * list raw_attrs);
  sc_update_subdomains : errno;
  sc_update_ranges : errno;
  sc_master_info : errno * sysdb_subdom;
  sc_master_add : errno
}.

Definition next_search (w : script) : (errno * list raw_attrs) * script :=
  match sc_searches w with
  | [] => ((EIO, []), w)
  | answer :: rest =>
      (answer,
       mk_script (sc_clock w) (sc_op_create w) (sc_connect_send w)
                 (sc_connect_recv w) rest (sc_update_subdomains w)
                 (sc_update_ranges w) (sc_master_info w) (sc_master_add w))
  end.

#[export] Instance script_World : World (attrs := raw_attrs) script := {
  time w := sc_clock w;
  sdap_id_op_create w := (sc_op_create w, w);
  sdap_id_op_connect_send w := (sc_connect_send w, w);
  sdap_id_op_connect_recv w := (sc_connect_recv w, w);
  sdap_get_id_specific_filter w flt extra :=
    (Some match extra with
          | Ptr e => String.append "(&(" (String.append flt
                       (String.append ")" (String.append e ")")))
          | _ => flt
          end, w);
  sdap_get_generic_send w _ _ _ := (true, w);
  sdap_get_generic_recv w := next_search w;
  sysdb_update_subdomains w _ _ := (sc_update_subdomains w, w);
  sysdb_update_ranges w _ _ := (sc_update_ranges w, w);
  sysdb_master_domain_get_info w _ := (sc_master_info w, w);
  sysdb_master_domain_add_info w _ _ := (sc_master_add w, w)
}.

(** A world in which everything succeeds: the clock reads 1000, the
    connection is made, the searches answer [searches], the stores accept,
    and the cache holds no master domain information yet. *)
Definition friendly (searches : list (errno * list raw_attrs)) : script :=
  mk_script 1000 true (true, EOK) (EOK, DP_ERR_OK) searches EOK EOK
            (EOK, zero_subdom) EOK.

(** A search base with no filter of its own. *)
Definition base_at (dn : string) : sdap_search_base :=
  mk_search_base dn 2 NULL.

(** The state in which the backend hands a request to the module: nothing
    allocated, nothing in flight, nothing asked yet. *)
Definition fresh (w : script) (hp : heap) (ctx : ipa_subdomains_ctx)
  : state (attrs := raw_attrs) :=
  mk_state w hp (Some ctx) false None None [].

(** The state a run leaves after [n] callbacks. *)
Definition after (n : nat) (st : state (attrs := raw_attrs) (W := script))
  : state :=
  match run_discovery n st with
  | Some st' => st'
  | None => st
  end.

(** One slave base, one master base, two ranges bases, an empty cache. *)
Definition two_ranges_config : ipa_subdomains_ctx :=
  mk_sd_ctx [base_at "cn=trusts"] [base_at "cn=ad"]
            [base_at "cn=ranges"; base_at "cn=ranges2"] 0 [].

(** No slave base. *)
Definition no_slave_base_config : ipa_subdomains_ctx :=
  mk_sd_ctx [] [base_at "cn=ad"] [base_at "cn=ranges"] 0 [].

(** A complete run: one subdomain, one range, one master record. *)
Definition full_run : state :=
  fresh (friendly [(EOK, [fetched "a.test" "A" "S-1"]);
                   (EOK, [[str IPA_CN "R1"]]);
                   (EOK, [[str IPA_FLATNAME "M"; str IPA_SID "S-0"]])])
        [] two_ranges_config.

(** The same run when the reply of the slave search is due, when the
    reply of the ranges search is due, and when the reply of the master
    search is due. *)
Definition slave_reply_due : state :=
  Eval vm_compute in set_pending None (after 1 full_run).

Definition ranges_reply_due : state :=
  Eval vm_compute in after 2 full_run.

Definition master_reply_pending : state :=
  Eval vm_compute in after 3 full_run.

Definition master_reply_due : state :=
  Eval vm_compute in set_pending None master_reply_pending.

(** A run whose ranges search returns a result without a name. *)
Definition nameless_range_run : state :=
  fresh (friendly [(EOK, [fetched "a.test" "A" "S-1"]);
                   (EOK, [[num IPA_BASE_ID 1000]])])
        [] two_ranges_config.

(** A run in which the store of the reconciled snapshot fails. *)
Definition failing_store_run : state :=
  fresh (mk_script 1000 true (true, EOK) (EOK, DP_ERR_OK)
                   [(EOK, [fetched "a.test" "A" "S-1"])] EIO EOK
                   (EOK, zero_subdom) EOK)
        [] two_ranges_config.

(** A run whose master search returns a result without a flat name. *)
Definition flatless_master_run : state :=
  fresh (friendly [(EOK, [fetched "a.test" "A" "S-1"]);
                   (EOK, [[str IPA_CN "R1"]]);
                   (EOK, [[str IPA_SID "S-0"]])])
        [] two_ranges_config.

(** A run whose connection attempt fails with the backend offline. *)
Definition offline_run : state :=
  fresh (mk_script 1000 true (true, EOK) (EIO, DP_ERR_OFFLINE)
                   [] EOK EOK (EOK, zero_subdom) EOK)
        [] two_ranges_config.

(** The offline run when the reply of the connection request is due. *)
Definition connecting_offline : state :=
  Eval vm_compute in after 0 offline_run.


Definition full_run_end : state :=
  Eval vm_compute in after 10 full_run.

(** Two slave bases. *)
Definition two_slave_config : ipa_subdomains_ctx :=
  mk_sd_ctx [base_at "cn=trusts"; base_at "cn=trusts2"] [base_at "cn=ad"]
            [base_at "cn=ranges"] 0 [].

Definition two_slave_run : state :=
  fresh (friendly [(EOK, [fetched "a.test" "A" "S-1"]);
                   (EOK, [fetched "b.test" "B" "S-2"]);
                   (EOK, [[str IPA_CN "R1"]]);
                   (EOK, [[str IPA_FLATNAME "M"; str IPA_SID "S-0"]])])
        [] two_slave_config.

(** That run when the reply of the first slave search is due, and when
    the second slave search is in flight. *)
Definition first_slave_reply_due : state :=
  Eval vm_compute in set_pending None (after 1 two_slave_run).

Definition second_slave_search : state :=
  Eval vm_compute in after 2 two_slave_run.

(** No ranges base. *)
Definition no_ranges_base_config : ipa_subdomains_ctx :=
  mk_sd_ctx [base_at "cn=trusts"] [base_at "cn=ad"] [] 0 [].

Definition no_ranges_base_run : state :=
  fresh (friendly [(EOK, [fetched "a.test" "A" "S-1"])])
        [] no_ranges_base_config.

Definition no_ranges_base_connecting : state :=
  Eval vm_compute in after 0 no_ranges_base_run.

Definition no_ranges_base_end : state :=
  Eval vm_compute in after 10 no_ranges_base_run.

(** A run whose master search finds nothing. *)
Definition master_not_found_run : state :=
  fresh (friendly [(EOK, [fetched "a.test" "A" "S-1"]);
                   (EOK, [[str IPA_CN "R1"]]);
                   (EOK, [])])
        [] two_ranges_config.

Definition master_not_found_reply_due : state :=
  Eval vm_compute in set_pending None (after 3 master_not_found_run).

(** A run on a cache that already holds the master domain information. *)
Definition known_master_run : state :=
  fresh (mk_script 1000 true (true, EOK) (EOK, DP_ERR_OK)
                   [(EOK, [fetched "a.test" "A" "S-1"]);
                    (EOK, [[str IPA_CN "R1"]])] EOK EOK
                   (EOK, cached "IPA.TEST" "ipa.test" "IPA" "S-0") EOK)
        [] two_ranges_config.

Definition known_master_ranges_due : state :=
  Eval vm_compute in set_pending None (after 2 known_master_run).

(** The options of a backend with one base for each search. *)
Definition one_base_each : ipa_id_ctx :=
  mk_ipa_id_ctx (mk_ipa_options [base_at "cn=trusts"] [base_at "cn=ad"]
                                [base_at "cn=ranges"]).

(** Caches and batches for the reconciler. *)
Definition ab_cache : ipa_subdomains_ctx :=
  mk_sd_ctx [] [] [] 0
    [cached "A.TEST" "a.test" "A" "S-1"; cached "B.TEST" "b.test" "B" "S-2"].

Definition ac_batch : list raw_attrs :=
  [fetched "a.test" "A" "S-1"; fetched "c.test" "C" "S-3"].

Definition ac_cache : ipa_subdomains_ctx :=
  mk_sd_ctx [] [] [] 100
    [cached "A.TEST" "a.test" "A" "S-1"; cached "C.TEST" "c.test" "C" "S-3"].

Definition empty_cache : ipa_subdomains_ctx := mk_sd_ctx [] [] [] 0 [].

(** The cache after a reconciliation at time 998. *)
Definition refreshed_config : ipa_subdomains_ctx :=
  mk_sd_ctx [base_at "cn=trusts"] [base_at "cn=ad"]
            [base_at "cn=ranges"; base_at "cn=ranges2"] 998
            [cached "A.TEST" "a.test" "A" "S-1"].

(** What registration on [one_base_each] hands to the backend, and a run
    on it. *)
Definition registered_config : ipa_subdomains_ctx :=
  mk_sd_ctx [base_at "cn=trusts"] [base_at "cn=ad"] [base_at "cn=ranges"]
            0 [].

Definition registered_run : state :=
  fresh (friendly [(EOK, [fetched "a.test" "A" "S-1"]);
                   (EOK, [[str IPA_CN "R1"]]);
                   (EOK, [[str IPA_FLATNAME "M"; str IPA_SID "S-0"]])])
        [] registered_config.

(** * Properties *)

(** Case analysis on the innermost test of a term under execution. *)
Ltac innermost x :=
  lazymatch x with
  | context [match _ with _ => _ end] => fail
  | _ => idtac
  end.

Ltac case_on x :=
  lazymatch x with
  | negb ?y => case_on y
  | _ => first [ is_var x; destruct x
               | let E := fresh "E" in destruct x eqn:E ]
  end.

(** Symbolic execution of a computation of the allocation monad: unfold
    the monad and split on every test the code makes. *)
Ltac simpl_m H :=
  unfold bind, ret, fail, undef, talloc_obj, talloc_strdup, strcmp_ne,
    name_to_realm in H;
  cbn [fst snd is_null negb andb orb
         subdom_realm subdom_name subdom_flat_name subdom_id
         set_name set_realm set_flat_name set_id zero_subdom] in H.

Ltac split_m H :=
  repeat (simpl_m H;
          match type of H with
          | context [match ?x with _ => _ end] => innermost x; case_on x
          end).

Section BasicFacts.

Lemma rc_is_true_iff r e : rc_is r e = true <-> r = e.
Proof. unfold rc_is. apply Z.eqb_eq. Qed.

Lemma rc_is_false_iff r e : rc_is r e = false <-> r <> e.
Proof. unfold rc_is. apply Z.eqb_neq. Qed.

Lemma rc_isnt_true_iff r e : rc_isnt r e = true <-> r <> e.
Proof. unfold rc_isnt. rewrite negb_true_iff. apply Z.eqb_neq. Qed.

Lemma rc_isnt_false_iff r e : rc_isnt r e = false <-> r = e.
Proof. unfold rc_isnt. rewrite negb_false_iff. apply Z.eqb_eq. Qed.

Lemma rc_isnt_is r e : rc_isnt r e = negb (rc_is r e).
Proof. reflexivity. Qed.

Lemma alloc_ok_0 hp : alloc_ok 0 hp = true.
Proof. reflexivity. Qed.

Lemma alloc_ok_S n hp :
  alloc_ok (S n) hp = fst (talloc hp) && alloc_ok n (snd (talloc hp)).
Proof. destruct hp as [|b hp]; [destruct n|]; reflexivity. Qed.

Lemma alloc_ok_add n m hp :
  alloc_ok (n + m) hp = alloc_ok n hp && alloc_ok m (skipn n hp).
Proof.
  revert hp. induction n as [|n IH]; intros hp; [reflexivity|].
  destruct hp as [|b hp].
  - unfold alloc_ok. rewrite skipn_nil, !firstn_nil. reflexivity.
  - unfold alloc_ok in *. simpl. now rewrite IH, andb_assoc.
Qed.

Lemma skipn_S_talloc n hp : skipn (S n) hp = skipn n (snd (talloc hp)).
Proof. destruct hp; simpl; [now rewrite skipn_nil | reflexivity]. Qed.

Lemma bind_eq {A B} (c : M A) (k : A -> M B) hp :
  bind c k hp
  = match c hp with
    | (Ok a, hp') => k a hp'
    | (Fail e, hp') => (Fail e, hp')
    | (Undef, hp') => (Undef, hp')
    end.
Proof. reflexivity. Qed.

Lemma bind_talloc_obj {B} (k : bool -> M B) hp :
  bind talloc_obj k hp = k (fst (talloc hp)) (snd (talloc hp)).
Proof. unfold bind, talloc_obj. now destruct (talloc hp). Qed.

Lemma bind_talloc_strdup {B} s (k : cstr -> M B) hp :
  bind (talloc_strdup s) k hp
  = k (if fst (talloc hp) then Ptr s else NULL) (snd (talloc hp)).
Proof. unfold bind, talloc_strdup. now destruct (talloc hp). Qed.

Lemma bind_ret {A B} (a : A) (k : A -> M B) hp : bind (ret a) k hp = k a hp.
Proof. reflexivity. Qed.

Lemma bind_fail {A B} e (k : A -> M B) hp :
  bind (fail e) k hp = (Fail e, hp).
Proof. reflexivity. Qed.

Lemma bind_undef {A B} (k : A -> M B) hp :
  bind undef k hp = (Undef, hp).
Proof. reflexivity. Qed.

End BasicFacts.

(** ** Range parser *)

Section RangeParser.

Context {attrs : Type} `{SysdbAttrs attrs}.

Lemma get_optional_uint32_spec (a : attrs) (attr : string) (hp : heap) :
  match get_optional_uint32 a attr hp with
  | (Ok v, hp') =>
      hp' = hp
      /\ optional_ok (fst (sysdb_attrs_get_uint32_t a attr)) = true
      /\ uint32_field_of a attr v
  | (Fail e, _) =>
      e <> EOK /\ optional_ok (fst (sysdb_attrs_get_uint32_t a attr)) = false
  | (Undef, _) => False
  end.
Proof.
  unfold get_optional_uint32, uint32_field_of, optional_ok.
  destruct (sysdb_attrs_get_uint32_t a attr) as [r v]; simpl.
  rewrite !rc_isnt_is.
  destruct (rc_is r EOK) eqn:E1; simpl.
  - apply rc_is_true_iff in E1. subst r. repeat split; auto.
    intros E; discriminate E.
  - destruct (rc_is r ENOENT) eqn:E2; simpl.
    + apply rc_is_true_iff in E2. apply rc_is_false_iff in E1.
      repeat split; auto. intros E; contradiction.
    + apply rc_is_false_iff in E1. split; auto.
Qed.

Lemma parse_entry_numerics (a : attrs) (name sid : cstr) (hp : heap) :
  match (base_id <- get_optional_uint32 a IPA_BASE_ID ;;
         id_range_size <- get_optional_uint32 a IPA_ID_RANGE_SIZE ;;
         base_rid <- get_optional_uint32 a IPA_BASE_RID ;;
         secondary_base_rid <- get_optional_uint32 a IPA_SECONDARY_BASE_RID ;;
         ret (mk_range_info name sid base_id id_range_size base_rid
                            secondary_base_rid)) hp
  with
  | (Ok r, hp') =>
      hp' = hp /\ numerics_ok a = true
      /\ range_name r = name /\ range_trusted_dom_sid r = sid
      /\ uint32_field_of a IPA_BASE_ID (range_base_id r)
      /\ uint32_field_of a IPA_ID_RANGE_SIZE (range_id_range_size r)
      /\ uint32_field_of a IPA_BASE_RID (range_base_rid r)
      /\ uint32_field_of a IPA_SECONDARY_BASE_RID (range_secondary_base_rid r)
  | (Fail e, _) => e <> EOK /\ numerics_ok a = false
  | (Undef, _) => False
  end.
Proof.
  unfold bind, numerics_ok.
  pose proof (get_optional_uint32_spec a IPA_BASE_ID hp) as B1.
  destruct (get_optional_uint32 a IPA_BASE_ID hp) as [[v1|e1|] hp1];
    [destruct B1 as (-> & -> & F1) | destruct B1 as (B1 & ->); auto | auto].
  pose proof (get_optional_uint32_spec a IPA_ID_RANGE_SIZE hp) as B2.
  destruct (get_optional_uint32 a IPA_ID_RANGE_SIZE hp) as [[v2|e2|] hp2];
    [destruct B2 as (-> & -> & F2) | destruct B2 as (B2 & ->); auto | auto].
  pose proof (get_optional_uint32_spec a IPA_BASE_RID hp) as B3.
  destruct (get_optional_uint32 a IPA_BASE_RID hp) as [[v3|e3|] hp3];
    [destruct B3 as (-> & -> & F3) | destruct B3 as (B3 & ->); auto | auto].
  pose proof (get_optional_uint32_spec a IPA_SECONDARY_BASE_RID hp) as B4.
  destruct (get_optional_uint32 a IPA_SECONDARY_BASE_RID hp)
    as [[v4|e4|] hp4];
    [destruct B4 as (-> & -> & F4) | destruct B4 as (B4 & ->); auto | auto].
  simpl. repeat split; assumption || apply F1 || apply F2 || apply F3
                       || apply F4.
Qed.

Lemma parse_entry_spec (a : attrs) (hp : heap) :
  match ipa_ranges_parse_entry a hp with
  | (Ok r, hp') =>
      range_entry_ok a = true
      /\ alloc_ok (range_entry_allocs a) hp = true
      /\ hp' = skipn (range_entry_allocs a) hp
      /\ range_record_of a r
  | (Fail e, _) =>
      e <> EOK
      /\ (range_entry_ok a = false
          \/ alloc_ok (range_entry_allocs a) hp = false)
  | (Undef, _) => False
  end.
Proof.
  assert (Hok : range_entry_ok a
                = rc_is (fst (sysdb_attrs_get_string a IPA_CN)) EOK
                  && optional_ok
                       (fst (sysdb_attrs_get_string a IPA_TRUSTED_DOMAIN_SID))
                  && numerics_ok a).
  { unfold range_entry_ok, numerics_ok. now rewrite !andb_assoc. }
  rewrite Hok. clear Hok.
  unfold ipa_ranges_parse_entry, range_entry_allocs, range_record_of.
  pose proof (parse_entry_numerics a) as N.
  destruct (sysdb_attrs_get_string a IPA_CN) as [rn vn].
  destruct (sysdb_attrs_get_string a IPA_TRUSTED_DOMAIN_SID) as [rs vs].
  simpl fst; simpl snd. unfold optional_ok. rewrite !rc_isnt_is.
  rewrite bind_talloc_obj.
  destruct (talloc hp) as [ok1 hp1] eqn:T1; cbn [fst snd].
  assert (A2 : alloc_ok 2 hp = ok1 && fst (talloc hp1)).
  { rewrite !alloc_ok_S, T1. simpl. now rewrite andb_true_r. }
  assert (A3 : alloc_ok 3 hp
               = ok1 && fst (talloc hp1) && fst (talloc (snd (talloc hp1)))).
  { rewrite !alloc_ok_S, T1. simpl. now rewrite andb_true_r, andb_assoc. }
  assert (S2 : skipn 2 hp = snd (talloc hp1)).
  { rewrite !skipn_S_talloc, T1. reflexivity. }
  assert (S3 : skipn 3 hp = snd (talloc (snd (talloc hp1)))).
  { rewrite !skipn_S_talloc, T1. reflexivity. }
  clear T1.
  destruct (rc_is rs EOK) eqn:Es; [rewrite A3, S3 | rewrite A2, S2];
    clear A2 A3 S2 S3;
    (destruct ok1; cbn [negb];
     [| split; [discriminate | now right]]);
    (destruct (rc_is rn EOK) eqn:En; cbn [negb];
     [| apply rc_is_false_iff in En; split; [exact En | now left]]);
    rewrite bind_talloc_strdup;
    (destruct (talloc hp1) as [ok2 hp2]; cbn [fst snd]);
    (destruct ok2; cbn [is_null];
     [| split; [discriminate | now right]]);
    rewrite bind_eq.
  - rewrite bind_talloc_strdup.
    destruct (talloc hp2) as [ok3 hp3]; cbn [fst snd].
    destruct ok3; cbn [is_null];
      [| split; [discriminate | now right]].
    unfold ret at 1.
    specialize (N (Ptr vn) (Ptr vs) hp3).
    destruct (bind (get_optional_uint32 a IPA_BASE_ID) _ hp3)
      as [[r|e|] hp']; [| |exact N].
    + destruct N as (-> & -> & N1 & N2 & N3).
      apply rc_is_true_iff in Es. subst rs.
      repeat split; try assumption; try apply N3;
        try (intros _; assumption).
      intros E. unfold EOK, ENOENT in E. discriminate E.
    + destruct N as (N & ->). split; [exact N | now left].
  - cbn [orb]. destruct (rc_is rs ENOENT) eqn:Es'; cbn [negb].
    + unfold ret at 1.
      specialize (N (Ptr vn) NULL hp2).
      destruct (bind (get_optional_uint32 a IPA_BASE_ID) _ hp2)
        as [[r|e|] hp']; [| |exact N].
      * destruct N as (-> & -> & N1 & N2 & N3).
        apply rc_is_false_iff in Es.
        repeat split; try assumption; try apply N3;
          try (intros _; assumption).
        intros E. contradiction.
      * destruct N as (N & ->). split; [exact N | now left].
    + unfold fail at 1. apply rc_is_false_iff in Es.
      split; [exact Es | now left].
Qed.

Lemma parse_loop_spec (reply : list attrs) (hp : heap) :
  match ipa_ranges_parse_loop reply hp with
  | (Ok l, hp') =>
      forallb range_entry_ok reply = true
      /\ alloc_ok (list_sum (map range_entry_allocs reply)) hp = true
      /\ Forall2 range_record_of reply l
  | (Fail e, _) =>
      e <> EOK
      /\ (forallb range_entry_ok reply
          && alloc_ok (list_sum (map range_entry_allocs reply)) hp = false)
  | (Undef, _) => False
  end.
Proof.
  revert hp. induction reply as [|a reply IH]; intros hp.
  - simpl. repeat split. constructor.
  - cbn [ipa_ranges_parse_loop forallb].
    change (list_sum (map range_entry_allocs (a :: reply)))
      with (range_entry_allocs a + list_sum (map range_entry_allocs reply)).
    rewrite bind_eq, alloc_ok_add.
    pose proof (parse_entry_spec a hp) as E.
    destruct (ipa_ranges_parse_entry a hp) as [[r|e|] hp1]; [| |exact E].
    + destruct E as (-> & -> & -> & R). rewrite bind_eq.
      specialize (IH (skipn (range_entry_allocs a) hp)).
      destruct (ipa_ranges_parse_loop reply _) as [[l|e|] hp2]; [| |exact IH].
      * destruct IH as (-> & -> & F). unfold ret.
        repeat split. now constructor.
      * destruct IH as (IH & F). split; [exact IH | exact F].
    + destruct E as (E & [-> | ->]); split; auto.
      now rewrite andb_false_r.
Qed.

(** The range parser dereferences no released or unset pointer. *)
Lemma ipa_ranges_parse_results_defined (reply : list attrs) (hp : heap) :
  fst (ipa_ranges_parse_results reply hp) <> Undef.
Proof.
  unfold ipa_ranges_parse_results. rewrite bind_talloc_obj.
  destruct (talloc hp) as [ok hp1]; cbn [fst snd].
  destruct ok; cbn [negb]; [|discriminate].
  pose proof (parse_loop_spec reply hp1) as L.
  destruct (ipa_ranges_parse_loop reply hp1) as [[l|e|] hp2];
    [discriminate | discriminate | contradiction].
Qed.

(** C9, as amended: the parse fails exactly when some raw result is not
    accepted (its name lookup fails, or the lookup of an optional attribute
    fails with an error other than absence) or one of the allocations the
    parse makes fails; otherwise it returns one record per raw result, in
    input order, each absent numeric field zero and an absent
    trusted-domain identifier [NULL]. *)
Theorem ipa_ranges_parse_results_complete (reply : list attrs) (hp : heap) :
  if forallb range_entry_ok reply && alloc_ok (range_allocs reply) hp
  then exists l,
         fst (ipa_ranges_parse_results reply hp) = Ok l
         /\ Forall2 range_record_of reply l
  else exists e,
         e <> EOK /\ fst (ipa_ranges_parse_results reply hp) = Fail e.
Proof.
  unfold ipa_ranges_parse_results, range_allocs.
  rewrite bind_talloc_obj, alloc_ok_S.
  destruct (talloc hp) as [ok hp1]; cbn [fst snd].
  destruct ok; cbn [negb andb].
  - pose proof (parse_loop_spec reply hp1) as L.
    destruct (ipa_ranges_parse_loop reply hp1) as [[l|e|] hp2];
      [| |contradiction].
    + destruct L as (-> & -> & F). exists l. split; [reflexivity | exact F].
    + destruct L as (L & ->). exists e. split; [exact L | reflexivity].
  - rewrite andb_false_r. exists ENOMEM. split; [discriminate | reflexivity].
Qed.

(** *** Failure codes *)

Lemma parse_entry_failure (a : attrs) (hp hp' : heap) (e : errno) :
  ipa_ranges_parse_entry a hp = (Fail e, hp') ->
  e = ENOMEM \/ (In e (range_lookup_codes a) /\ range_entry_ok a = false).
Proof.
  unfold ipa_ranges_parse_entry, get_optional_uint32, range_lookup_codes,
    range_entry_ok, optional_ok.
  destruct (sysdb_attrs_get_string a IPA_CN) as [rn vn].
  destruct (sysdb_attrs_get_string a IPA_TRUSTED_DOMAIN_SID) as [rs vs].
  destruct (sysdb_attrs_get_uint32_t a IPA_BASE_ID) as [r1 v1].
  destruct (sysdb_attrs_get_uint32_t a IPA_ID_RANGE_SIZE) as [r2 v2].
  destruct (sysdb_attrs_get_uint32_t a IPA_BASE_RID) as [r3 v3].
  destruct (sysdb_attrs_get_uint32_t a IPA_SECONDARY_BASE_RID) as [r4 v4].
  cbn [fst snd]. rewrite !rc_isnt_is.
  intros P. split_m P.
  all: try discriminate P.
  all: injection P as <- <-.
  all: try (left; reflexivity).
  all: right; cbn [In andb orb]; rewrite ?andb_false_r; split; auto 10.
  all: repeat match goal with
         | |- context [rc_is ?r ?c] => destruct (rc_is r c)
         end; cbn [negb andb orb] in *; congruence.
Qed.

Lemma parse_loop_failure (reply : list attrs) :
  forall (hp hp' : heap) (e : errno),
    ipa_ranges_parse_loop reply hp = (Fail e, hp') ->
    e = ENOMEM
    \/ exists a, In a reply /\ In e (range_lookup_codes a)
                 /\ range_entry_ok a = false.
Proof.
  induction reply as [|a reply IH]; intros hp hp' e P.
  - discriminate P.
  - cbn [ipa_ranges_parse_loop] in P. rewrite bind_eq in P.
    destruct (ipa_ranges_parse_entry a hp) as [[r|e1|] hp1] eqn:E;
      [| |discriminate P].
    + rewrite bind_eq in P.
      destruct (ipa_ranges_parse_loop reply hp1) as [[l|e2|] hp2] eqn:L;
        [discriminate P| |discriminate P].
      injection P as <- <-.
      destruct (IH _ _ _ L) as [-> | (b & I & C)]; [now left|].
      right. exists b. split; [now right | exact C].
    + injection P as <- <-.
      destruct (parse_entry_failure _ _ E) as [-> | C]; [now left|].
      right. exists a. split; [now left | exact C].
Qed.

Lemma ipa_ranges_parse_results_fail_nonzero (reply : list attrs)
  (hp hp' : heap) (e : errno) :
  ipa_ranges_parse_results reply hp = (Fail e, hp') -> e <> EOK.
Proof.
  unfold ipa_ranges_parse_results. rewrite bind_talloc_obj.
  destruct (talloc hp) as [[] hp1]; cbn [fst snd negb].
  - pose proof (parse_loop_spec reply hp1) as L. intros P.
    rewrite P in L. apply L.
  - intros P. injection P as <- _. discriminate.
Qed.

(** X22: a failure of the range parser carries a non-zero code, which is
    [ENOMEM] or the return code of a lookup that failed on one of the raw
    results, a result the parser does not accept. *)
Theorem ipa_ranges_parse_results_failure_code (reply : list attrs)
  (hp : heap) (e : errno) :
  fst (ipa_ranges_parse_results reply hp) = Fail e ->
  e <> EOK
  /\ (e = ENOMEM
      \/ exists a, In a reply /\ In e (range_lookup_codes a)
                   /\ range_entry_ok a = false).
Proof.
  intros P. split.
  - unfold ipa_ranges_parse_results in P. rewrite bind_talloc_obj in P.
    destruct (talloc hp) as [[] hp1]; cbn [fst snd negb] in P.
    + pose proof (parse_loop_spec reply hp1) as L.
      destruct (ipa_ranges_parse_loop reply hp1) as [[l|e1|] hp2];
        cbn [fst] in P; [discriminate P| |discriminate P].
      injection P as <-. apply L.
    + injection P as <-. discriminate.
  - unfold ipa_ranges_parse_results in P. rewrite bind_talloc_obj in P.
    destruct (talloc hp) as [[] hp1]; cbn [fst snd negb] in P.
    + destruct (ipa_ranges_parse_loop reply hp1) as [[l|e1|] hp2] eqn:L;
        cbn [fst] in P; [discriminate P| |discriminate P].
      injection P as <-. exact (parse_loop_failure _ _ L).
    + injection P as <-. now left.
Qed.

End RangeParser.

(** C9, counterexample: a raw result that has its name, parsed with no
    allocation failing, still makes the parse fail, because the lookup of
    its base id fails with [ERANGE]. *)
Lemma ipa_ranges_parse_results_fails_on_broken_optional :
  let reply := [[str IPA_CN "R1"; broken IPA_BASE_ID ERANGE]] in
  Forall (fun a => fst (sysdb_attrs_get_string a IPA_CN) = EOK) reply
  /\ alloc_ok (range_allocs reply) [] = true
  /\ ipa_ranges_parse_results reply [] = (Fail ERANGE, []).
Proof.
  cbv zeta. split; [|split].
  - repeat constructor.
  - reflexivity.
  - vm_compute. reflexivity.
Qed.

(** The round trip of the specification: a result with a name, a base id
    and a size, and nothing else. *)
Example ipa_ranges_parse_results_round_trip :
  ipa_ranges_parse_results
    [[str IPA_CN "R1"; num IPA_BASE_ID 1000; num IPA_ID_RANGE_SIZE 200000]]
    []
  = (Ok [mk_range_info (Ptr "R1") NULL 1000 200000 0 0], []).
Proof. vm_compute. reflexivity. Qed.

(** A result without a name after a valid one makes the whole parse
    fail. *)
Example ipa_ranges_parse_results_missing_name :
  ipa_ranges_parse_results
    [[str IPA_CN "R1"; num IPA_BASE_ID 1000]; [num IPA_BASE_ID 2000]] []
  = (Fail ENOENT, []).
Proof. vm_compute. reflexivity. Qed.


(** ** Reconciler: concrete runs *)

(** C1, the failing input: the cache holds two subdomains and the fetched
    batch only the first.  The second is removed from the cache, yet
    [*changes] stays [false]. *)
Theorem ipa_subdomains_refresh_removal_unreported :
  ipa_subdomains_refresh
    (mk_sd_ctx [] [] [] 0
       [cached "A.TEST" "a.test" "A" "S-1"; cached "B.TEST" "b.test" "B" "S-2"])
    [fetched "a.test" "A" "S-1"] false 100 []
  = (Ok (EOK,
         mk_sd_ctx [] [] [] 100 [cached "A.TEST" "a.test" "A" "S-1"],
         false),
     []).
Proof. vm_compute. reflexivity. Qed.

(** An addition is reported. *)
Example ipa_subdomains_refresh_addition_reported :
  ipa_subdomains_refresh
    (mk_sd_ctx [] [] [] 0 [cached "A.TEST" "a.test" "A" "S-1"])
    [fetched "a.test" "A" "S-1"; fetched "b.test" "B" "S-2"] false 100 []
  = (Ok (EOK,
         mk_sd_ctx [] [] [] 100
           [cached "A.TEST" "a.test" "A" "S-1";
            cached "B.TEST" "b.test" "B" "S-2"],
         true),
     []).
Proof. vm_compute. reflexivity. Qed.

(** C4, the failing input: one cached subdomain, fetched again with the
    same flat name and another identifier.  The record keeps the released
    identifier and loses its flat name. *)
Theorem ipa_subdomains_refresh_changed_id :
  ipa_subdomains_refresh
    (mk_sd_ctx [] [] [] 0 [cached "A.TEST" "a.test" "A" "S-1"])
    [fetched "a.test" "A" "S-2"] false 100 []
  = (Ok (EOK,
         mk_sd_ctx [] [] [] 100
           [mk_subdom (Ptr "A.TEST") (Ptr "a.test") NULL Freed],
         false),
     []).
Proof. vm_compute. reflexivity. Qed.

(** A changed flat name alone is taken over. *)
Example ipa_subdomains_refresh_changed_flat_name :
  ipa_subdomains_refresh
    (mk_sd_ctx [] [] [] 0 [cached "A.TEST" "a.test" "A" "S-1"])
    [fetched "a.test" "A2" "S-1"] false 100 []
  = (Ok (EOK,
         mk_sd_ctx [] [] [] 100 [cached "A.TEST" "a.test" "A2" "S-1"],
         false),
     []).
Proof. vm_compute. reflexivity. Qed.

(** C3, counterexample: a batch with the same name twice, merged into an
    empty cache, leaves two records with that name. *)
Lemma ipa_subdomains_refresh_keeps_duplicates :
  exists ctx' hp',
    ipa_subdomains_refresh (mk_sd_ctx [] [] [] 0 [])
      [fetched "a.test" "A" "S-1"; fetched "a.test" "A" "S-1"] false 100 []
    = (Ok (EOK, ctx', true), hp')
    /\ map subdom_name (subdoms ctx') = [Ptr "a.test"; Ptr "a.test"]
    /\ ~ NoDup (map subdom_name (subdoms ctx')).
Proof.
  eexists. eexists. split; [vm_compute; reflexivity|].
  split; [reflexivity|].
  simpl. intros N. inversion N as [|x l Hin _]. apply Hin. now left.
Qed.

(** ** Reconciler: what holds for every allocator *)

Section Reconciler.

Context {attrs : Type} `{SysdbAttrs attrs}.

Lemma post_ret {A} (a : A) (P : A -> Prop) : P a -> post (ret a) P.
Proof. intros Pa hp. exact Pa. Qed.

Lemma post_fail {A} (e : errno) (P : A -> Prop) : e <> EOK -> post (fail e) P.
Proof. intros E hp. exact E. Qed.

Lemma post_bind {A B} (c : M A) (k : A -> M B) (P : A -> Prop)
  (Q : B -> Prop) :
  post c P -> (forall a, P a -> post (k a) Q) -> post (bind c k) Q.
Proof.
  intros Hc Hk hp. rewrite bind_eq. specialize (Hc hp).
  destruct (c hp) as [[a|e|] hp']; simpl in *; try assumption.
  apply Hk. exact Hc.
Qed.

Lemma post_weaken {A} (c : M A) (P Q : A -> Prop) :
  post c P -> (forall a, P a -> Q a) -> post c Q.
Proof.
  intros Hc PQ hp. specialize (Hc hp).
  destruct (fst (c hp)); auto.
Qed.

Lemma post_talloc_obj (P : bool -> Prop) :
  P true -> P false -> post talloc_obj P.
Proof.
  intros Pt Pf hp. unfold talloc_obj.
  destruct (talloc hp) as [[] hp']; assumption.
Qed.

Lemma post_talloc_strdup s (P : cstr -> Prop) :
  P (Ptr s) -> P NULL -> post (talloc_strdup s) P.
Proof.
  intros Pp Pn hp. unfold talloc_strdup.
  destruct (talloc hp) as [[] hp']; assumption.
Qed.

Lemma post_strcmp_ne a b (P : bool -> Prop) :
  P (negb (String.eqb a b)) -> post (strcmp_ne (Ptr a) (Ptr b)) P.
Proof. intros Pa hp. exact Pa. Qed.

Lemma post_bind_talloc_obj {B} (k : bool -> M B) (Q : B -> Prop) :
  post (k true) Q -> post (k false) Q -> post (bind talloc_obj k) Q.
Proof.
  intros Kt Kf. eapply post_bind with (P := fun b => post (k b) Q).
  - now apply post_talloc_obj.
  - auto.
Qed.

Lemma post_bind_talloc_strdup {B} s (k : cstr -> M B) (Q : B -> Prop) :
  post (k (Ptr s)) Q -> post (k NULL) Q -> post (bind (talloc_strdup s) k) Q.
Proof.
  intros Kp Kn. eapply post_bind with (P := fun p => post (k p) Q).
  - now apply post_talloc_strdup.
  - auto.
Qed.

Lemma post_bind_strcmp_ne {B} a b (k : bool -> M B) (Q : B -> Prop) :
  post (k (negb (String.eqb a b))) Q ->
  post (bind (strcmp_ne (Ptr a) (Ptr b)) k) Q.
Proof. intros K hp. exact (K hp). Qed.

Lemma ENOMEM_nonzero : ENOMEM <> EOK.
Proof. discriminate. Qed.

Lemma EINVAL_nonzero : EINVAL <> EOK.
Proof. discriminate. Qed.

(** [ipa_subdom_parse] on a readable record: the result carries the name
    of the raw result, which is the name the record had if it had one. *)
Lemma ipa_subdom_parse_post (a : attrs) (d : sysdb_subdom) :
  readable d = true ->
  post (ipa_subdom_parse a d)
       (fun d' =>
          fst (sysdb_attrs_get_string a IPA_CN) = EOK
          /\ subdom_name d' = Ptr (snd (sysdb_attrs_get_string a IPA_CN))
          /\ (subdom_name d = NULL \/ subdom_name d = subdom_name d')).
Proof.
  intros R. unfold ipa_subdom_parse.
  destruct (sysdb_attrs_get_string a IPA_CN) as [rn vn].
  destruct (sysdb_attrs_get_string a IPA_FLATNAME) as [rf vf].
  destruct (sysdb_attrs_get_string a IPA_TRUSTED_DOMAIN_SID) as [rs vs].
  cbn [fst snd].
  destruct (rc_isnt rn EOK) eqn:En.
  { apply post_fail. now apply rc_isnt_true_iff. }
  apply rc_isnt_false_iff in En. subst rn.
  destruct d as [realm name flat id]. unfold readable in R. cbn in R.
  apply andb_prop in R. destruct R as [R Rid].
  apply andb_prop in R. destruct R as [Rname Rflat].
  (* name *)
  eapply post_bind with
    (P := fun d1 => subdom_name d1 = Ptr vn
                    /\ (name = NULL \/ name = Ptr vn)
                    /\ subdom_flat_name d1 = flat /\ subdom_id d1 = id).
  { cbn [subdom_name]. destruct name as [|n|]; cbn [is_null]; [| |discriminate].
    - apply post_bind_talloc_strdup; cbn [is_null].
      + apply post_ret. cbn. auto.
      + apply post_fail, ENOMEM_nonzero.
    - apply post_bind_strcmp_ne.
      destruct (String.eqb_spec n vn) as [->|Hne]; cbn [negb].
      + apply post_ret. cbn. auto.
      + apply post_fail, EINVAL_nonzero. }
  intros d1 (N1 & Nd & F1 & I1).
  (* realm *)
  eapply post_bind with
    (P := fun d2 => subdom_name d2 = Ptr vn
                    /\ subdom_flat_name d2 = flat /\ subdom_id d2 = id).
  { destruct (is_null (subdom_realm d1)).
    - rewrite N1. unfold name_to_realm.
      eapply post_bind with (P := fun _ => True).
      + apply post_bind_talloc_strdup; apply post_ret; exact I.
      + intros p _. destruct (is_null p).
        * apply post_fail, ENOMEM_nonzero.
        * apply post_ret. destruct d1; cbn in *. auto.
    - apply post_ret. auto. }
  intros d2 (N2 & F2 & I2).
  destruct (rc_isnt rf 0%Z) eqn:Ef.
  { apply post_fail. now apply rc_isnt_true_iff. }
  (* flat name *)
  eapply post_bind with
    (P := fun d3 => subdom_name d3 = Ptr vn /\ subdom_id d3 = id).
  { rewrite F2. destruct flat as [|f|]; cbn [is_null negb]; [| |discriminate].
    - apply post_ret. auto.
    - apply post_bind_strcmp_ne.
      destruct (negb (f =? vf)%string); apply post_ret;
        destruct d2; cbn in *; auto. }
  intros d3 (N3 & I3).
  eapply post_bind with
    (P := fun d4 => subdom_name d4 = Ptr vn /\ subdom_id d4 = id).
  { destruct (is_null (subdom_flat_name d3)).
    - apply post_bind_talloc_strdup; cbn [is_null].
      + apply post_ret. destruct d3; cbn in *. auto.
      + apply post_fail, ENOMEM_nonzero.
    - apply post_ret. auto. }
  intros d4 (N4 & I4).
  destruct (rc_isnt rs 0%Z) eqn:Es.
  { apply post_fail. now apply rc_isnt_true_iff. }
  (* identifier *)
  eapply post_bind with (P := fun d5 => subdom_name d5 = Ptr vn).
  { rewrite I4. destruct id as [|i|]; cbn [is_null negb]; [| |discriminate].
    - apply post_ret. auto.
    - apply post_bind_strcmp_ne.
      destruct (negb (i =? vs)%string); apply post_ret;
        destruct d4; cbn in *; auto. }
  intros d5 N5.
  eapply post_bind with (P := fun d6 => subdom_name d6 = Ptr vn).
  { destruct (is_null (subdom_id d5)).
    - apply post_bind_talloc_strdup; cbn [is_null].
      + apply post_ret. destruct d5; cbn in *. auto.
      + apply post_fail, ENOMEM_nonzero.
    - apply post_ret. auto. }
  intros d6 N6. apply post_ret. cbn [subdom_name].
  repeat split; auto.
  destruct Nd as [-> | ->]; [now left | right; now rewrite N6].
Qed.

Lemma mark_handled_length c handled :
  List.length (mark_handled c handled) = List.length handled.
Proof.
  revert c. induction handled as [|b t IH]; intros c.
  - destruct c; reflexivity.
  - destruct c; simpl; [reflexivity | now rewrite IH].
Qed.

Lemma readable_zero_subdom : readable zero_subdom = true.
Proof. reflexivity. Qed.

Lemma wf_subdom_inv d :
  wf_subdom d = true -> readable d = true /\ exists n, subdom_name d = Ptr n.
Proof.
  unfold wf_subdom, readable. intros W.
  apply andb_prop in W. destruct W as [R N]. split; [exact R|].
  destruct (subdom_name d) as [|n|]; try discriminate. now exists n.
Qed.

(** The search of the first pass returns an unhandled reply that carries
    the name looked for; marking it moves that name to the handled ones. *)
Lemma refresh_find_post (n : string) (reply : list attrs) :
  forall (handled : list bool) (c0 : nat),
    post (refresh_find (Ptr n) reply handled c0)
         (fun found =>
            match found with
            | None => True
            | Some (c, a) =>
                c0 <= c
                /\ Permutation
                     (names_where true reply (mark_handled (c - c0) handled))
                     (n :: names_where true reply handled)
            end).
Proof.
  induction reply as [|a reply IH]; intros handled c0.
  - apply post_ret. exact I.
  - destruct handled as [|hd handled]; [apply post_ret; exact I|].
    assert (Skip : forall b,
               post (refresh_find (Ptr n) reply handled (S c0))
                 (fun found =>
                    match found with
                    | None => True
                    | Some (c, a0) =>
                        c0 <= c
                        /\ Permutation
                             (names_where true (a :: reply)
                                (mark_handled (c - c0) (b :: handled)))
                             (n :: names_where true (a :: reply)
                                     (b :: handled))
                    end)).
    { intros b. eapply post_weaken; [apply IH|].
      intros [[c a0]|]; [|auto]. intros (Le & P). split; [lia|].
      replace (c - c0) with (S (c - S c0)) by lia.
      cbn [mark_handled names_where].
      rewrite P. symmetry. apply Permutation_middle. }
    cbn [refresh_find]. destruct hd; [apply Skip|].
    unfold entry_name in *.
    destruct (sysdb_attrs_get_string a IPA_CN) as [r v] eqn:Ea.
    destruct (rc_isnt r EOK) eqn:Er.
    { apply post_fail. now apply rc_isnt_true_iff. }
    apply post_bind_strcmp_ne.
    destruct (String.eqb_spec v n) as [->|Hne]; cbn [negb].
    + apply post_ret. split; [lia|].
      rewrite Nat.sub_diag. cbn [mark_handled names_where Bool.eqb].
      unfold entry_name. rewrite Ea. cbn [fst snd].
      rewrite rc_isnt_is in Er. apply negb_false_iff in Er. rewrite Er.
      reflexivity.
    + exact (Skip false).
Qed.

Lemma refresh_existing_post (reply : list attrs) :
  forall (rest kept : list sysdb_subdom) (handled : list bool) (h : nat),
    forallb wf_subdom rest = true ->
    Permutation (map subdom_name kept)
                (map Ptr (names_where true reply handled)) ->
    post (refresh_existing reply rest kept handled h)
         (fun out =>
            Permutation (map subdom_name (fst (fst out)))
                        (map Ptr (names_where true reply (snd (fst out))))
            /\ List.length (snd (fst out)) = List.length handled).
Proof.
  induction rest as [|d rest IH]; intros kept handled h W P.
  - apply post_ret. cbn. auto.
  - cbn [forallb] in W. apply andb_prop in W. destruct W as [Wd W].
    apply wf_subdom_inv in Wd. destruct Wd as (R & n & Nd).
    cbn [refresh_existing]. rewrite Nd.
    eapply post_bind; [apply refresh_find_post|].
    intros [[c a]|].
    + intros (_ & Pc). rewrite Nat.sub_0_r in Pc.
      eapply post_bind; [apply ipa_subdom_parse_post; exact R|].
      intros d' (_ & N' & [N0 | N0]); [congruence|].
      eapply post_weaken.
      * apply IH; [exact W|].
        rewrite map_app, Pc. cbn [map]. rewrite <- N0, Nd.
        rewrite <- Permutation_cons_append. now apply perm_skip.
      * cbn. intros out (Po & Lo). split; [exact Po|].
        now rewrite Lo, mark_handled_length.
    + intros _. now apply IH.
Qed.

Lemma refresh_new_post (reply : list attrs) :
  forall (handled : list bool) (l : list sysdb_subdom),
    post (refresh_new reply handled l)
         (fun l' =>
            map subdom_name l'
            = map subdom_name l ++ map Ptr (names_where false reply handled)).
Proof.
  induction reply as [|a reply IH]; intros handled l.
  - apply post_ret. cbn. now rewrite app_nil_r.
  - destruct handled as [|hd handled].
    { apply post_ret. cbn. now rewrite app_nil_r. }
    cbn [refresh_new names_where]. destruct hd; cbn [Bool.eqb app].
    + apply IH.
    + eapply post_bind;
        [apply ipa_subdom_parse_post; exact readable_zero_subdom|].
      intros d (Ea & Nd & _).
      eapply post_weaken; [apply IH|].
      cbn. intros l' ->. rewrite map_app, <- app_assoc. cbn [map app].
      unfold entry_name. apply rc_is_true_iff in Ea. rewrite Ea, Nd.
      reflexivity.
Qed.

Lemma names_where_split (reply : list attrs) :
  forall handled,
    List.length handled = List.length reply ->
    Permutation (names_where true reply handled
                 ++ names_where false reply handled)
                (reply_names reply).
Proof.
  induction reply as [|a reply IH]; intros handled L.
  - reflexivity.
  - destruct handled as [|hd handled]; [discriminate L|].
    injection L as L. specialize (IH handled L).
    cbn [names_where reply_names flat_map].
    destruct hd; cbn [Bool.eqb app].
    + rewrite <- app_assoc. now apply Permutation_app_head.
    + rewrite <- IH. symmetry. apply Permutation_app_swap_app.
Qed.

(** What a reconciliation returns on a cache of well-formed records: it
    is defined; the context is the one the [done:] block leaves for the
    return code; and on success every record's name is the name of a fetched
    result of its own. *)
Lemma ipa_subdomains_refresh_spec (ctx : ipa_subdomains_ctx)
  (reply : list attrs) (changes : bool) (now : Z) (hp : heap) :
  forallb wf_subdom (subdoms ctx) = true ->
  exists r l changes' hp',
    ipa_subdomains_refresh ctx reply changes now hp
    = (Ok (r, refresh_done ctx r l now, changes'), hp')
    /\ (r = EOK ->
        exists extra,
          Permutation (map subdom_name l ++ extra)
                      (map Ptr (reply_names reply))).
Proof.
  intros W. unfold ipa_subdomains_refresh.
  pose proof (@refresh_existing_post reply (subdoms ctx) []
                (repeat false (List.length reply)) 0 W) as E.
  assert (P0 : Permutation (map subdom_name [])
                 (map Ptr (names_where true reply
                             (repeat false (List.length reply))))).
  { assert (Z : forall r : list attrs,
               names_where true r (repeat false (List.length r)) = []).
    { induction r as [|x r IHr]; [reflexivity|]. cbn. exact IHr. }
    rewrite Z. reflexivity. }
  specialize (E P0 hp). clear P0.
  destruct (refresh_existing reply (subdoms ctx) []
              (repeat false (List.length reply)) 0 hp)
    as [[[[kept handled] h]|e|] hp1]; cbn [fst snd] in E; [| |contradiction].
  - destruct E as (Pk & Lh). rewrite repeat_length in Lh.
    pose proof (names_where_split reply handled Lh) as Split.
    destruct (Nat.eqb (List.length reply) h).
    + exists EOK, kept, changes, hp1. split; [reflexivity|]. intros _.
      exists (map Ptr (names_where false reply handled)).
      rewrite Pk, <- map_app. now apply Permutation_map.
    + rewrite bind_talloc_obj.
      destruct (talloc hp1) as [ok hp2]; cbn [fst snd].
      destruct ok; cbn [negb].
      * pose proof (refresh_new_post reply handled kept hp2) as N.
        destruct (refresh_new reply handled kept hp2) as [[l|e|] hp3];
          cbn [fst] in N; [| |contradiction].
        -- exists EOK, l, true, hp3. split; [reflexivity|]. intros _.
           exists []. rewrite app_nil_r, N, Pk, <- map_app.
           now apply Permutation_map.
        -- exists e, [], true, hp3. split; [reflexivity|].
           intros ->. contradiction.
      * exists ENOMEM, [], true, hp2. split; [reflexivity|].
        intros E. discriminate E.
  - exists e, [], changes, hp1. split; [reflexivity|].
    intros ->. contradiction.
Qed.

(** A reconciliation that returns leaves the timestamp zero when it
    failed and at the current time when it succeeded. *)
Lemma ipa_subdomains_refresh_result (ctx ctx' : ipa_subdomains_ctx)
  (reply : list attrs) (changes changes' : bool) (now : Z) (hp hp' : heap)
  (r : errno) :
  ipa_subdomains_refresh ctx reply changes now hp
  = (Ok (r, ctx', changes'), hp') ->
  (r <> EOK -> last_refreshed ctx' = 0%Z /\ subdoms ctx' = [])
  /\ (r = EOK -> last_refreshed ctx' = now).
Proof.
  unfold ipa_subdomains_refresh. intros R.
  assert (D : forall l,
             (r <> EOK ->
              last_refreshed (refresh_done ctx r l now) = 0%Z
              /\ subdoms (refresh_done ctx r l now) = [])
             /\ (r = EOK -> last_refreshed (refresh_done ctx r l now) = now)).
  { intros l. unfold refresh_done. split.
    - intros Hr. apply rc_isnt_true_iff in Hr. now rewrite Hr.
    - intros ->. reflexivity. }
  destruct (refresh_existing _ _ _ _ _ _) as [[[[kept handled] h]|e|] hp1];
    [| |discriminate R].
  - destruct (Nat.eqb _ _).
    + injection R as <- <- <- <-. apply D.
    + destruct (bind _ _ hp1) as [[l|e|] hp2]; [| |discriminate R];
        injection R as <- <- <- <-; apply D.
  - injection R as <- <- <- <-. apply D.
Qed.

(** Every exit of the reconciliation goes through [done:]. *)
Lemma ipa_subdomains_refresh_never_fails (ctx : ipa_subdomains_ctx)
  (reply : list attrs) (changes : bool) (now : Z) (hp hp' : heap) e :
  ipa_subdomains_refresh ctx reply changes now hp <> (Fail e, hp').
Proof.
  unfold ipa_subdomains_refresh. intros R.
  destruct (refresh_existing _ _ _ _ _ _) as [[[[kept handled] h]|e1|] hp1];
    [| discriminate R | discriminate R].
  destruct (Nat.eqb _ _); [discriminate R|].
  destruct (bind _ _ hp1) as [[l|e2|] hp2]; discriminate R.
Qed.

(** C10: every reconciliation call that returns has gone through [done:]:
    when it fails, the timestamp is zero and the cache is empty; when it
    succeeds, the timestamp is the current time, whether or not changes
    are reported.  A call returns unless it reads a released or unset
    string of a cached record, which takes a cached record that is not
    well formed. *)
Theorem ipa_subdomains_refresh_timestamp (ctx : ipa_subdomains_ctx)
  (reply : list attrs) (changes : bool) (now : Z) (hp : heap) :
  match ipa_subdomains_refresh ctx reply changes now hp with
  | (Ok (r, ctx', _), _) =>
      (r <> EOK -> last_refreshed ctx' = 0%Z /\ subdoms ctx' = [])
      /\ (r = EOK -> last_refreshed ctx' = now)
  | (Fail _, _) => False
  | (Undef, _) => forallb wf_subdom (subdoms ctx) = false
  end.
Proof.
  destruct (ipa_subdomains_refresh ctx reply changes now hp)
    as [[[[r ctx'] changes']|e|] hp'] eqn:R.
  - exact (ipa_subdomains_refresh_result _ _ _ _ _ R).
  - exact (ipa_subdomains_refresh_never_fails _ _ _ _ _ R).
  - destruct (forallb wf_subdom (subdoms ctx)) eqn:Wf; [|reflexivity].
    destruct (ipa_subdomains_refresh_spec ctx reply changes now hp Wf)
      as (r & l & c & hp2 & E & _).
    congruence.
Qed.

(** C3, as amended: when no two fetched results carry the same name, a
    reconciliation of a cache of well-formed records leaves no two records
    with the same name. *)
Theorem ipa_subdomains_refresh_nodup (ctx : ipa_subdomains_ctx)
  (reply : list attrs) (changes : bool) (now : Z) (hp : heap) :
  forallb wf_subdom (subdoms ctx) = true ->
  NoDup (reply_names reply) ->
  exists r ctx' changes' hp',
    ipa_subdomains_refresh ctx reply changes now hp
    = (Ok (r, ctx', changes'), hp')
    /\ NoDup (map subdom_name (subdoms ctx')).
Proof.
  intros W N.
  destruct (ipa_subdomains_refresh_spec ctx reply changes now hp W)
    as (r & l & changes' & hp' & E & P).
  exists r, (refresh_done ctx r l now), changes', hp'.
  split; [exact E|]. unfold refresh_done.
  destruct (rc_isnt r EOK) eqn:Er; cbn [subdoms map]; [constructor|].
  apply rc_isnt_false_iff in Er. destruct (P Er) as (extra & Pe).
  apply NoDup_app_remove_r with (l' := extra).
  apply Permutation_NoDup with (l := map Ptr (reply_names reply)).
  - now symmetry.
  - apply Finite.Injective_map_NoDup; [|exact N].
    intros x y Exy. now injection Exy.
Qed.

(** *** Realm of a subdomain *)

Lemma toupper_not_lower_case c : lower_case (toupper c) = false.
Proof. destruct c as [[] [] [] [] [] [] [] []]; reflexivity. Qed.

Lemma toupper_fixes c : lower_case c = false -> toupper c = c.
Proof. unfold toupper, lower_case. cbv zeta. now intros ->. Qed.

Lemma string_toupper_length s :
  String.length (string_toupper s) = String.length s.
Proof. induction s as [|c s IH]; [reflexivity | cbn; now rewrite IH]. Qed.

Lemma string_toupper_not_lower_case s :
  forallb (fun c => negb (lower_case c))
          (list_ascii_of_string (string_toupper s)) = true.
Proof.
  induction s as [|c s IH]; [reflexivity|].
  cbn [string_toupper list_ascii_of_string forallb].
  now rewrite toupper_not_lower_case, IH.
Qed.

Lemma string_toupper_fixes s :
  forallb (fun c => negb (lower_case c)) (list_ascii_of_string s) = true ->
  string_toupper s = s.
Proof.
  induction s as [|c s IH]; [reflexivity|].
  cbn [string_toupper list_ascii_of_string forallb].
  intros F. apply andb_prop in F. destruct F as [Fc Fs].
  apply negb_true_iff in Fc.
  now rewrite (toupper_fixes c Fc), IH.
Qed.

(** X12: [name_to_realm] returns [NULL] exactly when the copy cannot be
    allocated; otherwise the realm has the length of the name and no
    lower-case letter, it is the name itself when the name has no lower-case
    letter, and the realm of a realm is that realm. *)
Theorem name_to_realm_upper (s : string) (hp : heap) :
  name_to_realm (Ptr s) hp
  = (Ok (if fst (talloc hp) then Ptr (string_toupper s) else NULL),
     snd (talloc hp))
  /\ String.length (string_toupper s) = String.length s
  /\ forallb (fun c => negb (lower_case c))
             (list_ascii_of_string (string_toupper s)) = true
  /\ (forallb (fun c => negb (lower_case c)) (list_ascii_of_string s) = true ->
      string_toupper s = s)
  /\ name_to_realm (Ptr (string_toupper s)) hp
     = (Ok (if fst (talloc hp) then Ptr (string_toupper s) else NULL),
        snd (talloc hp)).
Proof.
  assert (R : forall t,
             name_to_realm (Ptr t) hp
             = (Ok (if fst (talloc hp) then Ptr (string_toupper t) else NULL),
                snd (talloc hp))).
  { intros t. unfold name_to_realm. rewrite bind_talloc_strdup.
    now destruct (fst (talloc hp)). }
  split; [apply R|]. split; [apply string_toupper_length|].
  split; [apply string_toupper_not_lower_case|].
  split; [apply string_toupper_fixes|].
  rewrite R.
  now rewrite (string_toupper_fixes _ (string_toupper_not_lower_case s)).
Qed.

(** *** Parsing one subdomain *)

(** A fetched result parsed into a zeroed record. *)
Lemma ipa_subdom_parse_zero (a : attrs) (hp : heap) :
  let rn := sysdb_attrs_get_string a IPA_CN in
  let rf := sysdb_attrs_get_string a IPA_FLATNAME in
  let rs := sysdb_attrs_get_string a IPA_TRUSTED_DOMAIN_SID in
  if rc_is (fst rn) EOK && rc_is (fst rf) EOK && rc_is (fst rs) EOK
     && alloc_ok 4 hp
  then ipa_subdom_parse a zero_subdom hp
       = (Ok (mk_subdom (Ptr (string_toupper (snd rn))) (Ptr (snd rn))
                        (Ptr (snd rf)) (Ptr (snd rs))),
          skipn 4 hp)
  else exists e hp',
         e <> EOK /\ ipa_subdom_parse a zero_subdom hp = (Fail e, hp').
Proof.
  cbv zeta. unfold ipa_subdom_parse, alloc_ok.
  destruct (sysdb_attrs_get_string a IPA_CN) as [rn vn].
  destruct (sysdb_attrs_get_string a IPA_FLATNAME) as [rf vf].
  destruct (sysdb_attrs_get_string a IPA_TRUSTED_DOMAIN_SID) as [rs vs].
  cbn [fst snd]. unfold rc_isnt, rc_is, EOK.
  destruct (Z.eqb rn 0) eqn:En; destruct (Z.eqb rf 0) eqn:Ef;
    destruct (Z.eqb rs 0) eqn:Es;
    rewrite ?Z.eqb_neq in *;
    destruct hp as [|[] [|[] [|[] [|[] hp]]]]; cbn;
    first [ reflexivity
          | eexists; eexists; split; [|reflexivity];
            first [assumption | discriminate] ].
Qed.

(** X13: a fetched result is parsed into a zeroed record exactly when its
    name, flat name and identifier are found and the four allocations
    succeed; the record then carries that name, the name in upper case as
    realm, that flat name and that identifier, and four allocations were
    made.  Otherwise the parse fails with a non-zero code. *)
Theorem ipa_subdom_parse_new (a : attrs) (hp : heap) :
  let rn := sysdb_attrs_get_string a IPA_CN in
  let rf := sysdb_attrs_get_string a IPA_FLATNAME in
  let rs := sysdb_attrs_get_string a IPA_TRUSTED_DOMAIN_SID in
  if rc_is (fst rn) EOK && rc_is (fst rf) EOK && rc_is (fst rs) EOK
     && alloc_ok 4 hp
  then ipa_subdom_parse a zero_subdom hp
       = (Ok (mk_subdom (Ptr (string_toupper (snd rn))) (Ptr (snd rn))
                        (Ptr (snd rf)) (Ptr (snd rs))),
          skipn 4 hp)
  else exists e hp',
         e <> EOK /\ ipa_subdom_parse a zero_subdom hp = (Fail e, hp').
Proof. exact (ipa_subdom_parse_zero a hp). Qed.

(** Parsing a result into a record that already carries its name, flat
    name and identifier changes nothing and allocates nothing. *)
Lemma ipa_subdom_parse_same (a : attrs) (realm : cstr) (n f i : string)
  (hp : heap) :
  is_null realm = false ->
  sysdb_attrs_get_string a IPA_CN = (EOK, n) ->
  sysdb_attrs_get_string a IPA_FLATNAME = (EOK, f) ->
  sysdb_attrs_get_string a IPA_TRUSTED_DOMAIN_SID = (EOK, i) ->
  ipa_subdom_parse a (mk_subdom realm (Ptr n) (Ptr f) (Ptr i)) hp
  = (Ok (mk_subdom realm (Ptr n) (Ptr f) (Ptr i)), hp).
Proof.
  intros R En Ef Ei. unfold ipa_subdom_parse. rewrite En, Ef, Ei.
  destruct realm; [discriminate R | |];
    repeat (progress (cbn; unfold bind, ret; rewrite ?String.eqb_refl));
    reflexivity.
Qed.

Lemma ipa_subdom_parse_zero_parsed (a : attrs) (d : sysdb_subdom)
  (hp hp' : heap) :
  ipa_subdom_parse a zero_subdom hp = (Ok d, hp') -> parsed_from a d.
Proof.
  intros P. pose proof (ipa_subdom_parse_zero a hp) as N. cbv zeta in N.
  destruct (rc_is (fst (sysdb_attrs_get_string a IPA_CN)) EOK) eqn:En;
    [| destruct N as (e & h & _ & N); congruence].
  destruct (rc_is (fst (sysdb_attrs_get_string a IPA_FLATNAME)) EOK) eqn:Ef;
    [| destruct N as (e & h & _ & N); congruence].
  destruct (rc_is (fst (sysdb_attrs_get_string a IPA_TRUSTED_DOMAIN_SID)) EOK)
    eqn:Es; [| destruct N as (e & h & _ & N); congruence].
  destruct (alloc_ok 4 hp); cbn [andb] in N;
    [| destruct N as (e & h & _ & N); congruence].
  rewrite P in N. injection N as -> _.
  apply rc_is_true_iff in En, Ef, Es.
  do 3 eexists. repeat split; apply injective_projections; cbn [fst snd];
    auto.
Qed.

(** X14: parsing a result once more into the record it produced changes
    nothing and allocates nothing. *)
Theorem ipa_subdom_parse_round_trip (a : attrs) (d : sysdb_subdom)
  (hp hp' hp2 : heap) :
  ipa_subdom_parse a zero_subdom hp = (Ok d, hp') ->
  ipa_subdom_parse a d hp2 = (Ok d, hp2).
Proof.
  intros P.
  destruct (ipa_subdom_parse_zero_parsed _ _ P)
    as (n & f & i & En & Ef & Ei & ->).
  now apply ipa_subdom_parse_same.
Qed.

(** X15: a fetched result whose name differs from the name of the record
    it is parsed into is refused with [EINVAL], before anything is
    allocated. *)
Theorem ipa_subdom_parse_name_mismatch (a : attrs) (d : sysdb_subdom)
  (n v : string) (hp : heap) :
  subdom_name d = Ptr n ->
  sysdb_attrs_get_string a IPA_CN = (EOK, v) ->
  v <> n ->
  ipa_subdom_parse a d hp = (Fail EINVAL, hp).
Proof.
  intros N E D. unfold ipa_subdom_parse. rewrite E, N. cbn.
  apply String.eqb_neq in D. rewrite String.eqb_sym in D. rewrite D.
  reflexivity.
Qed.

(** X16: a fetched flat name that differs from the cached one replaces it
    (one allocation); name, realm and identifier stay. *)
Theorem ipa_subdom_parse_changed_flat_name (a : attrs) (realm : cstr)
  (n f f' i : string) (hp : heap) :
  is_null realm = false ->
  sysdb_attrs_get_string a IPA_CN = (EOK, n) ->
  sysdb_attrs_get_string a IPA_FLATNAME = (EOK, f') ->
  sysdb_attrs_get_string a IPA_TRUSTED_DOMAIN_SID = (EOK, i) ->
  f <> f' ->
  ipa_subdom_parse a (mk_subdom realm (Ptr n) (Ptr f) (Ptr i)) hp
  = (if fst (talloc hp)
     then Ok (mk_subdom realm (Ptr n) (Ptr f') (Ptr i))
     else Fail ENOMEM,
     snd (talloc hp)).
Proof.
  intros R En Ef Ei D. unfold ipa_subdom_parse. rewrite En, Ef, Ei.
  apply String.eqb_neq in D.
  destruct realm; [discriminate R | |];
    destruct hp as [|[] hp];
    repeat (progress (cbn; unfold bind, ret, fail;
                      rewrite ?String.eqb_refl, ?D));
    reflexivity.
Qed.

(** X17: a successful parse leaves the record under the name of the fetched
    result; it never changes a name or a realm the record already has, and
    a realm it has to fill in is the name in upper case. *)
Theorem ipa_subdom_parse_keeps_name_and_realm (a : attrs)
  (d d' : sysdb_subdom) (hp hp' : heap) :
  ipa_subdom_parse a d hp = (Ok d', hp') ->
  subdom_name d' = Ptr (snd (sysdb_attrs_get_string a IPA_CN))
  /\ (is_null (subdom_name d) = false -> subdom_name d' = subdom_name d)
  /\ (if is_null (subdom_realm d)
      then subdom_realm d'
           = Ptr (string_toupper (snd (sysdb_attrs_get_string a IPA_CN)))
      else subdom_realm d' = subdom_realm d).
Proof.
  unfold ipa_subdom_parse.
  destruct (sysdb_attrs_get_string a IPA_CN) as [rn vn].
  destruct (sysdb_attrs_get_string a IPA_FLATNAME) as [rf vf].
  destruct (sysdb_attrs_get_string a IPA_TRUSTED_DOMAIN_SID) as [rs vs].
  destruct d as [realm name flat id]. cbn [fst snd].
  intros P. split_m P.
  all: try discriminate P.
  all: injection P as <- <-; cbn.
  all: repeat match goal with
         | E : String.eqb _ _ = true |- _ => apply String.eqb_eq in E; subst
         end.
  all: repeat match goal with
         | E : is_null ?x = _ |- context [is_null ?x] => rewrite E
         end.
  all: repeat split; try reflexivity; try discriminate.
Qed.

(** *** Both passes of the reconciliation *)

Lemma post_and {A} (c : M A) (P Q : A -> Prop) :
  post c P -> post c Q -> post c (fun a => P a /\ Q a).
Proof.
  intros HP HQ hp. specialize (HP hp). specialize (HQ hp).
  destruct (fst (c hp)); auto.
Qed.

Lemma has_name_In names n : has_name names n = true <-> In n names.
Proof.
  unfold has_name. rewrite existsb_exists. split.
  - intros (x & I & E). apply String.eqb_eq in E. now subst.
  - intros I. exists n. split; [exact I | apply String.eqb_refl].
Qed.

Lemma has_name_not_In names n : has_name names n = false <-> ~ In n names.
Proof.
  rewrite <- has_name_In. destruct (has_name names n); split; congruence.
Qed.

Lemma refresh_existing_nothing_fetched (rest : list sysdb_subdom) :
  forall kept h hp,
    refresh_existing (attrs := attrs) [] rest kept [] h hp
    = (Ok (kept, [], h), hp).
Proof.
  induction rest as [|d rest IH]; intros kept h hp; [reflexivity|].
  cbn [refresh_existing refresh_find]. rewrite bind_ret. apply IH.
Qed.

(** X18: an empty batch empties the cache, whatever it holds: the
    reconciliation succeeds, sets the timestamp, leaves [*changes] as it
    was and allocates nothing. *)
Theorem ipa_subdomains_refresh_empty_batch (ctx : ipa_subdomains_ctx)
  (changes : bool) (now : Z) (hp : heap) :
  ipa_subdomains_refresh (attrs := attrs) ctx [] changes now hp
  = (Ok (EOK,
         mk_sd_ctx (search_bases ctx) (master_search_bases ctx)
                   (ranges_search_bases ctx) now [],
         changes),
     hp).
Proof.
  unfold ipa_subdomains_refresh. cbn [List.length repeat].
  rewrite refresh_existing_nothing_fetched. reflexivity.
Qed.

Lemma marks_le handled : marks handled <= List.length handled.
Proof. unfold marks. apply filter_length_le. Qed.

Lemma marks_mark_handled k :
  forall handled,
    nth_error handled k = Some false ->
    marks (mark_handled k handled) = S (marks handled).
Proof.
  unfold marks.
  induction k as [|k IH]; intros [|b handled] E; try discriminate E.
  - injection E as ->. reflexivity.
  - cbn [nth_error] in E. cbn [mark_handled List.filter].
    destruct b; cbn [List.length]; now rewrite (IH _ E).
Qed.

Lemma marks_all (reply : list attrs) :
  forall handled,
    marks handled = List.length handled ->
    names_where false reply handled = [].
Proof.
  induction reply as [|a reply IH]; intros [|b handled] E; try reflexivity.
  unfold marks in E. cbn [List.filter List.length] in E.
  destruct b.
  - cbn [names_where Bool.eqb app List.length] in *. apply IH.
    unfold marks. lia.
  - pose proof (filter_length_le (fun b => b) handled). lia.
Qed.

Lemma refresh_find_where (n : string) (reply : list attrs) :
  forall (handled : list bool) (c0 : nat),
    post (refresh_find (Ptr n) reply handled c0)
         (fun found =>
            match found with
            | None => ~ In n (names_where false reply handled)
            | Some (c, a) =>
                c0 <= c /\ nth_error handled (c - c0) = Some false
            end).
Proof.
  induction reply as [|a reply IH]; intros handled c0.
  - apply post_ret. intros [].
  - destruct handled as [|hd handled]; [apply post_ret; intros []|].
    cbn [refresh_find names_where].
    assert (Skip : forall b,
               post (refresh_find (Ptr n) reply handled (S c0))
                 (fun found =>
                    match found with
                    | None => ~ In n (names_where false reply handled)
                    | Some (c, _) =>
                        c0 <= c
                        /\ nth_error (b :: handled) (c - c0) = Some false
                    end)).
    { intros b. eapply post_weaken; [apply IH|].
      intros [[c a0]|]; [|auto]. intros (Le & N). split; [lia|].
      replace (c - c0) with (S (c - S c0)) by lia. exact N. }
    destruct hd; cbn [Bool.eqb app]; [apply Skip|].
    unfold entry_name.
    destruct (sysdb_attrs_get_string a IPA_CN) as [r v] eqn:Ea.
    cbn [fst snd].
    destruct (rc_isnt r EOK) eqn:Er.
    { apply post_fail. now apply rc_isnt_true_iff. }
    rewrite rc_isnt_is in Er. apply negb_false_iff in Er. rewrite Er.
    apply post_bind_strcmp_ne.
    destruct (String.eqb_spec v n) as [->|Hne]; cbn [negb].
    + apply post_ret. split; [lia|]. now rewrite Nat.sub_diag.
    + eapply post_weaken; [apply (Skip false)|].
      intros [[c a0]|]; [auto|]. intros N [E|I]; [congruence | auto].
Qed.

Lemma subdom_names_app l l' :
  subdom_names (l ++ l') = subdom_names l ++ subdom_names l'.
Proof. unfold subdom_names. apply flat_map_app. Qed.

Lemma names_where_true_fetched (reply : list attrs) (handled : list bool)
  (n : string) :
  List.length handled = List.length reply ->
  In n (names_where true reply handled) -> In n (reply_names reply).
Proof.
  intros L I. apply (Permutation_in _ (names_where_split reply handled L)).
  apply in_or_app. now left.
Qed.

Lemma in_map_Ptr (n : string) (l : list string) :
  In (Ptr n) (map Ptr l) <-> In n l.
Proof.
  rewrite in_map_iff. split.
  - intros (x & E & I). now injection E as ->.
  - intros I. now exists n.
Qed.

(** The first pass.  [done] are the cached records already visited. *)
Lemma refresh_existing_spec (reply : list attrs) :
  forall (rest done kept : list sysdb_subdom) (handled : list bool) (h : nat),
    forallb wf_subdom rest = true ->
    List.length handled = List.length reply ->
    h = marks handled ->
    List.length kept = h ->
    Permutation (map subdom_name kept)
                (map Ptr (names_where true reply handled)) ->
    (NoDup (subdom_names (done ++ rest)) ->
     map subdom_name kept
     = map Ptr (List.filter (has_name (reply_names reply))
                            (subdom_names done))) ->
    post (refresh_existing reply rest kept handled h)
         (fun out =>
            let kept' := fst (fst out) in
            let handled' := snd (fst out) in
            List.length handled' = List.length reply
            /\ snd out = marks handled'
            /\ List.length kept' = snd out
            /\ Permutation (map subdom_name kept')
                           (map Ptr (names_where true reply handled'))
            /\ (NoDup (subdom_names (done ++ rest)) ->
                map subdom_name kept'
                = map Ptr (List.filter (has_name (reply_names reply))
                                       (subdom_names (done ++ rest))))).
Proof.
  induction rest as [|d rest IH]; intros done kept handled h W L Hm Hk P O.
  - apply post_ret. cbn [fst snd]. rewrite app_nil_r in *. auto.
  - cbn [forallb] in W. apply andb_prop in W. destruct W as [Wd W].
    apply wf_subdom_inv in Wd. destruct Wd as (R & n & Nd).
    cbn [refresh_existing]. rewrite Nd.
    assert (Names : subdom_names (done ++ d :: rest)
                    = subdom_names done ++ n :: subdom_names rest).
    { rewrite subdom_names_app. unfold subdom_names at 2.
      cbn [flat_map]. rewrite Nd. reflexivity. }
    assert (Names' : subdom_names ((done ++ [d]) ++ rest)
                     = subdom_names done ++ n :: subdom_names rest).
    { rewrite <- app_assoc. exact Names. }
    assert (Nd1 : subdom_names (done ++ [d]) = subdom_names done ++ [n]).
    { rewrite subdom_names_app. unfold subdom_names at 2.
      cbn [flat_map]. rewrite Nd. reflexivity. }
    eapply post_bind;
      [apply post_and; [apply refresh_find_post | apply refresh_find_where]|].
    intros [[c a]|].
    + intros ((_ & Pc) & (_ & Nc)). rewrite Nat.sub_0_r in Pc, Nc.
      eapply post_bind; [apply ipa_subdom_parse_post; exact R|].
      intros d' (_ & N' & [N0 | N0]); [congruence|].
      eapply post_weaken.
      * apply (IH (done ++ [d]) (kept ++ [d']) (mark_handled c handled) (S h)).
        -- exact W.
        -- now rewrite mark_handled_length.
        -- rewrite (marks_mark_handled _ _ Nc). now rewrite Hm.
        -- rewrite length_app. cbn [List.length]. lia.
        -- rewrite map_app, Pc. cbn [map]. rewrite <- N0, Nd.
           rewrite <- Permutation_cons_append. now apply perm_skip.
        -- rewrite Names'. intros D. rewrite <- Names in D.
           rewrite map_app, (O D), Nd1, filter_app, map_app.
           cbn [map List.filter]. rewrite <- N0, Nd.
           assert (I : In n (reply_names reply)).
           { apply names_where_true_fetched with
               (handled := mark_handled c handled).
             - now rewrite mark_handled_length.
             - apply (Permutation_in _ (Permutation_sym Pc)). now left. }
           apply has_name_In in I. rewrite I. reflexivity.
      * cbn [fst snd]. rewrite Names'. rewrite <- Names. auto.
    + intros (_ & Nf).
      eapply post_weaken.
      * apply (IH (done ++ [d]) kept handled h); try assumption.
        rewrite Names'. intros D. rewrite <- Names in D.
        rewrite (O D), Nd1, filter_app. cbn [List.filter].
        assert (I : ~ In n (reply_names reply)).
        { intros I.
          apply (Permutation_in _ (Permutation_sym
                                     (names_where_split reply handled L)))
            in I.
          apply in_app_or in I. destruct I as [I | I]; [|exact (Nf I)].
          apply in_map_Ptr in I.
          apply (Permutation_in _ (Permutation_sym P)) in I.
          rewrite (O D) in I. apply in_map_Ptr in I.
          apply filter_In in I. destruct I as [I _].
          rewrite Names in D. apply NoDup_remove_2 in D.
          apply D. apply in_or_app. now left. }
        apply has_name_not_In in I. rewrite I, app_nil_r. reflexivity.
      * cbn [fst snd]. rewrite Names'. rewrite <- Names. auto.
Qed.


(** The second pass: the new records carry the names of the results not
    handled, in order, and each of those results has a name. *)
Lemma refresh_new_spec (reply : list attrs) :
  forall (handled : list bool) (l : list sysdb_subdom),
    List.length handled = List.length reply ->
    post (refresh_new reply handled l)
         (fun l' =>
            map subdom_name l'
            = map subdom_name l ++ map Ptr (names_where false reply handled)
            /\ List.length (names_where false reply handled) + marks handled
               = List.length handled).
Proof.
  induction reply as [|a reply IH]; intros handled l L.
  - destruct handled; [|discriminate L].
    apply post_ret. cbn. now rewrite app_nil_r.
  - destruct handled as [|hd handled]; [discriminate L|].
    injection L as L.
    cbn [refresh_new names_where]. unfold marks.
    destruct hd; cbn [Bool.eqb app List.filter List.length].
    + eapply post_weaken; [apply (IH _ _ L)|].
      cbn. intros l' (N & C). split; [exact N|]. unfold marks in C. lia.
    + eapply post_bind;
        [apply ipa_subdom_parse_post; exact readable_zero_subdom|].
      intros d (Ea & Nd & _).
      eapply post_weaken; [apply (IH _ _ L)|].
      cbn. intros l' (N & C). unfold entry_name.
      apply rc_is_true_iff in Ea. rewrite Ea. cbn [app List.length].
      split.
      * rewrite N, map_app, <- app_assoc. cbn [map app]. now rewrite Nd.
      * unfold marks in C. lia.
Qed.

Lemma names_where_false_filter (reply : list attrs) :
  forall handled,
    List.length handled = List.length reply ->
    NoDup (reply_names reply) ->
    names_where false reply handled
    = List.filter
        (fun n => negb (has_name (names_where true reply handled) n))
        (reply_names reply).
Proof.
  induction reply as [|a reply IH]; intros [|hd handled] L D;
    try discriminate L; [reflexivity|].
  injection L as L.
  cbn [reply_names flat_map] in D. fold (reply_names reply) in D.
  cbn [names_where reply_names flat_map]. fold (reply_names reply).
  assert (Dr : NoDup (reply_names reply)) by (eapply NoDup_app_remove_l; eauto).
  assert (Sub : forall n, In n (names_where true reply handled) ->
                          In n (reply_names reply)).
  { intros n. now apply names_where_true_fetched. }
  specialize (IH _ L Dr).
  unfold entry_name in *.
  destruct (rc_is (fst (sysdb_attrs_get_string a IPA_CN)) EOK).
  - set (v := snd (sysdb_attrs_get_string a IPA_CN)) in *.
    cbn [app] in D. apply NoDup_cons_iff in D. destruct D as [Fresh _].
    destruct hd; cbn [Bool.eqb app List.filter has_name existsb].
    + rewrite String.eqb_refl. cbn [orb negb]. rewrite IH.
      apply filter_ext_in. intros n I. f_equal.
      destruct (String.eqb_spec n v) as [->|]; [contradiction | reflexivity].
    + fold (has_name (names_where true reply handled) v).
      destruct (has_name _ v) eqn:E.
      * apply has_name_In in E. exfalso. apply Fresh. now apply Sub.
      * cbn [negb]. now rewrite IH.
  - destruct hd; cbn [Bool.eqb app]; exact IH.
Qed.

(** What both passes leave on success. *)
Lemma ipa_subdomains_refresh_passes (ctx ctx' : ipa_subdomains_ctx)
  (reply : list attrs) (changes changes' : bool) (now : Z) (hp hp' : heap) :
  forallb wf_subdom (subdoms ctx) = true ->
  ipa_subdomains_refresh ctx reply changes now hp
  = (Ok (EOK, ctx', changes'), hp') ->
  exists kept handled,
    List.length handled = List.length reply
    /\ List.length kept = marks handled
    /\ Permutation (map subdom_name kept)
                   (map Ptr (names_where true reply handled))
    /\ (NoDup (subdom_names (subdoms ctx)) ->
        map subdom_name kept
        = map Ptr (List.filter (has_name (reply_names reply))
                               (subdom_names (subdoms ctx))))
    /\ map subdom_name (subdoms ctx')
       = map subdom_name kept ++ map Ptr (names_where false reply handled)
    /\ List.length (names_where false reply handled) + marks handled
       = List.length handled
    /\ changes' = (changes || negb (Nat.eqb (List.length reply)
                                           (marks handled))).
Proof.
  intros W. unfold ipa_subdomains_refresh.
  pose proof (@refresh_existing_spec reply (subdoms ctx) [] []
                (repeat false (List.length reply)) 0 W) as E.
  assert (Z0 : forall r : list attrs,
             names_where true r (repeat false (List.length r)) = []).
  { induction r as [|x r IHr]; [reflexivity|]. cbn. exact IHr. }
  assert (M0 : forall k, marks (repeat false k) = 0).
  { induction k as [|k IHk]; [reflexivity | exact IHk]. }
  specialize (E (repeat_length _ _)). rewrite M0, Z0 in E.
  specialize (E eq_refl eq_refl (Permutation_refl _) (fun _ => eq_refl) hp).
  cbn [app] in E.
  destruct (refresh_existing reply (subdoms ctx) []
              (repeat false (List.length reply)) 0 hp)
    as [[[[kept handled] h]|e|] hp1]; cbn [fst snd] in E; [| |contradiction].
  - destruct E as (L & Hm & Hk & P & O). subst h.
    destruct (Nat.eqb (List.length reply) (marks handled)) eqn:Eq.
    + intros R. injection R as <- <- <-.
      exists kept, handled. rewrite Eq.
      apply Nat.eqb_eq in Eq. rewrite <- L in Eq.
      rewrite (marks_all reply handled (eq_sym Eq)).
      unfold refresh_done.
      replace (rc_isnt EOK EOK) with false by reflexivity.
      cbn [subdoms map List.length negb]. rewrite app_nil_r, orb_false_r.
      repeat split; auto.
    + rewrite bind_talloc_obj.
      destruct (talloc hp1) as [ok hp2]; cbn [fst snd].
      destruct ok; cbn [negb].
      * pose proof (@refresh_new_spec reply handled kept L hp2) as N.
        destruct (refresh_new reply handled kept hp2) as [[l|e|] hp3];
          cbn [fst] in N; [| |contradiction].
        -- intros R. injection R as <- <- <-. destruct N as (N & C).
           exists kept, handled. rewrite Eq. unfold refresh_done.
           replace (rc_isnt EOK EOK) with false by reflexivity.
           cbn [subdoms negb]. rewrite orb_true_r. repeat split; auto.
        -- intros R. injection R as R _. congruence.
      * intros R. discriminate R.
  - intros R. injection R as R _. congruence.
Qed.

(** X19: after a successful reconciliation of a cache of well-formed
    records, the cache holds one record per fetched result, every fetched
    result has a name, and the names in the cache are the fetched names. *)
Theorem ipa_subdomains_refresh_exact (ctx ctx' : ipa_subdomains_ctx)
  (reply : list attrs) (changes changes' : bool) (now : Z) (hp hp' : heap) :
  forallb wf_subdom (subdoms ctx) = true ->
  ipa_subdomains_refresh ctx reply changes now hp
  = (Ok (EOK, ctx', changes'), hp') ->
  List.length (subdoms ctx') = List.length reply
  /\ Forall (fun a => fst (sysdb_attrs_get_string a IPA_CN) = EOK) reply
  /\ Permutation (map subdom_name (subdoms ctx'))
                 (map Ptr (reply_names reply)).
Proof.
  intros W R.
  destruct (ipa_subdomains_refresh_passes _ _ _ _ _ W R)
    as (kept & handled & L & Hk & P & _ & N & C & _).
  assert (Pn : Permutation (map subdom_name (subdoms ctx'))
                 (map Ptr (reply_names reply))).
  { rewrite N, P, <- map_app. apply Permutation_map.
    now apply names_where_split. }
  assert (Len : List.length (subdoms ctx') = List.length reply).
  { rewrite <- (length_map subdom_name), N, length_app, !length_map. lia. }
  split; [exact Len|]. split; [|exact Pn].
  apply Permutation_length in Pn. rewrite !length_map, Len in Pn.
  clear - Pn. induction reply as [|a reply IH]; [constructor|].
  cbn [reply_names flat_map List.length] in Pn.
  fold (reply_names reply) in Pn. rewrite length_app in Pn.
  assert (B : List.length (reply_names reply) <= List.length reply).
  { clear. induction reply as [|b reply IHr]; [cbn; lia|].
    cbn [reply_names flat_map List.length]. fold (reply_names reply).
    rewrite length_app. unfold entry_name.
    destruct (rc_is _ _); cbn [List.length]; lia. }
  unfold entry_name in Pn.
  destruct (rc_is (fst (sysdb_attrs_get_string a IPA_CN)) EOK) eqn:E;
    cbn [List.length] in Pn; [|lia].
  constructor; [now apply rc_is_true_iff | apply IH; lia].
Qed.


Lemma forallb_filter_length {A} (p : A -> bool) (l : list A) :
  forallb p l
  = Nat.eqb (List.length (List.filter (fun x => negb (p x)) l)) 0.
Proof.
  induction l as [|x l IH]; [reflexivity|].
  cbn [forallb List.filter]. destruct (p x); cbn [negb andb]; [exact IH|].
  reflexivity.
Qed.

(** X20: with distinct names in the cache and in the batch, the cache after
    a successful reconciliation lists the cached names that were fetched,
    in cache order, then the fetched names that were not cached, in fetched
    order; and [*changes] is set exactly when a name was added. *)
Theorem ipa_subdomains_refresh_order (ctx ctx' : ipa_subdomains_ctx)
  (reply : list attrs) (changes changes' : bool) (now : Z) (hp hp' : heap) :
  forallb wf_subdom (subdoms ctx) = true ->
  NoDup (subdom_names (subdoms ctx)) ->
  NoDup (reply_names reply) ->
  ipa_subdomains_refresh ctx reply changes now hp
  = (Ok (EOK, ctx', changes'), hp') ->
  map subdom_name (subdoms ctx')
  = map Ptr
      (List.filter (has_name (reply_names reply)) (subdom_names (subdoms ctx))
       ++ List.filter (fun n => negb (has_name (subdom_names (subdoms ctx)) n))
                      (reply_names reply))
  /\ changes'
     = (changes
        || negb (forallb (has_name (subdom_names (subdoms ctx)))
                         (reply_names reply))).
Proof.
  intros W Dc Dr R.
  destruct (ipa_subdomains_refresh_passes _ _ _ _ _ W R)
    as (kept & handled & L & Hk & P & O & N & C & Ch).
  specialize (O Dc).
  assert (Same : forall n,
             In n (reply_names reply) ->
             has_name (names_where true reply handled) n
             = has_name (subdom_names (subdoms ctx)) n).
  { intros n I. apply eq_true_iff_eq. rewrite !has_name_In.
    rewrite <- (in_map_Ptr n (names_where true reply handled)).
    split.
    - intros J. apply (Permutation_in _ (Permutation_sym P)) in J.
      rewrite O in J. apply in_map_Ptr, filter_In in J. tauto.
    - intros J. apply (Permutation_in _ P). rewrite O.
      apply in_map_Ptr, filter_In. split; [exact J|].
      now apply has_name_In. }
  assert (New : names_where false reply handled
                = List.filter
                    (fun n => negb (has_name (subdom_names (subdoms ctx)) n))
                    (reply_names reply)).
  { rewrite (names_where_false_filter reply handled L Dr).
    apply filter_ext_in. intros n I. f_equal. now apply Same. }
  split.
  - now rewrite N, O, New, map_app.
  - rewrite Ch, forallb_filter_length, <- New. f_equal. f_equal.
    destruct (Nat.eqb_spec (List.length reply) (marks handled));
      destruct (Nat.eqb_spec (List.length (names_where false reply handled))
                  0); try reflexivity; lia.
Qed.

Lemma refresh_new_parsed (reply : list attrs) :
  forall (l l' : list sysdb_subdom) (hp hp' : heap),
    refresh_new reply (repeat false (List.length reply)) l hp = (Ok l', hp') ->
    exists new, l' = l ++ new /\ Forall2 parsed_from reply new.
Proof.
  induction reply as [|a reply IH]; intros l l' hp hp' R.
  - injection R as <- _. exists []. rewrite app_nil_r. split; constructor.
  - cbn [List.length repeat refresh_new] in R. rewrite bind_eq in R.
    destruct (ipa_subdom_parse a zero_subdom hp) as [[d|e|] hp1] eqn:P;
      try discriminate R.
    destruct (IH _ _ _ _ R) as (new & -> & F).
    exists (d :: new). rewrite <- app_assoc. split; [reflexivity|].
    constructor; [|exact F]. exact (ipa_subdom_parse_zero_parsed _ _ P).
Qed.

Lemma refresh_find_first_unhandled (n : string) (a : attrs)
  (todo : list attrs) (marks_after : list bool) :
  sysdb_attrs_get_string a IPA_CN = (EOK, n) ->
  forall (before : list attrs) (c0 : nat) (hp : heap),
    refresh_find (Ptr n) (before ++ a :: todo)
                 (repeat true (List.length before) ++ false :: marks_after)
                 c0 hp
    = (Ok (Some (c0 + List.length before, a)), hp).
Proof.
  intros E. induction before as [|b before IH]; intros c0 hp.
  - cbn [app List.length repeat refresh_find]. rewrite E.
    cbn. rewrite String.eqb_refl. cbn. now rewrite Nat.add_0_r.
  - cbn [app List.length repeat refresh_find]. rewrite IH.
    now rewrite Nat.add_succ_r.
Qed.

Lemma mark_handled_first_unhandled (k : nat) (marks_after : list bool) :
  mark_handled k (repeat true k ++ false :: marks_after)
  = repeat true (S k) ++ marks_after.
Proof.
  induction k as [|k IH]; [reflexivity|].
  cbn [repeat app mark_handled]. now rewrite IH.
Qed.

Lemma refresh_existing_unchanged (todo : list attrs) :
  forall (before : list attrs) (rest kept : list sysdb_subdom) (h : nat)
         (hp : heap),
    Forall2 parsed_from todo rest ->
    refresh_existing (before ++ todo) rest kept
                     (repeat true (List.length before)
                      ++ repeat false (List.length todo)) h hp
    = (Ok (kept ++ rest,
           repeat true (List.length before + List.length todo),
           h + List.length todo), hp).
Proof.
  induction todo as [|a todo IH]; intros before rest kept h hp F.
  - inversion F. subst. cbn [refresh_existing List.length repeat].
    now rewrite !app_nil_r, !Nat.add_0_r.
  - inversion F as [|a0 d todo0 rest' Pd F']. subst.
    destruct Pd as (n & f & i & En & Ef & Ei & ->).
    cbn [refresh_existing subdom_name List.length repeat].
    rewrite bind_eq.
    rewrite (@refresh_find_first_unhandled n a todo _ En before 0 hp).
    cbn [Nat.add]. rewrite bind_eq.
    rewrite (@ipa_subdom_parse_same a (Ptr (string_toupper n)) n f i hp
               eq_refl En Ef Ei).
    rewrite mark_handled_first_unhandled.
    specialize (IH (before ++ [a]) rest'
                  (kept ++ [mk_subdom (Ptr (string_toupper n)) (Ptr n)
                                      (Ptr f) (Ptr i)])
                  (S h) hp F').
    rewrite <- app_assoc, length_app in IH. cbn [app List.length] in IH.
    rewrite Nat.add_1_r in IH. rewrite IH.
    rewrite <- app_assoc. cbn [app].
    rewrite !Nat.add_succ_r. reflexivity.
Qed.

(** X21: a reconciliation that filled an empty cache is a fixed point: the
    same batch again changes no record, reports no change and allocates
    nothing. *)
Theorem ipa_subdomains_refresh_idempotent (ctx ctx1 : ipa_subdomains_ctx)
  (reply : list attrs) (changes changes1 : bool) (now : Z) (hp hp1 : heap) :
  subdoms ctx = [] ->
  ipa_subdomains_refresh ctx reply changes now hp
  = (Ok (EOK, ctx1, changes1), hp1) ->
  forall (changes' : bool) (now' : Z) (hp' : heap),
    ipa_subdomains_refresh ctx1 reply changes' now' hp'
    = (Ok (EOK,
           mk_sd_ctx (search_bases ctx1) (master_search_bases ctx1)
                     (ranges_search_bases ctx1) now' (subdoms ctx1),
           changes'),
       hp').
Proof.
  intros E R changes' now' hp'.
  assert (F : Forall2 parsed_from reply (subdoms ctx1)).
  { unfold ipa_subdomains_refresh in R. rewrite E in R.
    cbn [refresh_existing ret] in R.
    destruct reply as [|a reply].
    - cbn in R. injection R as <- _ _. constructor.
    - cbn [List.length Nat.eqb] in R. rewrite bind_talloc_obj in R.
      destruct (talloc hp) as [[] hp2]; cbn [fst snd negb] in R;
        [|discriminate R].
      destruct (refresh_new (a :: reply) _ [] hp2) as [[l|e|] hp3] eqn:N;
        try discriminate R.
      + injection R as <- _ _. unfold refresh_done.
        replace (rc_isnt EOK EOK) with false by reflexivity.
        cbn [subdoms].
        destruct (refresh_new_parsed _ _ _ N) as (new & -> & F). exact F.
      + injection R as R _ _. unfold refresh_done in R.
        exfalso. clear - N R.
        pose proof (refresh_new_post (a :: reply)
                      (repeat false (List.length (a :: reply))) [] hp2) as Q.
        cbn [List.length] in Q. rewrite N in Q. cbn [fst] in Q. congruence. }
  unfold ipa_subdomains_refresh.
  pose proof (@refresh_existing_unchanged reply [] (subdoms ctx1) [] 0 hp' F)
    as U.
  cbn [app List.length repeat Nat.add] in U. rewrite U.
  rewrite Nat.eqb_refl. reflexivity.
Qed.

End Reconciler.

(** ** Discovery state machine *)

Section Machine.

Context {attrs : Type} `{SysdbAttrs attrs} {W : Type} `{World (attrs := attrs) W}.

(** Symbolic execution of one callback: unfold the control operators and
    split on every test the code makes. *)
Ltac unfold_h :=
  unfold callback, modify_req in *;
  unfold hbind, ask, call, modify, the_req_ctx,
    the_sd_ctx, current_base, next, goto_done, return_, crash, done_reply,
    ipa_subdomains_reply, free_req_ctx, pick_sysdb in *.

Ltac simpl_h H :=
  cbn [fst snd st_world st_heap st_sd_ctx st_req_sysdb st_req_ctx
         st_pending st_trace set_world set_heap set_sd_ctx
         set_req_ctx set_pending log negb subdomain_requests
         params_filter params_cb params_attrs
         current_filter req_search_bases search_base_iter req_reply
         set_current_filter set_search_bases set_search_base_iter
         set_reply] in H.

Ltac simpl_goal :=
  cbn [fst snd st_world st_heap st_sd_ctx st_req_sysdb st_req_ctx
         st_pending st_trace set_world set_heap set_sd_ctx
         set_req_ctx set_pending log subdomain_requests
         params_filter params_cb params_attrs
         current_filter req_search_bases search_base_iter req_reply
         set_current_filter set_search_bases set_search_base_iter
         set_reply].

Ltac normal x :=
  eval cbn [negb andb orb fst snd st_world st_heap st_sd_ctx st_req_sysdb st_req_ctx
              st_pending st_trace set_world set_heap set_sd_ctx
              set_req_ctx set_pending log
              current_filter req_search_bases search_base_iter req_reply
              set_current_filter set_search_bases set_search_base_iter
              set_reply] in x.

Ltac rc_facts :=
  repeat match goal with
         | E : rc_isnt _ _ = false |- _ => apply rc_isnt_false_iff in E
         | E : rc_isnt _ _ = true |- _ => apply rc_isnt_true_iff in E
         | E : rc_is _ _ = false |- _ => apply rc_is_false_iff in E
         | E : rc_is _ _ = true |- _ => apply rc_is_true_iff in E
         end.

Ltac split_h H :=
  repeat (simpl_h H;
          match type of H with
          | context [match ?x with _ => _ end] =>
              innermost x;
              let x' := normal x in
              first [ progress change x with x' in H | case_on x ]
          | Some _ = Some _ => injection H as H
          | None = Some _ => discriminate H
          | Some _ = None => discriminate H
          end).

Ltac absurd_rc :=
  match goal with
  | E : Z.eqb ?a ?b = _ |- _ =>
      is_constructor_free a; vm_compute in E; discriminate E
  | E : rc_is ?a ?b = _ |- _ =>
      is_constructor_free a; vm_compute in E; discriminate E
  | E : rc_isnt ?a ?b = _ |- _ =>
      is_constructor_free a; vm_compute in E; discriminate E
  end
with absurd_case := first [ absurd_rc | discriminate | congruence ]
with is_constructor_free a :=
  lazymatch a with
  | EOK => idtac | ENOENT => idtac | EIO => idtac | EAGAIN => idtac
  | ENOMEM => idtac | EINVAL => idtac | ERANGE => idtac
  end.

Lemma handler_ranges_done_keeps_sd_ctx (st st' : state) :
  ipa_subdomains_handler_ranges_done st = Some st' ->
  st_sd_ctx st' = st_sd_ctx st.
Proof.
  intros R. unfold ipa_subdomains_handler_ranges_done,
    ipa_subdomains_handler_get in R.
  unfold_h. split_h R.
  all: try absurd_rc.
  all: subst st'; simpl_goal; congruence.
Qed.

Lemma handler_master_done_keeps_sd_ctx (st st' : state) :
  ipa_subdomains_handler_master_done st = Some st' ->
  st_sd_ctx st' = st_sd_ctx st.
Proof.
  intros R. unfold ipa_subdomains_handler_master_done,
    ipa_subdomains_handler_get in R.
  unfold_h. split_h R.
  all: try absurd_rc.
  all: subst st'; simpl_goal; congruence.
Qed.

(** When the entry point leaves a request in flight, it is the connection
    request, and nothing but the connection has been asked for. *)
Lemma handler_in_flight (st st1 : state) (cb : tevent_cb) :
  ipa_subdomains_handler st = Some st1 ->
  st_pending st1 = Some cb ->
  cb = CB_get_conn_done
  /\ st_trace st1 = st_trace st ++ [EvConnect]
  /\ st_sd_ctx st1 = st_sd_ctx st
  /\ st_req_ctx st1 <> None.
Proof.
  intros R P. unfold ipa_subdomains_handler in R.
  unfold_h. split_h R.
  all: subst st1; simpl_goal; cbn in P; try discriminate P.
  injection P as <-. repeat split; congruence.
Qed.

(** The connection callback when the connection attempt failed. *)
Lemma get_conn_done_failed (st : state) (r dp_error : Z) (w' : W) :
  sdap_id_op_connect_recv (st_world st) = ((r, dp_error), w') ->
  r <> 0%Z ->
  ipa_subdomains_get_conn_done st
  = Some (ipa_subdomains_reply dp_error r (free_req_ctx (set_world w' st))).
Proof.
  intros E Hr. unfold ipa_subdomains_get_conn_done. rewrite E.
  apply rc_isnt_true_iff in Hr. rewrite Hr. reflexivity.
Qed.

(** C8: when the connection attempt of a run fails with the backend
    offline, the run ends at once with the offline status; between its
    start and its end the module asks for the connection and replies, and
    nothing else: no search, no reconciliation, no store. *)
Theorem ipa_subdomains_offline (st st1 : state) (fuel : nat) (r : errno)
  (w' : W) :
  ipa_subdomains_handler st = Some st1 ->
  st_pending st1 = Some CB_get_conn_done ->
  sdap_id_op_connect_recv (st_world st1) = ((r, DP_ERR_OFFLINE), w') ->
  r <> 0%Z ->
  exists st',
    run_discovery (S fuel) st = Some st'
    /\ st_pending st' = None
    /\ st_req_ctx st' = None
    /\ st_sd_ctx st' = st_sd_ctx st
    /\ st_trace st' = st_trace st ++ [EvConnect; EvReply DP_ERR_OFFLINE r].
Proof.
  intros R P E Hr.
  destruct (handler_in_flight _ R P) as (_ & T & S & _).
  unfold run_discovery. rewrite R. cbn [run]. rewrite P.
  unfold step. rewrite P. cbn [dispatch].
  rewrite (@get_conn_done_failed (set_pending None st1) r DP_ERR_OFFLINE w'
             E Hr).
  eexists. split.
  - destruct fuel; reflexivity.
  - unfold ipa_subdomains_reply, free_req_ctx. simpl_goal.
    rewrite T, <- app_assoc. repeat split; auto.
Qed.

(** The connection callback when the slave stage has no search base: it
    returns without a reply and without a request in flight. *)
Lemma get_conn_done_silent (st : state) (c : ipa_subdomains_req_ctx)
  (dp_error : Z) (w' : W) :
  st_req_ctx st = Some c ->
  req_search_bases c = [] ->
  search_base_iter c = 0 ->
  sdap_id_op_connect_recv (st_world st) = ((0%Z, dp_error), w') ->
  ipa_subdomains_get_conn_done st = Some (set_world w' st).
Proof.
  intros C B I E. unfold ipa_subdomains_get_conn_done. rewrite E.
  unfold ipa_subdomains_handler_get. unfold_h. cbn.
  rewrite C, B, I. reflexivity.
Qed.

(** The master callback on a non-empty result: when the first result has
    a flat name and an identifier and the three allocations succeed, the
    record handed to the store carries them, with [name] and [realm]
    [NULL], and the reply carries the store's return code; otherwise the
    reply is a failure and the store is not called.  Either way the run
    ends. *)
Lemma handler_master_done_found_trace (st st' : state) (first : attrs)
  (others : list attrs) (w1 : W) :
  sdap_get_generic_recv (st_world st) = ((EOK, first :: others), w1) ->
  ipa_subdomains_handler_master_done st = Some st' ->
  let rf := fst (sysdb_attrs_get_string first IPA_FLATNAME) in
  let ri := fst (sysdb_attrs_get_string first IPA_SID) in
  let domain_info :=
    mk_subdom NULL NULL
              (Ptr (snd (sysdb_attrs_get_string first IPA_FLATNAME)))
              (Ptr (snd (sysdb_attrs_get_string first IPA_SID))) in
  let r := fst (sysdb_master_domain_add_info w1 be_ctx_sysdb domain_info) in
  st_pending st' = st_pending st
  /\ st_req_ctx st' = None
  /\ if rc_is rf EOK && rc_is ri EOK && alloc_ok 3 (st_heap st)
     then st_trace st'
          = st_trace st
            ++ [EvMasterAddInfo be_ctx_sysdb domain_info;
                EvReply (if rc_is r EOK then DP_ERR_OK else DP_ERR_FATAL) r]
     else exists e,
            e <> EOK
            /\ st_trace st' = st_trace st ++ [EvReply DP_ERR_FATAL e].
Proof.
  intros E R. cbv zeta.
  unfold ipa_subdomains_handler_master_done in R. unfold_h. rewrite E in R.
  rewrite !alloc_ok_S, alloc_ok_0. unfold talloc_obj, talloc_strdup in R.
  unfold set_id, set_flat_name, zero_subdom in R.
  cbn [subdom_realm subdom_name subdom_flat_name subdom_id] in R.
  unfold rc_isnt, rc_is in *.
  replace (Z.eqb EOK EOK) with true in R by reflexivity.
  split_h R.
  all: try absurd_case.
  all: subst st'; simpl_goal; cbn [negb andb].
  all: (split; [reflexivity|]); (split; [reflexivity|]).
  all: repeat match goal with
         | T : ?x = _ |- context [?x] => rewrite T; cbn [fst snd andb]
         end; rewrite ?andb_false_r.
  all: try (rewrite <- app_assoc; reflexivity).
  all: eexists; (split; [|reflexivity]).
  all: try discriminate.
  all: now apply Z.eqb_neq.
Qed.

Lemma handler_master_done_found_defined (st : state) (first : attrs)
  (others : list attrs) (w1 : W) :
  sdap_get_generic_recv (st_world st) = ((EOK, first :: others), w1) ->
  ipa_subdomains_handler_master_done st <> None.
Proof.
  intros E R.
  unfold ipa_subdomains_handler_master_done in R. unfold_h. rewrite E in R.
  unfold talloc_obj, talloc_strdup in R.
  unfold rc_isnt, rc_is in *.
  replace (Z.eqb EOK EOK) with true in R by reflexivity.
  split_h R.
Qed.

(** C6, as amended: in the master-domain stage, when a search returns a
    non-empty result set, the callback is defined and ends the run.  If the
    first result has its flat name and its identifier and the three
    allocations succeed, the record handed to the store has that flat name
    and that identifier and no name (the module leaves [name] and [realm]
    [NULL]), and the run ends with the store's return code: successfully
    when the store succeeds.  Otherwise nothing is stored and the run ends
    in failure. *)
Theorem ipa_subdomains_handler_master_done_found (st : state)
  (first : attrs) (others : list attrs) (w1 : W) :
  sdap_get_generic_recv (st_world st) = ((EOK, first :: others), w1) ->
  let rf := fst (sysdb_attrs_get_string first IPA_FLATNAME) in
  let ri := fst (sysdb_attrs_get_string first IPA_SID) in
  let domain_info :=
    mk_subdom NULL NULL
              (Ptr (snd (sysdb_attrs_get_string first IPA_FLATNAME)))
              (Ptr (snd (sysdb_attrs_get_string first IPA_SID))) in
  let r := fst (sysdb_master_domain_add_info w1 be_ctx_sysdb domain_info) in
  exists st',
    ipa_subdomains_handler_master_done st = Some st'
    /\ st_pending st' = st_pending st
    /\ st_req_ctx st' = None
    /\ if rc_is rf EOK && rc_is ri EOK && alloc_ok 3 (st_heap st)
       then st_trace st'
            = st_trace st
              ++ [EvMasterAddInfo be_ctx_sysdb domain_info;
                  EvReply (if rc_is r EOK then DP_ERR_OK else DP_ERR_FATAL) r]
       else exists e,
              e <> EOK
              /\ st_trace st' = st_trace st ++ [EvReply DP_ERR_FATAL e].
Proof.
  intros E. cbv zeta.
  destruct (ipa_subdomains_handler_master_done st) as [st'|] eqn:R.
  - exists st'. split; [reflexivity|].
    exact (handler_master_done_found_trace st E R).
  - exfalso. exact (handler_master_done_found_defined st E R).
Qed.


Lemma skipn_app_exact {A} (l l' : list A) :
  skipn (List.length l) (l ++ l') = l'.
Proof. induction l as [|x l IH]; [reflexivity | exact IH]. Qed.

(** The events of a callback, read off the state it returns. *)
Ltac new_events :=
  unfold events_since in *;
  cbn [fst snd st_world st_heap st_sd_ctx st_req_sysdb st_req_ctx
         st_pending st_trace set_world set_heap set_sd_ctx
         set_req_ctx set_pending log] in *;
  rewrite <- ?app_assoc in *; cbn [app] in *;
  rewrite ?skipn_app_exact, ?skipn_all in *;
  cbn [In] in *.

Ltac empty_reply :=
  repeat match goal with
         | E : Nat.eqb (List.length ?l) 0 = true |- _ =>
             apply Nat.eqb_eq, length_zero_iff_nil in E; subst l
         end.

(** From the slave stage into the ranges stage: the cursor is 0, the
    search-base list is the ranges list, the accumulated replies are still
    there, and the one search issued, last thing, is on the first ranges
    base. *)
Lemma handler_done_to_ranges (st st' : state) :
  st_pending st = None ->
  ipa_subdomains_handler_done st = Some st' ->
  st_pending st' = Some CB_handler_ranges_done ->
  exists c c' sd' base flt pre,
    st_req_ctx st = Some c
    /\ st_req_ctx st' = Some c'
    /\ st_sd_ctx st' = Some sd'
    /\ search_base_iter c' = 0
    /\ req_search_bases c' = ranges_search_bases sd'
    /\ req_reply c'
       = req_reply c ++ snd (fst (sdap_get_generic_recv (st_world st)))
    /\ nth_error (ranges_search_bases sd') 0 = Some base
    /\ events_since st st' = pre ++ [EvSearch IPA_SUBDOMAINS_RANGES base flt]
    /\ (forall ty b f, ~ In (EvSearch ty b f) pre).
Proof.
  intros P R P'. unfold ipa_subdomains_handler_done,
    ipa_subdomains_handler_get in R.
  unfold_h. unfold talloc_obj in R. split_h R.
  all: try absurd_case.
  all: subst st'; simpl_goal; cbn [st_pending] in P'; simpl_h P'.
  all: try congruence.
  all: empty_reply; do 5 eexists.
  all: let rest :=
         (split; [reflexivity|]); (split; [reflexivity|]);
         (split; [reflexivity|]); simpl_goal; rewrite ?app_nil_r;
         (split; [reflexivity|]); (split; [reflexivity|]);
         (split; [reflexivity|]); (split; [eassumption|]);
         new_events; (split; [reflexivity|]) in
       first [ eexists [_]; rest | eexists [_; _]; rest ].
  all: intros ty b f I; cbn [In] in I; intuition congruence.
Qed.


(** The ranges callback: a failed search or a failed parse ends the run
    with that code and nothing stored; otherwise the parse of the results
    of the search is handed to the store, first thing. *)
Lemma handler_ranges_done_parses (st st' : state) :
  st_pending st = None ->
  ipa_subdomains_handler_ranges_done st = Some st' ->
  let recv := fst (sdap_get_generic_recv (st_world st)) in
  if rc_isnt (fst recv) EOK
  then events_since st st' = [EvReply DP_ERR_FATAL (fst recv)]
  else match ipa_ranges_parse_results (snd recv) (st_heap st) with
       | (Ok l, _) =>
           exists rest,
             events_since st st' = EvUpdateRanges (pick_sysdb st) l :: rest
       | (Fail e, _) => events_since st st' = [EvReply DP_ERR_FATAL e]
       | (Undef, _) => False
       end.
Proof.
  intros P R. unfold ipa_subdomains_handler_ranges_done,
    ipa_subdomains_handler_get in R.
  unfold_h. split_h R.
  all: try absurd_case.
  all: subst st'; simpl_goal.
  all: repeat match goal with
         | T : ipa_ranges_parse_results _ _ = _ |- _ => rewrite T
         | T : rc_isnt _ _ = _ |- _ => rewrite T
         end; cbn [fst snd].
  all: new_events.
  all: try match goal with
         | T : ipa_ranges_parse_results _ _ = (Fail _, _) |- _ =>
             apply ipa_ranges_parse_results_fail_nonzero in T
         end.
  all: first [ reflexivity
             | eexists; reflexivity
             | exfalso; rc_facts; congruence ].
Qed.

Lemma get_conn_done_keeps_sd_ctx (st st' : state) :
  ipa_subdomains_get_conn_done st = Some st' ->
  st_sd_ctx st' = st_sd_ctx st
  /\ forall reply, ~ In (EvRefresh reply) (events_since st st').
Proof.
  intros R. unfold ipa_subdomains_get_conn_done,
    ipa_subdomains_handler_get in R.
  unfold_h. split_h R.
  all: try absurd_case.
  all: subst st'; simpl_goal.
  all: split; [reflexivity|].
  all: new_events.
  all: intros reply I; intuition congruence.
Qed.

Lemma handler_ranges_done_no_refresh (st st' : state) :
  ipa_subdomains_handler_ranges_done st = Some st' ->
  forall reply, ~ In (EvRefresh reply) (events_since st st').
Proof.
  intros R. unfold ipa_subdomains_handler_ranges_done,
    ipa_subdomains_handler_get in R.
  unfold_h. split_h R.
  all: try absurd_case.
  all: subst st'; new_events.
  all: intros reply I; intuition congruence.
Qed.

Lemma handler_master_done_no_refresh (st st' : state) :
  ipa_subdomains_handler_master_done st = Some st' ->
  forall reply, ~ In (EvRefresh reply) (events_since st st').
Proof.
  intros R. unfold ipa_subdomains_handler_master_done,
    ipa_subdomains_handler_get in R.
  unfold_h. split_h R.
  all: try absurd_case.
  all: subst st'; new_events.
  all: intros reply I; intuition congruence.
Qed.

(** The slave callback changes the backend context only by reconciling:
    the context it leaves is the one the reconciliation returned, whatever
    the callback does afterwards. *)
Lemma handler_done_after_refresh (st st' : state) (sd : ipa_subdomains_ctx)
  (reply : list attrs) :
  st_sd_ctx st = Some sd ->
  ipa_subdomains_handler_done st = Some st' ->
  In (EvRefresh reply) (events_since st st') ->
  exists hp r sd' changes hp',
    ipa_subdomains_refresh
      sd reply false (time (snd (sdap_get_generic_recv (st_world st)))) hp
    = (Ok (r, sd', changes), hp')
    /\ st_sd_ctx st' = Some sd'
    /\ (forall db l,
          In (EvUpdateSubdomains db l) (events_since st st') ->
          r = EOK /\ changes = true /\ l = subdoms sd').
Proof.
  intros S R. unfold ipa_subdomains_handler_done,
    ipa_subdomains_handler_get in R.
  unfold_h. unfold talloc_obj in R. split_h R.
  all: try absurd_case.
  all: subst st'; simpl_goal.
  all: intros I; new_events.
  all: try (exfalso; intuition congruence).
  all: repeat match goal with
         | E : rc_isnt _ EOK = false |- _ => apply rc_isnt_false_iff in E
         | E : rc_isnt _ EOK = true |- _ => apply rc_isnt_true_iff in E
         end.
  all: rewrite S in *.
  all: match goal with
       | T : ipa_subdomains_refresh _ ?rp _ _ ?hp = (Ok (?r, ?sd', ?ch), ?hp')
         |- _ =>
           exists hp, r, sd', ch, hp';
           assert (reply = rp) as -> by (intuition congruence)
       end.
  all: (split; [congruence|]); (split; [reflexivity|]).
  all: intros db x J; cbn [In] in J; intuition congruence.
Qed.

Lemma handler_done_without_refresh (st st' : state) :
  ipa_subdomains_handler_done st = Some st' ->
  (forall reply, ~ In (EvRefresh reply) (events_since st st')) ->
  st_sd_ctx st' = st_sd_ctx st.
Proof.
  intros R. unfold ipa_subdomains_handler_done,
    ipa_subdomains_handler_get in R.
  unfold_h. unfold talloc_obj in R. split_h R.
  all: try absurd_case.
  all: subst st'; simpl_goal.
  all: intros N; new_events.
  all: try congruence.
  all: exfalso; eapply N; eauto.
Qed.

Lemma classic_refresh (st st' : @state attrs W) :
  (exists reply, In (EvRefresh reply) (events_since st st'))
  \/ (forall reply, ~ In (EvRefresh reply) (events_since st st')).
Proof.
  induction (events_since st st') as [|e l IH].
  - right. intros reply [].
  - destruct IH as [(reply & I) | N].
    + left. exists reply. now right.
    + destruct e; try (right; intros reply [E | I];
                       [discriminate E | exact (N reply I)]).
      left. eexists. left. reflexivity.
Qed.

(** C2, as amended: when the slave stage hands over to the ranges stage,
    the cursor is 0, the search-base list is the ranges list, the replies
    accumulated so far are kept, and the one search issued, last thing, is
    on the ranges base at the cursor, the first one.  When that search
    completes, its callback parses the results it has just received, not
    the accumulator: after a successful search and parse the parsed
    records are handed to the store, first thing; a failed search or
    parse ends the run with [DP_ERR_FATAL] and that code, nothing
    stored. *)
Theorem ipa_subdomains_ranges_stage (st st1 st2 : state) :
  st_pending st = None ->
  ipa_subdomains_handler_done st = Some st1 ->
  st_pending st1 = Some CB_handler_ranges_done ->
  step st1 = Some st2 ->
  (exists c c1 sd1 base flt pre,
      st_req_ctx st = Some c
      /\ st_req_ctx st1 = Some c1
      /\ st_sd_ctx st1 = Some sd1
      /\ search_base_iter c1 = 0
      /\ req_search_bases c1 = ranges_search_bases sd1
      /\ req_reply c1
         = req_reply c ++ snd (fst (sdap_get_generic_recv (st_world st)))
      /\ nth_error (ranges_search_bases sd1) 0 = Some base
      /\ events_since st st1
         = pre ++ [EvSearch IPA_SUBDOMAINS_RANGES base flt]
      /\ (forall ty b f, ~ In (EvSearch ty b f) pre))
  /\ (let recv := fst (sdap_get_generic_recv (st_world st1)) in
      if rc_isnt (fst recv) EOK
      then events_since st1 st2 = [EvReply DP_ERR_FATAL (fst recv)]
      else match ipa_ranges_parse_results (snd recv) (st_heap st1) with
           | (Ok l, _) =>
               exists rest,
                 events_since st1 st2
                 = EvUpdateRanges (pick_sysdb st1) l :: rest
           | (Fail e, _) => events_since st1 st2 = [EvReply DP_ERR_FATAL e]
           | (Undef, _) => False
           end).
Proof.
  intros P R P1 S. split.
  - exact (handler_done_to_ranges st P R P1).
  - unfold step in S. rewrite P1 in S. cbn [dispatch] in S.
    exact (@handler_ranges_done_parses (set_pending None st1) st2
             eq_refl S).
Qed.

(** C5, as amended: a callback changes the backend context only by
    reconciling.  The timestamp is reset to zero when the reconciliation
    itself fails; when the reconciliation succeeds the timestamp is the
    time of the reconciliation, also when the store of the snapshot fails
    afterwards, and the callbacks of the later stages (ranges parse,
    ranges store, master lookup and store) leave it unchanged. *)
Theorem ipa_subdomains_timestamp_after_callback (cb : tevent_cb)
  (st st' : state) (sd : ipa_subdomains_ctx) :
  st_sd_ctx st = Some sd ->
  dispatch cb st = Some st' ->
  exists sd',
    st_sd_ctx st' = Some sd'
    /\ ((forall reply, ~ In (EvRefresh reply) (events_since st st')) ->
        sd' = sd)
    /\ (cb <> CB_handler_done ->
        forall reply, ~ In (EvRefresh reply) (events_since st st'))
    /\ (forall reply,
          In (EvRefresh reply) (events_since st st') ->
          let now := time (snd (sdap_get_generic_recv (st_world st))) in
          exists hp r changes hp',
            ipa_subdomains_refresh sd reply false now hp
            = (Ok (r, sd', changes), hp')
            /\ (r <> EOK -> last_refreshed sd' = 0%Z)
            /\ (r = EOK -> last_refreshed sd' = now)
            /\ (forall db l,
                  In (EvUpdateSubdomains db l) (events_since st st') ->
                  r = EOK)).
Proof.
  intros S D.
  assert (Keeps : st_sd_ctx st' = st_sd_ctx st ->
                  (forall reply, ~ In (EvRefresh reply) (events_since st st')) ->
                  exists sd',
                    st_sd_ctx st' = Some sd'
                    /\ ((forall reply,
                           ~ In (EvRefresh reply) (events_since st st')) ->
                        sd' = sd)
                    /\ (cb <> CB_handler_done ->
                        forall reply,
                          ~ In (EvRefresh reply) (events_since st st'))
                    /\ (forall reply,
                          In (EvRefresh reply) (events_since st st') ->
                          let now :=
                            time (snd (sdap_get_generic_recv (st_world st)))
                          in
                          exists hp r changes hp',
                            ipa_subdomains_refresh sd reply false now hp
                            = (Ok (r, sd', changes), hp')
                            /\ (r <> EOK -> last_refreshed sd' = 0%Z)
                            /\ (r = EOK -> last_refreshed sd' = now)
                            /\ (forall db l,
                                  In (EvUpdateSubdomains db l)
                                     (events_since st st') ->
                                  r = EOK))).
  { intros K N. exists sd. rewrite K. repeat split; auto.
    intros reply I. exfalso. exact (N reply I). }
  destruct cb; cbn [dispatch] in D.
  - destruct (get_conn_done_keeps_sd_ctx st D) as (K & N). now apply Keeps.
  - destruct (classic_refresh st st') as [(reply & I) | N].
    + destruct (@handler_done_after_refresh _ _ _ _ S D I)
        as (hp & r & sd' & changes & hp' & T & S' & U).
      exists sd'. split; [exact S'|]. split; [|split].
      * intros N. exfalso. exact (N reply I).
      * intros C. now contradiction C.
      * intros reply' I'.
        destruct (@handler_done_after_refresh _ _ _ _ S D I')
          as (hp2 & r2 & sd2 & changes2 & hp2' & T2 & S2 & U2).
        assert (sd2 = sd') as -> by congruence.
        destruct (ipa_subdomains_refresh_result _ _ _ _ _ T2) as (F2 & G2).
        exists hp2, r2, changes2, hp2'. repeat split; auto.
        -- intros Hr. now apply F2.
        -- intros db l J. now apply (U2 db l J).
    + apply Keeps; [|exact N].
      exact (handler_done_without_refresh st D N).
  - apply Keeps.
    + exact (handler_master_done_keeps_sd_ctx st D).
    + exact (handler_master_done_no_refresh st D).
  - apply Keeps.
    + exact (handler_ranges_done_keeps_sd_ctx st D).
    + exact (handler_ranges_done_no_refresh st D).
Qed.

(** *** Every run replies exactly once

    With at least one slave search base configured, every callback either
    ends the run with one reply or leaves one request in flight and a
    smaller number of callbacks to come. *)

(** The reconciliation leaves the configured search bases alone. *)
Lemma ipa_subdomains_refresh_keeps_bases (ctx ctx' : ipa_subdomains_ctx)
  (reply : list attrs) (changes changes' : bool) (now : Z) (hp hp' : heap)
  (r : errno) :
  ipa_subdomains_refresh ctx reply changes now hp
  = (Ok (r, ctx', changes'), hp') ->
  search_bases ctx' = search_bases ctx
  /\ master_search_bases ctx' = master_search_bases ctx
  /\ ranges_search_bases ctx' = ranges_search_bases ctx.
Proof.
  unfold ipa_subdomains_refresh. intros R.
  assert (D : forall l,
             search_bases (refresh_done ctx r l now) = search_bases ctx
             /\ master_search_bases (refresh_done ctx r l now)
                = master_search_bases ctx
             /\ ranges_search_bases (refresh_done ctx r l now)
                = ranges_search_bases ctx).
  { intros l. unfold refresh_done. destruct (rc_isnt r EOK); auto. }
  destruct (refresh_existing _ _ _ _ _ _) as [[[[kept handled] h]|e|] hp1];
    [| |discriminate R].
  - destruct (Nat.eqb _ _).
    + injection R as <- <- <- <-. apply D.
    + destruct (bind _ _ hp1) as [[l|e|] hp2]; [| |discriminate R];
        injection R as <- <- <- <-; apply D.
  - injection R as <- <- <- <-. apply D.
Qed.

(** On a cache of well-formed records the reconciliation dereferences no
    released or unset pointer. *)
Lemma ipa_subdomains_refresh_defined (ctx : ipa_subdomains_ctx)
  (reply : list attrs) (changes : bool) (now : Z) (hp hp' : heap) :
  forallb wf_subdom (subdoms ctx) = true ->
  ipa_subdomains_refresh ctx reply changes now hp <> (Undef, hp').
Proof.
  intros Wf R.
  destruct (ipa_subdomains_refresh_spec ctx reply changes now hp Wf)
    as (r & l & c & hp2 & E & _).
  congruence.
Qed.

Ltac same_some :=
  repeat match goal with
         | X : Some _ = Some _ |- _ => injection X as X; subst
         end.

Ltac list_facts :=
  repeat match goal with
         | E : nth_error ?l ?i = Some _ |- _ =>
             lazymatch goal with
             | _ : i < List.length l |- _ => fail
             | _ => assert (i < List.length l)
                 by (apply nth_error_Some; congruence)
             end
         | E : nth_error ?l ?i = None |- _ =>
             apply nth_error_None in E
         | E : Nat.ltb _ _ = false |- _ => apply Nat.ltb_ge in E
         | E : Nat.ltb _ _ = true |- _ => apply Nat.ltb_lt in E
         | B : ?l <> [] |- _ =>
             lazymatch goal with
             | _ : 0 < List.length l |- _ => fail
             | _ => assert (0 < List.length l)
                 by (destruct l; [contradiction | cbn; lia])
             end
         end.

Ltac trace_ext :=
  rewrite <- ?app_assoc; cbn [app];
  first [ reflexivity | symmetry; apply app_nil_r ].

(** The run ended in this callback with one reply. *)
Ltac ended :=
  eexists; split; [reflexivity|]; split; [trace_ext|];
  left; split; reflexivity.

(** The run goes on: a request is in flight and nothing was replied. *)
Ltac goes_on :=
  eexists; split; [reflexivity|]; split; [trace_ext|];
  right; split; [discriminate|]; split; [reflexivity|]; split;
  [ unfold stage_ok; simpl_goal; do 2 eexists;
    split; [reflexivity|]; split; [first [reflexivity | eassumption]|];
    simpl_goal;
    repeat split; first [assumption | lia | congruence]
  | simpl_goal;
    repeat match goal with
           | S : st_sd_ctx _ = Some _ |- _ => rewrite S
           | K : master_search_bases _ = master_search_bases _ |- _ =>
               rewrite K
           end;
    simpl_goal; lia ].

Ltac model_facts :=
  repeat match goal with
         | T : ipa_subdomains_refresh _ _ _ _ _ = (Ok _, _) |- _ =>
             apply ipa_subdomains_refresh_keeps_bases in T;
             destruct T as (? & ? & ?)
         | T : ipa_subdomains_refresh _ _ _ _ _ = (Undef, _) |- _ =>
             exfalso; eapply ipa_subdomains_refresh_defined; [|exact T];
             assumption
         | T : ipa_subdomains_refresh _ _ _ _ _ = (Fail _, _) |- _ =>
             exfalso; eapply ipa_subdomains_refresh_never_fails; exact T
         | T : ipa_ranges_parse_results ?r ?h = (Undef, _) |- _ =>
             exfalso; apply (ipa_ranges_parse_results_defined r h);
             rewrite T; reflexivity
         end.

(** One callback: the run ends with one reply, or goes on with a request
    in flight, no reply, and fewer callbacks left. *)
Lemma callback_progress (cb : tevent_cb) (st : state) :
  st_pending st = Some cb ->
  stage_ok st ->
  exists st1 evs,
    step st = Some st1
    /\ st_trace st1 = st_trace st ++ evs
    /\ ((st_pending st1 = None /\ replies evs = 1)
        \/ (st_pending st1 <> None /\ replies evs = 0
            /\ stage_ok st1 /\ callbacks_left st1 < callbacks_left st)).
Proof.
  intros P G. unfold stage_ok in G. rewrite P in G.
  destruct G as (c & sd & C & S & G).
  unfold callbacks_left. rewrite P, C, S.
  destruct (step st) as [st1|] eqn:R; [exists st1 | exfalso];
    unfold step in R; rewrite P in R; destruct cb; cbn [dispatch] in R.
  - destruct G as (I & B & Wf).
    unfold ipa_subdomains_get_conn_done, ipa_subdomains_handler_get in R.
    unfold_h. split_h R.
    all: try absurd_case.
    all: subst st1; simpl_goal; same_some; list_facts.
    all: try solve [ended].
    all: try solve [goes_on].
    all: exfalso; lia.
  - destruct G as (I & Wf).
    unfold ipa_subdomains_handler_done, ipa_subdomains_handler_get in R.
    unfold_h. unfold talloc_obj in R. split_h R.
    all: try absurd_case.
    all: subst st1; simpl_goal; same_some; list_facts; model_facts.
    all: try solve [ended].
    all: try solve [goes_on].
  - unfold ipa_subdomains_handler_master_done,
      ipa_subdomains_handler_get in R.
    unfold_h. unfold talloc_obj, talloc_strdup in R. split_h R.
    all: try absurd_case.
    all: subst st1; simpl_goal; same_some; list_facts.
    all: try solve [ended].
    all: try solve [goes_on].
  - unfold ipa_subdomains_handler_ranges_done,
      ipa_subdomains_handler_get in R.
    unfold_h. split_h R.
    all: try absurd_case.
    all: subst st1; simpl_goal; same_some; list_facts.
    all: try solve [ended].
    all: try solve [goes_on].
  - destruct G as (I & B & Wf).
    unfold ipa_subdomains_get_conn_done, ipa_subdomains_handler_get in R.
    unfold_h. split_h R.
    all: try absurd_case.
    all: same_some; list_facts; try congruence; try lia.
  - destruct G as (I & Wf).
    unfold ipa_subdomains_handler_done, ipa_subdomains_handler_get in R.
    unfold_h. unfold talloc_obj in R. split_h R.
    all: try absurd_case.
    all: same_some; list_facts; model_facts; try congruence; try lia.
  - unfold ipa_subdomains_handler_master_done,
      ipa_subdomains_handler_get in R.
    unfold_h. unfold talloc_obj, talloc_strdup in R. split_h R.
    all: try absurd_case.
    all: same_some; list_facts; try congruence; try lia.
  - unfold ipa_subdomains_handler_ranges_done,
      ipa_subdomains_handler_get in R.
    unfold_h. split_h R.
    all: try absurd_case.
    all: same_some; list_facts; model_facts; try congruence; try lia.
Qed.

Lemma replies_app (evs evs' : list (event (attrs := attrs))) :
  replies (evs ++ evs') = replies evs + replies evs'.
Proof. unfold replies. now rewrite filter_app, length_app. Qed.

Lemma run_idle (fuel : nat) (st : @state attrs W) :
  st_pending st = None -> run fuel st = Some st.
Proof. intros P. destruct fuel; cbn; [|rewrite P]; reflexivity. Qed.

Lemma callbacks_left_positive (st : @state attrs W) (cb : tevent_cb) :
  st_pending st = Some cb -> stage_ok st -> 0 < callbacks_left st.
Proof.
  intros P G. unfold stage_ok in G. unfold callbacks_left.
  rewrite P in *. destruct G as (c & sd & -> & -> & G).
  destruct cb; lia.
Qed.

(** A run with a request in flight ends, given fuel for the callbacks
    left, with exactly one reply. *)
Lemma run_ends (fuel : nat) :
  forall (st : @state attrs W) (cb : tevent_cb),
    st_pending st = Some cb ->
    stage_ok st ->
    callbacks_left st <= fuel ->
    exists st' evs,
      run fuel st = Some st'
      /\ st_trace st' = st_trace st ++ evs
      /\ st_pending st' = None
      /\ replies evs = 1.
Proof.
  induction fuel as [|fuel IH]; intros st cb P G L.
  - pose proof (@callbacks_left_positive st cb P G). lia.
  - destruct (@callback_progress cb st P G)
      as (st1 & evs & R & T & [(P1 & N) | (P1 & N & G1 & L1)]).
    + exists st1, evs. cbn [run]. rewrite P, R.
      rewrite (@run_idle fuel st1 P1). auto.
    + destruct (st_pending st1) as [cb1|] eqn:Q; [|contradiction].
      destruct (IH st1 cb1 Q G1 ltac:(lia)) as (st' & evs' & R' & T' & P' & N').
      exists st', (evs ++ evs'). cbn [run]. rewrite P, R.
      split; [exact R'|]. split; [now rewrite T', T, app_assoc|].
      split; [exact P'|]. rewrite replies_app. lia.
Qed.

(** The entry point replies at once (no context, refresh gate closed,
    allocation or connection request failed) or leaves the connection
    request in flight with the cursor on the first slave search base. *)
Lemma handler_progress (st : @state attrs W) :
  exists st1 evs,
    ipa_subdomains_handler st = Some st1
    /\ st_trace st1 = st_trace st ++ evs
    /\ ((st_pending st1 = None /\ replies evs = 1)
        \/ (st_pending st1 = Some CB_get_conn_done
            /\ replies evs = 0
            /\ exists c sd,
                 st_sd_ctx st = Some sd
                 /\ st_sd_ctx st1 = Some sd
                 /\ st_req_ctx st1 = Some c
                 /\ search_base_iter c = 0
                 /\ req_search_bases c = search_bases sd)).
Proof.
  destruct (ipa_subdomains_handler st) as [st1|] eqn:R;
    [exists st1 | exfalso];
    unfold ipa_subdomains_handler in R; unfold_h; unfold talloc_obj in R;
    split_h R.
  all: try absurd_case.
  all: subst st1; simpl_goal.
  all: try solve [ended].
  all: eexists; split; [reflexivity|]; split; [trace_ext|].
  all: right; split; [reflexivity|]; split; [reflexivity|].
  all: do 2 eexists; repeat split; eassumption.
Qed.

(** With a slave search base configured and a cache of well-formed
    records, the run ends with nothing in flight and exactly one reply. *)
Lemma run_discovery_replies_once (st : @state attrs W) (fuel : nat) :
  (forall sd,
      st_sd_ctx st = Some sd ->
      search_bases sd <> []
      /\ forallb wf_subdom (subdoms sd) = true
      /\ 3 + List.length (search_bases sd)
         + List.length (master_search_bases sd) <= fuel) ->
  exists st' evs,
    run_discovery fuel st = Some st'
    /\ st_trace st' = st_trace st ++ evs
    /\ st_pending st' = None
    /\ replies evs = 1.
Proof.
  intros C. unfold run_discovery.
  destruct (handler_progress st)
    as (st1 & evs & R & T & [(P1 & N) | (P1 & N & c & sd & S & S1 & C1 & I & B)]).
  - rewrite R. exists st1, evs. rewrite (@run_idle fuel st1 P1). auto.
  - rewrite R. destruct (C sd S) as (Nb & Wf & L).
    assert (G : stage_ok st1).
    { unfold stage_ok. rewrite P1. exists c, sd.
      repeat split; auto. now rewrite B. }
    assert (L1 : callbacks_left st1 <= fuel).
    { unfold callbacks_left. rewrite P1, C1, S1, B. exact L. }
    destruct (@run_ends fuel st1 _ P1 G L1) as (st' & evs' & R' & T' & P' & N').
    exists st', (evs ++ evs'). split; [exact R'|].
    split; [now rewrite T', T, app_assoc|].
    split; [exact P'|]. rewrite replies_app. lia.
Qed.

(** X1: with a slave search base configured and a cache of well-formed
    records, the run ends with nothing in flight and exactly one reply,
    whatever the collaborators answer and whichever allocations fail. *)
Theorem ipa_subdomains_replies_once (st : @state attrs W) (fuel : nat) :
  (forall sd,
      st_sd_ctx st = Some sd ->
      search_bases sd <> []
      /\ forallb wf_subdom (subdoms sd) = true
      /\ 3 + List.length (search_bases sd)
         + List.length (master_search_bases sd) <= fuel) ->
  exists st' evs,
    run_discovery fuel st = Some st'
    /\ st_trace st' = st_trace st ++ evs
    /\ st_pending st' = None
    /\ replies evs = 1.
Proof. exact (@run_discovery_replies_once st fuel). Qed.

(** *** More on the callbacks *)

(** Equations between constructor terms, and two facts about the same
    call. *)
Ltac same_lhs :=
  repeat match goal with
         | B : Some _ = Some _ |- _ => injection B; clear B; intros; subst
         | B : (_, _) = (_, _) |- _ => injection B; clear B; intros; subst
         | A : ?x = ?a, B : ?x = ?b |- _ =>
             lazymatch a with b => fail | _ => idtac end;
             rewrite A in B
         end.

(** The reply among the events of a callback. *)
Ltac the_reply I :=
  repeat match type of I with
         | _ \/ _ => destruct I as [I|I]
         | False => contradiction
         | EvReply _ _ = EvReply _ _ => injection I as <- <-
         | _ = EvReply _ _ => discriminate I
         end.

Ltac outcome :=
  split;
  [ let dp := fresh "dp" in let r := fresh "r" in let I := fresh "I" in
    intros dp r I; new_events; the_reply I;
    unfold reply_status;
    repeat match goal with
      | E : rc_is ?r ?c = _ |- context [rc_is ?r ?c] => rewrite E
      end;
    rc_facts;
    first [ reflexivity | assumption | discriminate
          | split; [reflexivity | first [assumption | discriminate]] ]
  | split;
    [ unfold next_stage, reconciled, ranges_stored; new_events;
      first [ exact I | reflexivity | left; reflexivity
            | right; split; [reflexivity | eexists; eauto 8]
            | split; [reflexivity | do 2 eexists; eauto 8] ]
    | split;
      [ let dp := fresh "dp" in let I := fresh "I" in let C := fresh "C" in
        intros dp I C; try discriminate C;
        unfold ranges_stored; new_events;
        first [ solve [do 2 eexists; eauto 8]
              | exfalso; repeat (destruct I as [I|I]);
                try discriminate I; try contradiction;
                let Hr := fresh "Hr" in
                injection I as _ Hr; rc_facts;
                first [ congruence | vm_compute in Hr; discriminate Hr ] ]
      | split;
        [ let sd := fresh "sd" in let S := fresh "S" in
          intros sd S; eexists; split;
          [ first [ reflexivity | eassumption ] | congruence ]
        | let sd1 := fresh "sd1" in let Q := fresh "Q" in
          let S := fresh "S" in let B := fresh "B" in
          intros sd1 Q S B; simpl_h Q; simpl_h S;
          first [ congruence
                | injection S as S; subst;
                  match goal with
                  | E : nth_error (ranges_search_bases _) 0 = Some _ |- _ =>
                      rewrite B in E; discriminate E
                  end ] ] ] ] ].

(** X7: a successful reconciliation closes the refresh gate for the next
    [IPA_SUBDOMAIN_REFRESH_LIMIT] seconds: an invocation within them
    replies success at once, asks for nothing and allocates nothing.  A
    failed reconciliation leaves the gate open: the next invocation asks
    for the connection, unless the run context cannot be set up. *)
Theorem ipa_subdomains_refresh_then_handler (ctx ctx' : ipa_subdomains_ctx)
  (reply : list attrs) (changes changes' : bool) (now : Z) (hp hp' : heap)
  (r : errno) (st : @state attrs W) :
  ipa_subdomains_refresh ctx reply changes now hp
  = (Ok (r, ctx', changes'), hp') ->
  st_sd_ctx st = Some ctx' ->
  (r = EOK ->
   (time (st_world st) - IPA_SUBDOMAIN_REFRESH_LIMIT < now)%Z ->
   ipa_subdomains_handler st
   = Some (mk_state (st_world st) (st_heap st) (st_sd_ctx st)
                    (st_req_sysdb st) None None
                    (st_trace st ++ [EvReply DP_ERR_OK EOK])))
  /\ (r <> EOK ->
      (IPA_SUBDOMAIN_REFRESH_LIMIT <= time (st_world st))%Z ->
      forall st',
        ipa_subdomains_handler st = Some st' ->
        In EvConnect (events_since st st')
        \/ events_since st st' = [EvReply DP_ERR_FATAL ENOMEM]).
Proof.
  intros R S.
  destruct (ipa_subdomains_refresh_result _ _ _ _ _ R) as (Bad & Good).
  split.
  - intros E T. specialize (Good E). unfold ipa_subdomains_handler.
    unfold_h. simpl_goal. rewrite S, Good.
    replace (Z.gtb now (time (st_world st) - IPA_SUBDOMAIN_REFRESH_LIMIT))
      with true by (symmetry; apply Z.gtb_lt; lia).
    unfold log, set_req_ctx, set_pending. cbn. rewrite ?S. reflexivity.
  - intros E T st' D. destruct (Bad E) as (Z0 & _).
    unfold ipa_subdomains_handler in D. unfold_h. unfold talloc_obj in D.
    simpl_h D. rewrite S, Z0 in D.
    replace (Z.gtb 0 (time (st_world st) - IPA_SUBDOMAIN_REFRESH_LIMIT))
      with false in D
      by (symmetry; rewrite Z.gtb_ltb; apply Z.ltb_ge; lia).
    split_h D.
    all: try absurd_case.
    all: subst st'; new_events; auto.
Qed.

(** X8: the slave stage walks its search bases in order and accumulates
    their replies: when the slave callback leaves a slave search in flight,
    the cursor has advanced by one, the reply just received is appended to
    the accumulator, the one search issued is on the next base, and the
    cache is untouched. *)
Theorem ipa_subdomains_handler_done_next_base (st st' : state)
  (c : ipa_subdomains_req_ctx) :
  st_pending st = None ->
  st_req_ctx st = Some c ->
  ipa_subdomains_handler_done st = Some st' ->
  st_pending st' = Some CB_handler_done ->
  exists c' base flt,
    st_req_ctx st' = Some c'
    /\ search_base_iter c' = S (search_base_iter c)
    /\ req_search_bases c' = req_search_bases c
    /\ req_reply c'
       = req_reply c ++ snd (fst (sdap_get_generic_recv (st_world st)))
    /\ nth_error (req_search_bases c) (S (search_base_iter c)) = Some base
    /\ events_since st st' = [EvSearch IPA_SUBDOMAINS_SLAVE base flt]
    /\ st_sd_ctx st' = st_sd_ctx st.
Proof.
  intros P C R P'. unfold ipa_subdomains_handler_done,
    ipa_subdomains_handler_get in R.
  unfold_h. unfold talloc_obj in R. split_h R.
  all: try absurd_case.
  all: same_some.
  all: remember (nth_error (req_search_bases c) (S (search_base_iter c)))
         as nb eqn:Hnb in *.
  all: try subst st'; simpl_goal; cbn [st_pending] in P'; simpl_h P'.
  all: try congruence.
  all: empty_reply; do 3 eexists.
  all: repeat (split; [first [reflexivity | eassumption]|]).
  all: simpl_goal; rewrite ?app_nil_r.
  all: repeat (split; [first [reflexivity | eassumption]|]).
  all: new_events; split; reflexivity.
Qed.

(** X9: a master search that finds nothing stores nothing.  On the last
    master base the run ends with "record not found" ([EIO]); otherwise
    the search goes on with the next base, or the run ends with
    [ENOMEM]. *)
Theorem ipa_subdomains_handler_master_done_empty (st : state)
  (c : ipa_subdomains_req_ctx) (w1 : W) :
  st_req_ctx st = Some c ->
  search_base_iter c < List.length (req_search_bases c) ->
  sdap_get_generic_recv (st_world st) = ((EOK, []), w1) ->
  exists st',
    ipa_subdomains_handler_master_done st = Some st'
    /\ st_sd_ctx st' = st_sd_ctx st
    /\ (forall db d, ~ In (EvMasterAddInfo db d) (events_since st st'))
    /\ match nth_error (req_search_bases c) (S (search_base_iter c)) with
       | None =>
           st_trace st' = st_trace st ++ [EvReply DP_ERR_FATAL EIO]
           /\ st_req_ctx st' = None
           /\ st_pending st' = st_pending st
       | Some base =>
           (exists flt,
               events_since st st' = [EvSearch IPA_SUBDOMAINS_MASTER base flt]
               /\ st_pending st' = Some CB_handler_master_done
               /\ st_req_ctx st'
                  = Some (set_current_filter (Some flt)
                            (set_search_base_iter (S (search_base_iter c)) c)))
           \/ (replies (events_since st st') = 1
               /\ In (EvReply DP_ERR_FATAL ENOMEM) (events_since st st')
               /\ st_req_ctx st' = None
               /\ st_pending st' = st_pending st)
       end.
Proof.
  intros C I E.
  destruct (ipa_subdomains_handler_master_done st) as [st'|] eqn:R;
    [exists st'; split; [reflexivity|] | exfalso];
    unfold ipa_subdomains_handler_master_done,
      ipa_subdomains_handler_get in R;
    unfold_h; rewrite E in R; unfold rc_isnt, rc_is in R;
    replace (Z.eqb EOK EOK) with true in R by reflexivity;
    split_h R.
  all: try absurd_case.
  all: same_some; list_facts; try lia.
  all: remember (nth_error (req_search_bases c) (S (search_base_iter c)))
         as nb eqn:Hnb in *.
  all: try match goal with
         | T : List.length ?l <= ?i, K : _ = nth_error ?l ?i |- _ =>
             rewrite (proj2 (nth_error_None l i) T) in K
         end.
  all: try subst st'; simpl_goal.
  all: split; [reflexivity|].
  all: split; [intros db d J; new_events; intuition congruence|].
  all: repeat match goal with
         | T : ?x = _ |- context [match ?x with _ => _ end] => rewrite T
         end.
  all: try solve [repeat split; rewrite <- ?app_assoc; reflexivity].
  all: try solve [left; eexists; new_events; repeat split; reflexivity].
  all: right; new_events; repeat split; cbn; auto.
Qed.

(** X10: once the ranges are parsed and stored, the run ends in success
    without a master search when the cache already holds the complete
    master domain information, and also when no master search base is
    configured. *)
Theorem ipa_subdomains_handler_ranges_done_success (st : state)
  (sd : ipa_subdomains_ctx) (c : ipa_subdomains_req_ctx)
  (reply : list attrs) (l : list range_info) (hp1 : heap)
  (w1 w2 w3 : W) (info : sysdb_subdom) :
  st_sd_ctx st = Some sd ->
  st_req_ctx st = Some c ->
  sdap_get_generic_recv (st_world st) = ((EOK, reply), w1) ->
  ipa_ranges_parse_results reply (st_heap st) = (Ok l, hp1) ->
  sysdb_update_ranges w1 (pick_sysdb st) l = (EOK, w2) ->
  sysdb_master_domain_get_info w2 (pick_sysdb st) = ((EOK, info), w3) ->
  (is_null (subdom_flat_name info) || is_null (subdom_id info)
   || is_null (subdom_name info) = false
   \/ master_search_bases sd = []) ->
  exists st',
    ipa_subdomains_handler_ranges_done st = Some st'
    /\ st_trace st'
       = st_trace st ++ [EvUpdateRanges (pick_sysdb st) l;
                         EvMasterGetInfo (pick_sysdb st);
                         EvReply DP_ERR_OK EOK]
    /\ st_req_ctx st' = None
    /\ st_pending st' = st_pending st
    /\ st_sd_ctx st' = st_sd_ctx st.
Proof.
  intros S C E Pr U G K.
  destruct (ipa_subdomains_handler_ranges_done st) as [st'|] eqn:R;
    [exists st'; split; [reflexivity|] | exfalso];
    unfold ipa_subdomains_handler_ranges_done,
      ipa_subdomains_handler_get in R;
    unfold_h; rewrite E in R;
    destruct (st_req_sysdb st) eqn:Db;
    split_h R.
  all: try absurd_case.
  all: same_lhs.
  all: try absurd_case.
  all: try (destruct K as [K|K]; [congruence|]).
  all: try (rewrite K in *; cbn in *; absurd_case).
  all: try subst st'; simpl_goal; rewrite <- ?app_assoc; cbn [app].
  all: repeat split; first [reflexivity | congruence].
Qed.

(** X6: subdomains, ranges and the lookup of the master domain
    information go to the cache of the request when it has one; the master
    domain information is always added to the cache of the backend. *)
Theorem ipa_subdomains_store_targets (cb : tevent_cb) (st st' : state)
  (db : sysdb_ref) :
  dispatch cb st = Some st' ->
  (forall l, In (EvUpdateSubdomains db l) (events_since st st') ->
             db = pick_sysdb st)
  /\ (forall l, In (EvUpdateRanges db l) (events_since st st') ->
                db = pick_sysdb st)
  /\ (In (EvMasterGetInfo db) (events_since st st') -> db = pick_sysdb st)
  /\ (forall d, In (EvMasterAddInfo db d) (events_since st st') ->
                db = be_ctx_sysdb).
Proof.
  intros R. destruct cb; cbn [dispatch] in R.
  - unfold ipa_subdomains_get_conn_done, ipa_subdomains_handler_get in R.
    unfold_h. split_h R.
    all: try absurd_case.
    all: subst st'; new_events.
    all: repeat split; intros; intuition congruence.
  - unfold ipa_subdomains_handler_done, ipa_subdomains_handler_get in R.
    unfold_h. unfold talloc_obj in R. split_h R.
    all: try absurd_case.
    all: subst st'; new_events.
    all: repeat split; intros; intuition congruence.
  - unfold ipa_subdomains_handler_master_done,
      ipa_subdomains_handler_get in R.
    unfold_h. unfold talloc_obj, talloc_strdup in R. split_h R.
    all: try absurd_case.
    all: subst st'; new_events.
    all: repeat split; intros; intuition congruence.
  - unfold ipa_subdomains_handler_ranges_done,
      ipa_subdomains_handler_get in R.
    unfold_h. split_h R.
    all: try absurd_case.
    all: subst st'; new_events.
    all: repeat split; intros; intuition congruence.
Qed.

(** A callback replies at most once, and a reply ends the run. *)
Lemma callback_replies (cb : tevent_cb) (st st1 : state) :
  st_pending st = None ->
  dispatch cb st = Some st1 ->
  exists evs,
    st_trace st1 = st_trace st ++ evs
    /\ (replies evs = 0
        \/ (replies evs = 1 /\ st_pending st1 = None
            /\ st_req_ctx st1 = None)).
Proof.
  intros P R. destruct cb; cbn [dispatch] in R.
  - unfold ipa_subdomains_get_conn_done, ipa_subdomains_handler_get in R.
    unfold_h. split_h R.
    all: try absurd_case.
    all: subst st1; simpl_goal.
    all: eexists; (split; [trace_ext|]).
    all: first [left; reflexivity | right; repeat split; auto].
  - unfold ipa_subdomains_handler_done, ipa_subdomains_handler_get in R.
    unfold_h. unfold talloc_obj in R. split_h R.
    all: try absurd_case.
    all: subst st1; simpl_goal.
    all: eexists; (split; [trace_ext|]).
    all: first [left; reflexivity | right; repeat split; auto].
  - unfold ipa_subdomains_handler_master_done,
      ipa_subdomains_handler_get in R.
    unfold_h. unfold talloc_obj, talloc_strdup in R. split_h R.
    all: try absurd_case.
    all: subst st1; simpl_goal.
    all: eexists; (split; [trace_ext|]).
    all: first [left; reflexivity | right; repeat split; auto].
  - unfold ipa_subdomains_handler_ranges_done,
      ipa_subdomains_handler_get in R.
    unfold_h. split_h R.
    all: try absurd_case.
    all: subst st1; simpl_goal.
    all: eexists; (split; [trace_ext|]).
    all: first [left; reflexivity | right; repeat split; auto].
Qed.

Lemma handler_replies (st st1 : @state attrs W) :
  ipa_subdomains_handler st = Some st1 ->
  exists evs,
    st_trace st1 = st_trace st ++ evs
    /\ (replies evs = 0
        \/ (replies evs = 1 /\ st_pending st1 = None
            /\ st_req_ctx st1 = None)).
Proof.
  intros R. unfold ipa_subdomains_handler in R.
  unfold_h. unfold talloc_obj in R. split_h R.
  all: try absurd_case.
  all: subst st1; simpl_goal.
  all: eexists; (split; [trace_ext|]).
  all: first [left; reflexivity | right; repeat split; auto].
Qed.

Lemma run_replies (fuel : nat) :
  forall st st' : @state attrs W,
    run fuel st = Some st' ->
    exists evs,
      st_trace st' = st_trace st ++ evs
      /\ (replies evs = 0
          \/ (replies evs = 1 /\ st_pending st' = None
              /\ st_req_ctx st' = None)).
Proof.
  induction fuel as [|fuel IH]; intros st st' R.
  - injection R as <-. exists []. rewrite app_nil_r. auto.
  - cbn [run] in R. destruct (st_pending st) as [cb|] eqn:P.
    + unfold step in R. rewrite P in R.
      destruct (dispatch cb (set_pending None st)) as [st1|] eqn:D;
        [|discriminate R].
      destruct (@callback_replies cb (set_pending None st) st1 eq_refl D)
        as (evs & T & [N | (N & P1 & C1)]).
      * destruct (IH _ _ R) as (evs' & T' & Q).
        exists (evs ++ evs'). cbn [st_trace set_pending] in T.
        rewrite T', T, app_assoc. split; [reflexivity|].
        rewrite replies_app, N. exact Q.
      * rewrite (@run_idle fuel st1 P1) in R. injection R as <-.
        exists evs. split; [exact T|]. right. auto.
    + injection R as <-. exists []. rewrite app_nil_r. auto.
Qed.

(** X2: in every configuration, empty search-base lists included, a run
    replies at most once; a reply ends the run and frees the run
    context. *)
Theorem ipa_subdomains_replies_at_most_once (fuel : nat)
  (st st' : @state attrs W) :
  run_discovery fuel st = Some st' ->
  exists evs,
    st_trace st' = st_trace st ++ evs
    /\ replies evs <= 1
    /\ (replies evs = 1 ->
        st_pending st' = None /\ st_req_ctx st' = None).
Proof.
  unfold run_discovery. intros R.
  destruct (ipa_subdomains_handler st) as [st1|] eqn:D; [|discriminate R].
  destruct (handler_replies _ D) as (evs & T & [N | (N & P1 & C1)]).
  - destruct (run_replies _ _ R) as (evs' & T' & Q).
    exists (evs ++ evs'). rewrite T', T, app_assoc, replies_app, N.
    split; [reflexivity|]. destruct Q as [Q | (Q & Q')]; rewrite Q.
    + split; [lia | discriminate].
    + split; [lia | auto].
  - rewrite (@run_idle fuel st1 P1) in R. injection R as <-.
    exists evs. rewrite N. split; [exact T|]. split; [lia | auto].
Qed.

(** What one callback does: the status of its reply, the request it
    leaves in flight, and what it leaves of the configuration. *)
Lemma callback_outcome (cb : tevent_cb) (st st1 : state) :
  st_pending st = None ->
  dispatch cb st = Some st1 ->
  (forall dp r, In (EvReply dp r) (events_since st st1) ->
                reply_status cb dp r)
  /\ match st_pending st1 with
     | None => True
     | Some cb' => next_stage cb cb' (events_since st st1)
     end
  /\ (forall dp, In (EvReply dp EOK) (events_since st st1) ->
                 cb = CB_handler_ranges_done ->
                 ranges_stored (events_since st st1))
  /\ (forall sd, st_sd_ctx st = Some sd ->
                 exists sd1,
                   st_sd_ctx st1 = Some sd1
                   /\ ranges_search_bases sd1 = ranges_search_bases sd)
  /\ (forall sd1, st_pending st1 = Some CB_handler_ranges_done ->
                  st_sd_ctx st1 = Some sd1 ->
                  ranges_search_bases sd1 <> []).
Proof.
  intros P R. destruct cb; cbn [dispatch] in R.
  - unfold ipa_subdomains_get_conn_done, ipa_subdomains_handler_get in R.
    unfold_h. split_h R.
    all: try absurd_case.
    all: subst st1; simpl_goal; same_some; rewrite ?P.
    all: first [solve [exfalso; rc_facts; congruence] | solve [outcome]].
  - unfold ipa_subdomains_handler_done, ipa_subdomains_handler_get in R.
    unfold_h. unfold talloc_obj in R. split_h R.
    all: try absurd_case.
    all: subst st1; simpl_goal; same_some; model_facts; rewrite ?P.
    all: first [solve [exfalso; rc_facts; congruence] | solve [outcome]].
  - unfold ipa_subdomains_handler_master_done,
      ipa_subdomains_handler_get in R.
    unfold_h. unfold talloc_obj, talloc_strdup in R. split_h R.
    all: try absurd_case.
    all: subst st1; simpl_goal; same_some; rewrite ?P.
    all: first [solve [exfalso; rc_facts; congruence] | solve [outcome]].
  - unfold ipa_subdomains_handler_ranges_done,
      ipa_subdomains_handler_get in R.
    unfold_h. split_h R.
    all: try absurd_case.
    all: subst st1; simpl_goal; same_some; rewrite ?P.
    all: try match goal with
           | T : ipa_ranges_parse_results _ _ = (Fail _, _) |- _ =>
               apply ipa_ranges_parse_results_fail_nonzero in T
           end.
    all: first [solve [exfalso; rc_facts; congruence] | solve [outcome]].
Qed.






(** One callback, with its events named. *)
Lemma callback_events (cb : tevent_cb) (st st1 : @state attrs W) :
  st_pending st = Some cb ->
  step st = Some st1 ->
  exists evs,
    st_trace st1 = st_trace st ++ evs
    /\ (forall dp r, In (EvReply dp r) evs -> reply_status cb dp r)
    /\ match st_pending st1 with
       | None => True
       | Some cb' => next_stage cb cb' evs
       end
    /\ (forall dp, In (EvReply dp EOK) evs ->
                   cb = CB_handler_ranges_done -> ranges_stored evs)
    /\ (forall sd, st_sd_ctx st = Some sd ->
                   exists sd1,
                     st_sd_ctx st1 = Some sd1
                     /\ ranges_search_bases sd1 = ranges_search_bases sd)
    /\ (forall sd1, st_pending st1 = Some CB_handler_ranges_done ->
                    st_sd_ctx st1 = Some sd1 ->
                    ranges_search_bases sd1 <> []).
Proof.
  intros P R. unfold step in R. rewrite P in R.
  destruct (@callback_replies cb (set_pending None st) st1 eq_refl R)
    as (evs & T & _).
  pose proof (@callback_outcome cb (set_pending None st) st1 eq_refl R) as O.
  unfold events_since in O. rewrite T, skipn_app_exact in O.
  exists evs. split; [exact T | exact O].
Qed.






Lemma run_no_ranges_base (fuel : nat) :
  forall (st st' : @state attrs W) (sd : ipa_subdomains_ctx),
    run fuel st = Some st' ->
    st_sd_ctx st = Some sd ->
    ranges_search_bases sd = [] ->
    st_pending st <> Some CB_handler_ranges_done ->
    st_pending st <> Some CB_handler_master_done ->
    exists evs,
      st_trace st' = st_trace st ++ evs
      /\ forall dp r, In (EvReply dp r) evs -> r <> EOK.
Proof.
  induction fuel as [|fuel IH]; intros st st' sd R S B N1 N2.
  - injection R as <-. exists []. rewrite app_nil_r.
    split; [reflexivity | intros dp r []].
  - cbn [run] in R. destruct (st_pending st) as [cb|] eqn:P.
    + destruct (step st) as [st1|] eqn:D; [|discriminate R].
      destruct (callback_events _ P D) as (evs & T & St & Nx & _ & Bs & Rg).
      destruct (Bs _ S) as (sd1 & S1 & B1). rewrite B in B1.
      assert (M : st_pending st1 <> Some CB_handler_ranges_done
                  /\ st_pending st1 <> Some CB_handler_master_done).
      { split.
        - intros Q. exact (Rg _ Q S1 B1).
        - intros Q. rewrite Q in Nx.
          destruct cb; cbn [next_stage] in Nx; try congruence.
          destruct Nx as [Nx | (Nx & _)]; discriminate Nx. }
      destruct (IH _ _ _ R S1 B1 (proj1 M) (proj2 M)) as (evs' & T' & Q).
      exists (evs ++ evs'). rewrite T', T, !app_assoc.
      split; [reflexivity|]. intros dp r J.
      apply in_app_or in J. destruct J as [J | J]; [|exact (Q dp r J)].
      specialize (St _ _ J).
      destruct cb; cbn [reply_status] in St; try congruence; tauto.
    + injection R as <-. exists []. rewrite app_nil_r.
      split; [reflexivity | intros dp r []].
Qed.

(** X4: with no ranges search base configured, no run that connects ends
    in success. *)
Theorem ipa_subdomains_no_ranges_base (fuel : nat)
  (st st1 st' : @state attrs W) (sd : ipa_subdomains_ctx) :
  ipa_subdomains_handler st = Some st1 ->
  st_pending st1 = Some CB_get_conn_done ->
  st_sd_ctx st = Some sd ->
  ranges_search_bases sd = [] ->
  run fuel st1 = Some st' ->
  forall dp r, In (EvReply dp r) (events_since st st') -> r <> EOK.
Proof.
  intros R P S B Rn dp r J.
  destruct (handler_in_flight _ R P) as (_ & T & S1 & _).
  rewrite S in S1.
  assert (N1 : st_pending st1 <> Some CB_handler_ranges_done)
    by (rewrite P; discriminate).
  assert (N2 : st_pending st1 <> Some CB_handler_master_done)
    by (rewrite P; discriminate).
  destruct (@run_no_ranges_base fuel st1 st' sd Rn S1 B N1 N2)
    as (evs & T' & Q).
  unfold events_since in J. rewrite T', T, <- app_assoc in J.
  rewrite skipn_app_exact in J. cbn [app] in J.
  destruct J as [J | J]; [discriminate J | exact (Q dp r J)].
Qed.

(** X5: the status of a reply.  The connection callback and the slave
    callback reply only failures, the slave callback always with
    [DP_ERR_FATAL]; the ranges and master callbacks reply [DP_ERR_OK] with
    [EOK] and [DP_ERR_FATAL] with every other code. *)
Theorem ipa_subdomains_reply_status (cb : tevent_cb)
  (st st' : @state attrs W) (dp : Z) (r : errno) :
  st_pending st = None ->
  dispatch cb st = Some st' ->
  In (EvReply dp r) (events_since st st') ->
  reply_status cb dp r.
Proof.
  intros P R. exact (proj1 (@callback_outcome cb st st' P R) dp r).
Qed.

(** X11: registration hands out the handler and no finalizer, with a
    context whose gate is open; on that context, when the options name a
    subdomain search base, every discovery run ends with exactly one
    reply. *)
Theorem ipa_subdom_init_then_discovery (id_ctx : ipa_id_ctx)
  (hp hp' : heap) (ops : bet_ops) (ctx : ipa_subdomains_ctx)
  (st : @state attrs W) (fuel : nat) :
  ipa_subdom_init id_ctx hp = (Ok (ops, ctx), hp') ->
  subdomains_search_bases (id_ctx_ipa_options id_ctx) <> [] ->
  st_sd_ctx st = Some ctx ->
  3 + List.length (subdomains_search_bases (id_ctx_ipa_options id_ctx))
  + List.length (master_domain_search_bases (id_ctx_ipa_options id_ctx))
  <= fuel ->
  finalize ops = None
  /\ last_refreshed ctx = 0%Z
  /\ exists h st' evs,
       handler ops = Some h
       /\ match h st with
          | Some st1 => run fuel st1
          | None => None
          end = Some st'
       /\ st_trace st' = st_trace st ++ evs
       /\ st_pending st' = None
       /\ replies evs = 1.
Proof.
  intros I B S F. unfold ipa_subdom_init in I.
  rewrite bind_talloc_obj in I.
  destruct (talloc hp) as [[] hp1]; cbn [fst snd negb] in I;
    [|discriminate I].
  injection I as <- <- _.
  split; [reflexivity|]. split; [reflexivity|].
  exists ipa_subdomains_handler.
  destruct (@run_discovery_replies_once st fuel) as (st' & evs & R).
  { intros sd E. rewrite S in E. injection E as <-.
    cbn [search_bases master_search_bases subdoms forallb].
    repeat split; assumption. }
  exists st', evs. split; [reflexivity|]. exact R.
Qed.

End Machine.

(** ** Discovery state machine: concrete runs *)

Ltac not_among :=
  repeat match goal with
         | I : In _ (_ :: _) |- _ => destruct I as [I | I]
         | I : In _ [] |- _ => destruct I
         | I : _ = _ |- _ => first [ discriminate I
                                   | injection I; intros; subst;
                                     first [ discriminate | reflexivity ] ]
         end.

(** The complete run of the specification: the subdomain is stored, then
    the ranges, then the master record, and the reply is a success. *)
Example full_run_trace :
  option_map (fun st => st_trace st) (run_discovery 10 full_run)
  = Some [EvConnect;
          EvSearch IPA_SUBDOMAINS_SLAVE (base_at "cn=trusts")
                   SUBDOMAINS_FILTER;
          EvRefresh [fetched "a.test" "A" "S-1"];
          EvUpdateSubdomains be_ctx_sysdb
                             [cached "A.TEST" "a.test" "A" "S-1"];
          EvSearch IPA_SUBDOMAINS_RANGES (base_at "cn=ranges") RANGE_FILTER;
          EvUpdateRanges be_ctx_sysdb
                         [mk_range_info (Ptr "R1") NULL 0 0 0 0];
          EvMasterGetInfo be_ctx_sysdb;
          EvSearch IPA_SUBDOMAINS_MASTER (base_at "cn=ad")
                   MASTER_DOMAIN_FILTER;
          EvMasterAddInfo be_ctx_sysdb
                          (mk_subdom NULL NULL (Ptr "M") (Ptr "S-0"));
          EvReply DP_ERR_OK EOK].
Proof. vm_compute. reflexivity. Qed.

(** C2, counterexample: with two ranges bases configured, the run ends
    in success having stored the ranges without a search on the second
    base; and when the ranges request is in flight the accumulator still
    holds the reply of the slave search. *)
Lemma ipa_subdomains_second_ranges_base_unused :
  (exists st2 c,
      run_discovery 2 full_run = Some st2
      /\ st_pending st2 = Some CB_handler_ranges_done
      /\ st_req_ctx st2 = Some c
      /\ search_base_iter c = 0
      /\ req_search_bases c = [base_at "cn=ranges"; base_at "cn=ranges2"]
      /\ req_reply c = [fetched "a.test" "A" "S-1"])
  /\ (exists st',
        run_discovery 10 full_run = Some st'
        /\ st_pending st' = None
        /\ In (EvReply DP_ERR_OK EOK) (st_trace st')
        /\ In (EvUpdateRanges be_ctx_sysdb
                  [mk_range_info (Ptr "R1") NULL 0 0 0 0]) (st_trace st')
        /\ forall flt,
             ~ In (EvSearch IPA_SUBDOMAINS_RANGES (base_at "cn=ranges2") flt)
                  (st_trace st')).
Proof.
  split.
  - eexists. eexists. split; [vm_compute; reflexivity|].
    cbn. repeat split.
  - eexists. split; [vm_compute; reflexivity|].
    cbn [st_pending st_trace]. split; [reflexivity|].
    split; [cbn; tauto|]. split; [cbn; tauto|].
    intros flt I. not_among.
Qed.

(** C5, counterexample: a run that fails with a parse error in the ranges
    stage, and a run that fails with a store error on the reconciled
    snapshot, both leave the timestamp at the time of the reconciliation
    (1000), not at zero; the next invocation at that time is skipped. *)
Lemma ipa_subdomains_later_failure_keeps_timestamp :
  (exists st' sd' st'',
      run_discovery 10 nameless_range_run = Some st'
      /\ st_pending st' = None
      /\ last (st_trace st') EvConnect = EvReply DP_ERR_FATAL ENOENT
      /\ st_sd_ctx st' = Some sd'
      /\ last_refreshed sd' = 1000%Z
      /\ ipa_subdomains_handler st' = Some st''
      /\ events_since st' st'' = [EvReply DP_ERR_OK EOK])
  /\ (exists st' sd',
        run_discovery 10 failing_store_run = Some st'
        /\ st_pending st' = None
        /\ last (st_trace st') EvConnect = EvReply DP_ERR_FATAL EIO
        /\ st_sd_ctx st' = Some sd'
        /\ last_refreshed sd' = 1000%Z).
Proof.
  split.
  - eexists. eexists. eexists. split; [vm_compute; reflexivity|].
    split; [reflexivity|]. split; [reflexivity|].
    split; [reflexivity|]. split; [reflexivity|].
    split; vm_compute; reflexivity.
  - eexists. eexists. split; [vm_compute; reflexivity|].
    repeat split.
Qed.

(** C6, counterexample: the record handed to the store in the complete
    run has no name; and when the first master result lacks its flat name
    the run ends in failure and nothing is handed to the store. *)
Lemma ipa_subdomains_master_record_unnamed :
  (exists st',
      run_discovery 10 full_run = Some st'
      /\ In (EvMasterAddInfo be_ctx_sysdb
                (mk_subdom NULL NULL (Ptr "M") (Ptr "S-0"))) (st_trace st')
      /\ forall db d,
           In (EvMasterAddInfo db d) (st_trace st') -> subdom_name d = NULL)
  /\ (exists st',
        run_discovery 10 flatless_master_run = Some st'
        /\ st_pending st' = None
        /\ last (st_trace st') EvConnect = EvReply DP_ERR_FATAL ENOENT
        /\ forall db d, ~ In (EvMasterAddInfo db d) (st_trace st')).
Proof.
  split.
  - eexists. split; [vm_compute; reflexivity|].
    cbn [st_trace]. split; [cbn; tauto|].
    intros db d I. not_among.
  - eexists. split; [vm_compute; reflexivity|].
    cbn [st_trace st_pending]. split; [reflexivity|].
    split; [reflexivity|].
    intros db d I. not_among.
Qed.

(** C7, the failing input: no search base is configured for the slave
    stage and the connection succeeds.  The connection callback returns
    with no request in flight and the completion callback has not fired:
    the only event of the run is the connection, and the run context is
    still allocated.  No later callback can run, whatever the fuel. *)
Theorem ipa_subdomains_no_reply_without_slave_base :
  forall fuel,
  exists st',
    run_discovery (S fuel) (fresh (friendly []) [] no_slave_base_config)
    = Some st'
    /\ st_pending st' = None
    /\ st_trace st' = [EvConnect]
    /\ st_req_ctx st' <> None
    /\ forall dp_err r, ~ In (EvReply dp_err r) (st_trace st').
Proof.
  intros fuel. eexists. split.
  - vm_compute. destruct fuel; reflexivity.
  - cbn [st_pending st_trace st_req_ctx]. repeat split; try discriminate.
    intros dp_err r I. not_among.
Qed.

(** ** The general statements at concrete inputs *)

Lemma ipa_subdomains_refresh_timestamp_witness :
  let ctx := mk_sd_ctx [] [] [] 0
               [mk_subdom (Ptr "A.TEST") (Ptr "a.test") NULL Freed] in
  forallb wf_subdom (subdoms ctx) = false
  /\ exists ctx' changes' hp',
       ipa_subdomains_refresh ctx [fetched "b.test" "B" "S-2"] false 100 []
       = (Ok (EOK, ctx', changes'), hp')
       /\ last_refreshed ctx' = 100%Z.
Proof.
  cbv zeta. split; [reflexivity|].
  pose proof (@ipa_subdomains_refresh_timestamp _ _
                (mk_sd_ctx [] [] [] 0
                   [mk_subdom (Ptr "A.TEST") (Ptr "a.test") NULL Freed])
                [fetched "b.test" "B" "S-2"] false 100 []) as T.
  destruct (ipa_subdomains_refresh _ _ _ _ _)
    as [[[[r ctx'] changes']|e|] hp'] eqn:R in T |- *.
  - assert (Er : r = EOK)
      by (vm_compute in R; injection R; intros; subst; reflexivity).
    subst r. exists ctx', changes', hp'.
    split; [reflexivity | exact (proj2 T eq_refl)].
  - contradiction.
  - vm_compute in R. discriminate R.
Defined.

Lemma ipa_subdomains_refresh_nodup_witness :
  forallb wf_subdom [cached "A.TEST" "a.test" "A" "S-1"] = true
  /\ NoDup (reply_names [fetched "a.test" "A" "S-1";
                         fetched "b.test" "B" "S-2"])
  /\ exists r ctx' changes' hp',
       ipa_subdomains_refresh
         (mk_sd_ctx [] [] [] 0 [cached "A.TEST" "a.test" "A" "S-1"])
         [fetched "a.test" "A" "S-1"; fetched "b.test" "B" "S-2"]
         false 100 []
       = (Ok (r, ctx', changes'), hp')
       /\ NoDup (map subdom_name (subdoms ctx')).
Proof.
  assert (N : NoDup (reply_names [fetched "a.test" "A" "S-1";
                                  fetched "b.test" "B" "S-2"])).
  { cbn. constructor.
    - intros [E | []]. discriminate E.
    - constructor; [intros [] | constructor]. }
  split; [reflexivity|]. split; [exact N|].
  apply ipa_subdomains_refresh_nodup; [reflexivity | exact N].
Defined.

Lemma ipa_subdomains_offline_witness :
  (ipa_subdomains_handler offline_run = Some connecting_offline
   /\ st_pending connecting_offline = Some CB_get_conn_done
   /\ sdap_id_op_connect_recv (st_world connecting_offline)
      = ((EIO, DP_ERR_OFFLINE), st_world connecting_offline)
   /\ EIO <> 0%Z)
  /\ exists st',
       run_discovery 1 offline_run = Some st'
       /\ st_pending st' = None
       /\ st_req_ctx st' = None
       /\ st_sd_ctx st' = st_sd_ctx offline_run
       /\ st_trace st'
          = st_trace offline_run ++ [EvConnect; EvReply DP_ERR_OFFLINE EIO].
Proof.
  assert (R : ipa_subdomains_handler offline_run = Some connecting_offline)
    by (vm_compute; reflexivity).
  assert (E : EIO <> 0%Z) by discriminate.
  split; [split; [exact R|]; split; [reflexivity|]; split;
          [reflexivity | exact E]|].
  exact (@ipa_subdomains_offline _ _ _ _ offline_run connecting_offline 0 EIO
           (st_world connecting_offline) R eq_refl eq_refl E).
Defined.

Lemma ipa_subdomains_ranges_stage_witness :
  (st_pending slave_reply_due = None
   /\ ipa_subdomains_handler_done slave_reply_due = Some ranges_reply_due
   /\ st_pending ranges_reply_due = Some CB_handler_ranges_done
   /\ step ranges_reply_due = Some master_reply_pending)
  /\ (exists c c1 sd1 base flt pre,
        st_req_ctx slave_reply_due = Some c
        /\ st_req_ctx ranges_reply_due = Some c1
        /\ st_sd_ctx ranges_reply_due = Some sd1
        /\ search_base_iter c1 = 0
        /\ req_search_bases c1 = ranges_search_bases sd1
        /\ req_reply c1
           = req_reply c
             ++ snd (fst (sdap_get_generic_recv (st_world slave_reply_due)))
        /\ nth_error (ranges_search_bases sd1) 0 = Some base
        /\ events_since slave_reply_due ranges_reply_due
           = pre ++ [EvSearch IPA_SUBDOMAINS_RANGES base flt]
        /\ (forall ty b f, ~ In (EvSearch ty b f) pre))
  /\ (let recv := fst (sdap_get_generic_recv (st_world ranges_reply_due)) in
      if rc_isnt (fst recv) EOK
      then events_since ranges_reply_due master_reply_pending
           = [EvReply DP_ERR_FATAL (fst recv)]
      else match ipa_ranges_parse_results (snd recv)
                   (st_heap ranges_reply_due) with
           | (Ok l, _) =>
               exists rest,
                 events_since ranges_reply_due master_reply_pending
                 = EvUpdateRanges (pick_sysdb ranges_reply_due) l :: rest
           | (Fail e, _) =>
               events_since ranges_reply_due master_reply_pending
               = [EvReply DP_ERR_FATAL e]
           | (Undef, _) => False
           end).
Proof.
  assert (R : ipa_subdomains_handler_done slave_reply_due
              = Some ranges_reply_due) by (vm_compute; reflexivity).
  assert (S : step ranges_reply_due = Some master_reply_pending)
    by (vm_compute; reflexivity).
  split; [split; [reflexivity|]; split; [exact R|]; split;
          [reflexivity | exact S]|].
  exact (@ipa_subdomains_ranges_stage _ _ _ _ slave_reply_due
           ranges_reply_due master_reply_pending eq_refl R eq_refl S).
Defined.

Lemma ipa_subdomains_timestamp_after_callback_witness :
  (st_sd_ctx slave_reply_due = Some two_ranges_config
   /\ dispatch CB_handler_done slave_reply_due = Some ranges_reply_due)
  /\ exists sd',
       st_sd_ctx ranges_reply_due = Some sd'
       /\ ((forall reply,
              ~ In (EvRefresh reply)
                   (events_since slave_reply_due ranges_reply_due)) ->
           sd' = two_ranges_config)
       /\ (CB_handler_done <> CB_handler_done ->
           forall reply,
             ~ In (EvRefresh reply)
                  (events_since slave_reply_due ranges_reply_due))
       /\ (forall reply,
             In (EvRefresh reply)
                (events_since slave_reply_due ranges_reply_due) ->
             let now :=
               time (snd (sdap_get_generic_recv (st_world slave_reply_due)))
             in
             exists hp r changes hp',
               ipa_subdomains_refresh two_ranges_config reply false now hp
               = (Ok (r, sd', changes), hp')
               /\ (r <> EOK -> last_refreshed sd' = 0%Z)
               /\ (r = EOK -> last_refreshed sd' = now)
               /\ (forall db l,
                     In (EvUpdateSubdomains db l)
                        (events_since slave_reply_due ranges_reply_due) ->
                     r = EOK)).
Proof.
  assert (D : dispatch CB_handler_done slave_reply_due
              = Some ranges_reply_due) by (vm_compute; reflexivity).
  split; [split; [reflexivity | exact D]|].
  exact (@ipa_subdomains_timestamp_after_callback _ _ _ _ CB_handler_done
           slave_reply_due ranges_reply_due two_ranges_config eq_refl D).
Defined.

Lemma ipa_subdomains_handler_master_done_found_witness :
  sdap_get_generic_recv (st_world master_reply_due)
  = ((EOK, [str IPA_FLATNAME "M"; str IPA_SID "S-0"] :: []), friendly [])
  /\ exists st',
       ipa_subdomains_handler_master_done master_reply_due = Some st'
       /\ st_pending st' = st_pending master_reply_due
       /\ st_req_ctx st' = None
       /\ st_trace st'
          = st_trace master_reply_due
            ++ [EvMasterAddInfo be_ctx_sysdb
                  (mk_subdom NULL NULL (Ptr "M") (Ptr "S-0"));
                EvReply DP_ERR_OK EOK].
Proof.
  split; [reflexivity|].
  exact (@ipa_subdomains_handler_master_done_found _ _ _ _ master_reply_due
           [str IPA_FLATNAME "M"; str IPA_SID "S-0"] [] (friendly [])
           eq_refl).
Defined.

(** ** Witnesses of the further properties *)

Ltac among := repeat first [left; reflexivity | right].

Lemma ipa_subdom_parse_round_trip_witness :
  ipa_subdom_parse (fetched "a.test" "A" "S-1") zero_subdom []
  = (Ok (cached "A.TEST" "a.test" "A" "S-1"), [])
  /\ ipa_subdom_parse (fetched "a.test" "A" "S-1")
                      (cached "A.TEST" "a.test" "A" "S-1") [false]
     = (Ok (cached "A.TEST" "a.test" "A" "S-1"), [false]).
Proof.
  assert (P : ipa_subdom_parse (fetched "a.test" "A" "S-1") zero_subdom []
              = (Ok (cached "A.TEST" "a.test" "A" "S-1"), []))
    by (vm_compute; reflexivity).
  split; [exact P|].
  exact (@ipa_subdom_parse_round_trip _ _ (fetched "a.test" "A" "S-1")
           (cached "A.TEST" "a.test" "A" "S-1") [] [] [false] P).
Defined.

Lemma ipa_subdom_parse_name_mismatch_witness :
  (subdom_name (cached "A.TEST" "a.test" "A" "S-1") = Ptr "a.test"
   /\ sysdb_attrs_get_string (fetched "b.test" "B" "S-2") IPA_CN
      = (EOK, "b.test"%string)
   /\ ("b.test" <> "a.test")%string)
  /\ ipa_subdom_parse (fetched "b.test" "B" "S-2")
                      (cached "A.TEST" "a.test" "A" "S-1") []
     = (Fail EINVAL, []).
Proof.
  assert (D : ("b.test" <> "a.test")%string) by discriminate.
  split; [split; [reflexivity|]; split; [reflexivity | exact D]|].
  exact (@ipa_subdom_parse_name_mismatch _ _ (fetched "b.test" "B" "S-2")
           (cached "A.TEST" "a.test" "A" "S-1") "a.test" "b.test" []
           eq_refl eq_refl D).
Defined.

Lemma ipa_subdom_parse_changed_flat_name_witness :
  (is_null (Ptr "A.TEST") = false
   /\ sysdb_attrs_get_string (fetched "a.test" "A2" "S-1") IPA_CN
      = (EOK, "a.test"%string)
   /\ sysdb_attrs_get_string (fetched "a.test" "A2" "S-1") IPA_FLATNAME
      = (EOK, "A2"%string)
   /\ sysdb_attrs_get_string (fetched "a.test" "A2" "S-1")
                             IPA_TRUSTED_DOMAIN_SID
      = (EOK, "S-1"%string)
   /\ ("A" <> "A2")%string)
  /\ ipa_subdom_parse (fetched "a.test" "A2" "S-1")
                      (mk_subdom (Ptr "A.TEST") (Ptr "a.test") (Ptr "A")
                                 (Ptr "S-1")) [true]
     = (Ok (mk_subdom (Ptr "A.TEST") (Ptr "a.test") (Ptr "A2") (Ptr "S-1")),
        []).
Proof.
  assert (D : ("A" <> "A2")%string) by discriminate.
  split; [repeat (split; [reflexivity|]); exact D|].
  exact (@ipa_subdom_parse_changed_flat_name _ _
           (fetched "a.test" "A2" "S-1") (Ptr "A.TEST") "a.test" "A" "A2"
           "S-1" [true] eq_refl eq_refl eq_refl eq_refl D).
Defined.

Lemma ipa_subdom_parse_keeps_name_and_realm_witness :
  let a := fetched "a.test" "A2" "S-1" in
  let d := mk_subdom (Ptr "OTHER.REALM") (Ptr "a.test") (Ptr "A")
                     (Ptr "S-1") in
  let d' := mk_subdom (Ptr "OTHER.REALM") (Ptr "a.test") (Ptr "A2")
                      (Ptr "S-1") in
  ipa_subdom_parse a d [] = (Ok d', [])
  /\ subdom_name d' = Ptr (snd (sysdb_attrs_get_string a IPA_CN))
  /\ (is_null (subdom_name d) = false -> subdom_name d' = subdom_name d)
  /\ (if is_null (subdom_realm d)
      then subdom_realm d'
           = Ptr (string_toupper (snd (sysdb_attrs_get_string a IPA_CN)))
      else subdom_realm d' = subdom_realm d).
Proof.
  cbv zeta.
  assert (P : ipa_subdom_parse (fetched "a.test" "A2" "S-1")
                (mk_subdom (Ptr "OTHER.REALM") (Ptr "a.test") (Ptr "A")
                           (Ptr "S-1")) []
              = (Ok (mk_subdom (Ptr "OTHER.REALM") (Ptr "a.test") (Ptr "A2")
                               (Ptr "S-1")), []))
    by (vm_compute; reflexivity).
  split; [exact P|].
  exact (@ipa_subdom_parse_keeps_name_and_realm _ _
           (fetched "a.test" "A2" "S-1") _ _ _ _ P).
Defined.

Lemma ipa_ranges_parse_results_failure_code_witness :
  fst (ipa_ranges_parse_results
         [[str IPA_CN "R1"; broken IPA_BASE_ID ERANGE]] []) = Fail ERANGE
  /\ ERANGE <> EOK
  /\ (ERANGE = ENOMEM
      \/ exists a,
           In a [[str IPA_CN "R1"; broken IPA_BASE_ID ERANGE]]
           /\ In ERANGE (range_lookup_codes a)
           /\ range_entry_ok a = false).
Proof.
  assert (P : fst (ipa_ranges_parse_results
                     [[str IPA_CN "R1"; broken IPA_BASE_ID ERANGE]] [])
              = Fail ERANGE) by (vm_compute; reflexivity).
  split; [exact P|].
  exact (@ipa_ranges_parse_results_failure_code _ _ _ [] ERANGE P).
Defined.

Lemma ipa_subdomains_refresh_exact_witness :
  (forallb wf_subdom (subdoms ab_cache) = true
   /\ ipa_subdomains_refresh ab_cache ac_batch false 100 []
      = (Ok (EOK, ac_cache, true), []))
  /\ List.length (subdoms ac_cache) = List.length ac_batch
  /\ Forall (fun a => fst (sysdb_attrs_get_string a IPA_CN) = EOK) ac_batch
  /\ Permutation (map subdom_name (subdoms ac_cache))
                 (map Ptr (reply_names ac_batch)).
Proof.
  assert (R : ipa_subdomains_refresh ab_cache ac_batch false 100 []
              = (Ok (EOK, ac_cache, true), [])) by (vm_compute; reflexivity).
  split; [split; [reflexivity | exact R]|].
  exact (@ipa_subdomains_refresh_exact _ _ ab_cache ac_cache ac_batch
           false true 100 [] [] eq_refl R).
Defined.

Lemma ipa_subdomains_refresh_order_witness :
  (forallb wf_subdom (subdoms ab_cache) = true
   /\ NoDup (subdom_names (subdoms ab_cache))
   /\ NoDup (reply_names ac_batch)
   /\ ipa_subdomains_refresh ab_cache ac_batch false 100 []
      = (Ok (EOK, ac_cache, true), []))
  /\ map subdom_name (subdoms ac_cache)
     = map Ptr
         (List.filter (has_name (reply_names ac_batch))
                      (subdom_names (subdoms ab_cache))
          ++ List.filter
               (fun n => negb (has_name (subdom_names (subdoms ab_cache)) n))
               (reply_names ac_batch))
  /\ true
     = (false
        || negb (forallb (has_name (subdom_names (subdoms ab_cache)))
                         (reply_names ac_batch))).
Proof.
  assert (Dc : NoDup (subdom_names (subdoms ab_cache))).
  { cbn. constructor.
    - intros [E | []]. discriminate E.
    - constructor; [intros [] | constructor]. }
  assert (Dr : NoDup (reply_names ac_batch)).
  { cbn. constructor.
    - intros [E | []]. discriminate E.
    - constructor; [intros [] | constructor]. }
  assert (R : ipa_subdomains_refresh ab_cache ac_batch false 100 []
              = (Ok (EOK, ac_cache, true), [])) by (vm_compute; reflexivity).
  split; [split; [reflexivity|]; split; [exact Dc|]; split;
          [exact Dr | exact R]|].
  exact (@ipa_subdomains_refresh_order _ _ ab_cache ac_cache ac_batch
           false true 100 [] [] eq_refl Dc Dr R).
Defined.

Lemma ipa_subdomains_refresh_idempotent_witness :
  (subdoms empty_cache = []
   /\ ipa_subdomains_refresh empty_cache ac_batch false 100 []
      = (Ok (EOK, ac_cache, true), []))
  /\ ipa_subdomains_refresh ac_cache ac_batch false 200 [false]
     = (Ok (EOK,
            mk_sd_ctx (search_bases ac_cache) (master_search_bases ac_cache)
                      (ranges_search_bases ac_cache) 200 (subdoms ac_cache),
            false),
        [false]).
Proof.
  assert (R : ipa_subdomains_refresh empty_cache ac_batch false 100 []
              = (Ok (EOK, ac_cache, true), [])) by (vm_compute; reflexivity).
  split; [split; [reflexivity | exact R]|].
  exact (@ipa_subdomains_refresh_idempotent _ _ empty_cache ac_cache ac_batch
           false true 100 [] [] eq_refl R false 200 [false]).
Defined.

Lemma ipa_subdomains_replies_once_witness :
  (forall sd,
      st_sd_ctx full_run = Some sd ->
      search_bases sd <> []
      /\ forallb wf_subdom (subdoms sd) = true
      /\ 3 + List.length (search_bases sd)
         + List.length (master_search_bases sd) <= 10)
  /\ exists st' evs,
       run_discovery 10 full_run = Some st'
       /\ st_trace st' = st_trace full_run ++ evs
       /\ st_pending st' = None
       /\ replies evs = 1.
Proof.
  assert (C : forall sd,
             st_sd_ctx full_run = Some sd ->
             search_bases sd <> []
             /\ forallb wf_subdom (subdoms sd) = true
             /\ 3 + List.length (search_bases sd)
                + List.length (master_search_bases sd) <= 10).
  { intros sd E. vm_compute in E. injection E as <-.
    split; [discriminate|]. split; [reflexivity|]. cbn. lia. }
  split; [exact C|].
  exact (@ipa_subdomains_replies_once _ _ _ _ full_run 10 C).
Defined.

Lemma ipa_subdomains_replies_at_most_once_witness :
  run_discovery 10 full_run = Some full_run_end
  /\ exists evs,
       st_trace full_run_end = st_trace full_run ++ evs
       /\ replies evs <= 1
       /\ (replies evs = 1 ->
           st_pending full_run_end = None /\ st_req_ctx full_run_end = None).
Proof.
  assert (R : run_discovery 10 full_run = Some full_run_end)
    by (vm_compute; reflexivity).
  split; [exact R|].
  exact (@ipa_subdomains_replies_at_most_once _ _ _ _ 10 full_run
           full_run_end R).
Defined.


Lemma ipa_subdomains_no_ranges_base_witness :
  (ipa_subdomains_handler no_ranges_base_run = Some no_ranges_base_connecting
   /\ st_pending no_ranges_base_connecting = Some CB_get_conn_done
   /\ st_sd_ctx no_ranges_base_run = Some no_ranges_base_config
   /\ ranges_search_bases no_ranges_base_config = []
   /\ run 10 no_ranges_base_connecting = Some no_ranges_base_end
   /\ In (EvReply DP_ERR_FATAL EINVAL)
         (events_since no_ranges_base_run no_ranges_base_end))
  /\ EINVAL <> EOK.
Proof.
  assert (R : ipa_subdomains_handler no_ranges_base_run
              = Some no_ranges_base_connecting) by (vm_compute; reflexivity).
  assert (Rn : run 10 no_ranges_base_connecting = Some no_ranges_base_end)
    by (vm_compute; reflexivity).
  assert (J : In (EvReply DP_ERR_FATAL EINVAL)
                (events_since no_ranges_base_run no_ranges_base_end))
    by (vm_compute; among).
  split; [split; [exact R|]; split; [reflexivity|]; split; [reflexivity|];
          split; [reflexivity|]; split; [exact Rn | exact J]|].
  exact (@ipa_subdomains_no_ranges_base _ _ _ _ 10 no_ranges_base_run
           no_ranges_base_connecting no_ranges_base_end
           no_ranges_base_config R eq_refl eq_refl eq_refl Rn
           DP_ERR_FATAL EINVAL J).
Defined.

Lemma ipa_subdomains_reply_status_witness :
  (st_pending master_reply_due = None
   /\ dispatch CB_handler_master_done master_reply_due = Some full_run_end
   /\ In (EvReply DP_ERR_OK EOK) (events_since master_reply_due full_run_end))
  /\ reply_status CB_handler_master_done DP_ERR_OK EOK.
Proof.
  assert (D : dispatch CB_handler_master_done master_reply_due
              = Some full_run_end) by (vm_compute; reflexivity).
  assert (J : In (EvReply DP_ERR_OK EOK)
                (events_since master_reply_due full_run_end))
    by (vm_compute; among).
  split; [split; [reflexivity|]; split; [exact D | exact J]|].
  exact (@ipa_subdomains_reply_status _ _ _ _ CB_handler_master_done
           master_reply_due full_run_end DP_ERR_OK EOK eq_refl D J).
Defined.

Lemma ipa_subdomains_store_targets_witness :
  dispatch CB_handler_ranges_done ranges_reply_due = Some master_reply_pending
  /\ (forall l,
         In (EvUpdateSubdomains be_ctx_sysdb l)
            (events_since ranges_reply_due master_reply_pending) ->
         be_ctx_sysdb = pick_sysdb ranges_reply_due)
  /\ (forall l,
         In (EvUpdateRanges be_ctx_sysdb l)
            (events_since ranges_reply_due master_reply_pending) ->
         be_ctx_sysdb = pick_sysdb ranges_reply_due)
  /\ (In (EvMasterGetInfo be_ctx_sysdb)
         (events_since ranges_reply_due master_reply_pending) ->
      be_ctx_sysdb = pick_sysdb ranges_reply_due)
  /\ (forall d,
         In (EvMasterAddInfo be_ctx_sysdb d)
            (events_since ranges_reply_due master_reply_pending) ->
         be_ctx_sysdb = be_ctx_sysdb).
Proof.
  assert (D : dispatch CB_handler_ranges_done ranges_reply_due
              = Some master_reply_pending) by (vm_compute; reflexivity).
  split; [exact D|].
  exact (@ipa_subdomains_store_targets _ _ _ _ CB_handler_ranges_done
           ranges_reply_due master_reply_pending be_ctx_sysdb D).
Defined.

Lemma ipa_subdomains_refresh_then_handler_witness :
  let st := fresh (friendly []) [] refreshed_config in
  (ipa_subdomains_refresh two_ranges_config [fetched "a.test" "A" "S-1"]
                          false 998 []
   = (Ok (EOK, refreshed_config, true), [])
   /\ st_sd_ctx st = Some refreshed_config)
  /\ (EOK = EOK ->
      (time (st_world st) - IPA_SUBDOMAIN_REFRESH_LIMIT < 998)%Z ->
      ipa_subdomains_handler st
      = Some (mk_state (st_world st) (st_heap st) (st_sd_ctx st)
                       (st_req_sysdb st) None None
                       (st_trace st ++ [EvReply DP_ERR_OK EOK])))
  /\ (EOK <> EOK ->
      (IPA_SUBDOMAIN_REFRESH_LIMIT <= time (st_world st))%Z ->
      forall st',
        ipa_subdomains_handler st = Some st' ->
        In EvConnect (events_since st st')
        \/ events_since st st' = [EvReply DP_ERR_FATAL ENOMEM]).
Proof.
  cbv zeta.
  assert (R : ipa_subdomains_refresh two_ranges_config
                [fetched "a.test" "A" "S-1"] false 998 []
              = (Ok (EOK, refreshed_config, true), []))
    by (vm_compute; reflexivity).
  split; [split; [exact R | reflexivity]|].
  exact (@ipa_subdomains_refresh_then_handler _ _ _ _ two_ranges_config
           refreshed_config [fetched "a.test" "A" "S-1"] false true 998 [] []
           EOK (fresh (friendly []) [] refreshed_config) R eq_refl).
Defined.

Lemma ipa_subdomains_handler_done_next_base_witness :
  let c := mk_req_ctx (Some SUBDOMAINS_FILTER)
                      (search_bases two_slave_config) 0 [] in
  (st_pending first_slave_reply_due = None
   /\ st_req_ctx first_slave_reply_due = Some c
   /\ ipa_subdomains_handler_done first_slave_reply_due
      = Some second_slave_search
   /\ st_pending second_slave_search = Some CB_handler_done)
  /\ exists c' base flt,
       st_req_ctx second_slave_search = Some c'
       /\ search_base_iter c' = S (search_base_iter c)
       /\ req_search_bases c' = req_search_bases c
       /\ req_reply c'
          = req_reply c
            ++ snd (fst (sdap_get_generic_recv
                           (st_world first_slave_reply_due)))
       /\ nth_error (req_search_bases c) (S (search_base_iter c)) = Some base
       /\ events_since first_slave_reply_due second_slave_search
          = [EvSearch IPA_SUBDOMAINS_SLAVE base flt]
       /\ st_sd_ctx second_slave_search = st_sd_ctx first_slave_reply_due.
Proof.
  cbv zeta.
  assert (R : ipa_subdomains_handler_done first_slave_reply_due
              = Some second_slave_search) by (vm_compute; reflexivity).
  split; [split; [reflexivity|]; split; [reflexivity|]; split;
          [exact R | reflexivity]|].
  exact (@ipa_subdomains_handler_done_next_base _ _ _ _
           first_slave_reply_due second_slave_search _ eq_refl eq_refl R
           eq_refl).
Defined.

Lemma ipa_subdomains_handler_master_done_empty_witness :
  let st := master_not_found_reply_due in
  let c := mk_req_ctx (Some MASTER_DOMAIN_FILTER)
                      (master_search_bases two_ranges_config) 0
                      [fetched "a.test" "A" "S-1"] in
  (st_req_ctx st = Some c
   /\ search_base_iter c < List.length (req_search_bases c)
   /\ sdap_get_generic_recv (st_world st) = ((EOK, []), friendly []))
  /\ exists st',
       ipa_subdomains_handler_master_done st = Some st'
       /\ st_sd_ctx st' = st_sd_ctx st
       /\ (forall db d, ~ In (EvMasterAddInfo db d) (events_since st st'))
       /\ st_trace st' = st_trace st ++ [EvReply DP_ERR_FATAL EIO]
       /\ st_req_ctx st' = None
       /\ st_pending st' = st_pending st.
Proof.
  cbv zeta.
  assert (L : 0 < 1) by lia.
  split; [split; [reflexivity|]; split; [exact L | reflexivity]|].
  exact (@ipa_subdomains_handler_master_done_empty _ _ _ _
           master_not_found_reply_due _ (friendly []) eq_refl L eq_refl).
Defined.

Lemma ipa_subdomains_handler_ranges_done_success_witness :
  let st := known_master_ranges_due in
  let sd := mk_sd_ctx [base_at "cn=trusts"] [base_at "cn=ad"]
                      [base_at "cn=ranges"; base_at "cn=ranges2"] 1000
                      [cached "A.TEST" "a.test" "A" "S-1"] in
  let c := mk_req_ctx (Some RANGE_FILTER) (ranges_search_bases sd) 0
                      [fetched "a.test" "A" "S-1"] in
  let reply := [[str IPA_CN "R1"]] in
  let l := [mk_range_info (Ptr "R1") NULL 0 0 0 0] in
  let w := snd (sdap_get_generic_recv (st_world st)) in
  let info := cached "IPA.TEST" "ipa.test" "IPA" "S-0" in
  (st_sd_ctx st = Some sd
   /\ st_req_ctx st = Some c
   /\ sdap_get_generic_recv (st_world st) = ((EOK, reply), w)
   /\ ipa_ranges_parse_results reply (st_heap st) = (Ok l, [])
   /\ sysdb_update_ranges w (pick_sysdb st) l = (EOK, w)
   /\ sysdb_master_domain_get_info w (pick_sysdb st) = ((EOK, info), w)
   /\ (is_null (subdom_flat_name info) || is_null (subdom_id info)
       || is_null (subdom_name info) = false
       \/ master_search_bases sd = []))
  /\ exists st',
       ipa_subdomains_handler_ranges_done st = Some st'
       /\ st_trace st'
          = st_trace st ++ [EvUpdateRanges (pick_sysdb st) l;
                            EvMasterGetInfo (pick_sysdb st);
                            EvReply DP_ERR_OK EOK]
       /\ st_req_ctx st' = None
       /\ st_pending st' = st_pending st
       /\ st_sd_ctx st' = st_sd_ctx st.
Proof.
  cbv zeta.
  split; [repeat (split; [reflexivity|]); left; reflexivity|].
  exact (@ipa_subdomains_handler_ranges_done_success _ _ _ _
           known_master_ranges_due _ _ _ _ _ _ _ _ _
           eq_refl eq_refl eq_refl eq_refl eq_refl eq_refl
           (or_introl eq_refl)).
Defined.

Lemma ipa_subdom_init_then_discovery_witness :
  (ipa_subdom_init one_base_each []
   = (Ok (ipa_subdomains_ops, registered_config), [])
   /\ subdomains_search_bases (id_ctx_ipa_options one_base_each) <> []
   /\ st_sd_ctx registered_run = Some registered_config
   /\ 3 + List.length (subdomains_search_bases
                         (id_ctx_ipa_options one_base_each))
      + List.length (master_domain_search_bases
                       (id_ctx_ipa_options one_base_each)) <= 10)
  /\ finalize (ipa_subdomains_ops (attrs := raw_attrs) (W := script)) = None
  /\ last_refreshed registered_config = 0%Z
  /\ exists h st' evs,
       handler ipa_subdomains_ops = Some h
       /\ match h registered_run with
          | Some st1 => run 10 st1
          | None => None
          end = Some st'
       /\ st_trace st' = st_trace registered_run ++ evs
       /\ st_pending st' = None
       /\ replies evs = 1.
Proof.
  assert (B : subdomains_search_bases (id_ctx_ipa_options one_base_each)
              <> []) by discriminate.
  assert (F : 3 + List.length (subdomains_search_bases
                                 (id_ctx_ipa_options one_base_each))
              + List.length (master_domain_search_bases
                               (id_ctx_ipa_options one_base_each)) <= 10)
    by (cbn; lia).
  split; [split; [reflexivity|]; split; [exact B|]; split;
          [reflexivity | exact F]|].
  exact (@ipa_subdom_init_then_discovery _ _ _ _ one_base_each [] []
           ipa_subdomains_ops registered_config registered_run 10
           eq_refl B eq_refl F).
Defined.
